(** * shell-history: authentication, session and request-governance core

    A shallow embedding of the Python backend under [backend/app]:
    the rate limiter, the credential hasher wrappers, the session and CSRF
    services, the authenticator, the login flow and the search filter
    builder, followed by the properties established about them.

    Conventions.
    - A Python [str] is a Rocq [string]; its characters are read as code
      points below 256.  [bytes] are strings of 8-bit values as well.
    - A Python computation that may raise is a [result]: [Ret v] or
      [Raise e].  [try ... except C] is [try_except].
    - Libraries outside the repository (itsdangerous, bcrypt, the codec
      and the search index client) are interfaces: type classes whose
      fields are the operations the code calls and the part of their
      documented contract the code relies on. *)

From Stdlib Require Import ZArith QArith String Ascii List Bool DecimalString Lia.
From stdpp Require Import gmap strings list.

Open Scope Z_scope.

(** ** Python runtime fragment *)

Module Py.

(** Exception instances the modelled code can meet. *)
Inductive exn : Type :=
| ValueError
| UnicodeEncodeError
| UnicodeDecodeError
| TypeError
| AttributeError
| BadSignature
| BadTimeSignature
| SignatureExpired
| HTTPException (status_code : Z) (detail : string)
| OtherException (name : string).

(** Classes named in the [except] clauses of the code. *)
Inductive exc_class : Type :=
| CException
| CValueError
| CTypeError
| CBadSignature
| CSignatureExpired.

(** [isinstance e c]: the class hierarchy.  [UnicodeError] derives from
    [ValueError]; itsdangerous derives [BadTimeSignature] from
    [BadSignature] and [SignatureExpired] from [BadTimeSignature]. *)
Definition isinstance (e : exn) (c : exc_class) : bool :=
  match c with
  | CException => true
  | CValueError =>
      match e with
      | ValueError | UnicodeEncodeError | UnicodeDecodeError => true
      | _ => false
      end
  | CTypeError => match e with TypeError => true | _ => false end
  | CBadSignature =>
      match e with
      | BadSignature | BadTimeSignature | SignatureExpired => true
      | _ => false
      end
  | CSignatureExpired => match e with SignatureExpired => true | _ => false end
  end.

Inductive result (A : Type) : Type :=
| Ret (a : A)
| Raise (e : exn).
Arguments Ret {A} a.
Arguments Raise {A} e.

Definition bind {A B} (m : result A) (k : A -> result B) : result B :=
  match m with
  | Ret a => k a
  | Raise e => Raise e
  end.

(** [try: body except (classes): handler] *)
Definition try_except {A} (body : result A) (classes : list exc_class)
    (handler : exn -> result A) : result A :=
  match body with
  | Ret a => Ret a
  | Raise e => if existsb (isinstance e) classes then handler e else Raise e
  end.

Definition returns {A} (m : result A) : Prop := exists a, m = Ret a.

(** *** str *)

Definition dquote_char : ascii := ascii_of_nat 34.
Definition squote_char : ascii := ascii_of_nat 39.
Definition dquote : string := String dquote_char "".
Definition squote : string := String squote_char "".

(** [bool(s)] for a string. *)
Definition nonempty (s : string) : bool :=
  match s with
  | EmptyString => false
  | String _ _ => true
  end.

(** Truthiness of an [str | None] value: [Some s] exactly when it is a
    non-empty string. *)
Definition truthy (o : option string) : option string :=
  match o with
  | Some s => if nonempty s then Some s else None
  | None => None
  end.

(** [a or b] on [str | None] values. *)
Definition or_else (a b : option string) : option string :=
  match truthy a with
  | Some s => Some s
  | None => b
  end.

(** [str.isspace] on one character (code points below 256). *)
Definition is_space (c : ascii) : bool :=
  let n := N_of_ascii c in
  ((9 <=? n) && (n <=? 13) || (28 <=? n) && (n <=? 32)
   || (n =? 133) || (n =? 160))%N.

Fixpoint lstrip_by (p : ascii -> bool) (s : string) : string :=
  match s with
  | EmptyString => EmptyString
  | String c s' => if p c then lstrip_by p s' else s
  end.

Fixpoint rstrip_by (p : ascii -> bool) (s : string) : string :=
  match s with
  | EmptyString => EmptyString
  | String c s' =>
      match rstrip_by p s' with
      | EmptyString => if p c then EmptyString else String c EmptyString
      | r => String c r
      end
  end.

Definition strip_by (p : ascii -> bool) (s : string) : string :=
  rstrip_by p (lstrip_by p s).

(** [s.strip()] *)
Definition strip (s : string) : string := strip_by is_space s.

(** [s.strip(chars)] *)
Definition strip_chars (chars s : string) : string :=
  strip_by (fun c => existsb (Ascii.eqb c) (list_ascii_of_string chars)) s.

(** [s.split(sep)[0]] for a one-character separator. *)
Fixpoint split_first (sep : ascii) (s : string) : string :=
  match s with
  | EmptyString => EmptyString
  | String c s' =>
      if Ascii.eqb c sep then EmptyString else String c (split_first sep s')
  end.

(** [s.replace(old, new)] for a non-empty [old]: occurrences are replaced
    left to right without overlap.  [skip] counts the characters of a
    matched occurrence still to be dropped. *)
Fixpoint replace_go (old new : string) (skip : nat) (s : string) : string :=
  match s with
  | EmptyString => EmptyString
  | String c s' =>
      match skip with
      | S k => replace_go old new k s'
      | O =>
          if String.prefix old s
          then new +:+ replace_go old new (String.length old - 1) s'
          else String c (replace_go old new 0 s')
      end
  end.

Definition replace (old new s : string) : string := replace_go old new 0 s.

(** [s.startswith(p)] *)
Definition startswith (s p : string) : bool := String.prefix p s.

Fixpoint occurs (c : ascii) (s : string) : bool :=
  match s with
  | EmptyString => false
  | String d s' => Ascii.eqb d c || occurs c s'
  end.

Fixpoint forall_chars (p : ascii -> bool) (s : string) : bool :=
  match s with
  | EmptyString => true
  | String c s' => p c && forall_chars p s'
  end.

(** One of [0-9a-f]. *)
Definition is_lower_hex (c : ascii) : bool :=
  let n := N_of_ascii c in
  ((48 <=? n) && (n <=? 57) || (97 <=? n) && (n <=? 102))%N.

(** [str(n)] for an [int]. *)
Definition str_of_int (n : Z) : string := NilZero.string_of_int (Z.to_int n).

(** *** int *)

(** Value of a character as a digit, letters counting from ten. *)
Definition digit_value (c : ascii) : option Z :=
  let n := Z.of_N (N_of_ascii c) in
  if (48 <=? n) && (n <=? 57) then Some (n - 48)
  else if (97 <=? n) && (n <=? 122) then Some (n - 87)
  else if (65 <=? n) && (n <=? 90) then Some (n - 55)
  else None.

(** The digits of an integer literal: digits below the base, single
    underscores between them, none at the end.  [prev_us] tells that the
    previous character was an underscore. *)
Fixpoint parse_digits (base : Z) (prev_us : bool) (acc : Z) (s : string)
  : option Z :=
  match s with
  | EmptyString => if prev_us then None else Some acc
  | String c s' =>
      if Ascii.eqb c "_"
      then if prev_us then None else parse_digits base true acc s'
      else
        match digit_value c with
        | Some d =>
            if d <? base then parse_digits base false (acc * base + d) s'
            else None
        | None => None
        end
  end.

(** Whitespace skipped around an integer literal. *)
Definition is_int_space (c : ascii) : bool :=
  let n := N_of_ascii c in
  ((9 <=? n) && (n <=? 13) || (n =? 32) || (n =? 133) || (n =? 160))%N.

(** [int(s, base)] for base 10 or 16; [None] stands for [ValueError]. *)
Definition int_of_str (base : Z) (s : string) : option Z :=
  let s := strip_by is_int_space s in
  let '(negative, s) :=
    match s with
    | String "+" r => (false, r)
    | String "-" r => (true, r)
    | _ => (false, s)
    end in
  let s :=
    if base =? 16
    then
      match s with
      | String "0" (String x r) =>
          if Ascii.eqb x "x" || Ascii.eqb x "X"
          then match r with String "_" r' => r' | _ => r end
          else s
      | _ => s
      end
    else s in
  match s with
  | EmptyString => None
  | String c _ =>
      if Ascii.eqb c "_" then None
      else
        match parse_digits base false 0 s with
        | Some v => Some (if negative then - v else v)
        | None => None
        end
  end.

(** One lower-case hexadecimal digit. *)
Definition hex_digit (d : Z) : ascii :=
  ascii_of_N (Z.to_N (if d <? 10 then 48 + d else 87 + d)).

(** ['%0<digits>x' % n] for [0 <= n < 16 ^ digits]. *)
Fixpoint hex_of (digits : nat) (n : Z) : string :=
  match digits with
  | O => EmptyString
  | S k => hex_of k (n / 16) +:+ String (hex_digit (n mod 16)) EmptyString
  end.

(** *** Values held by a [dict[str, Any]] of filters *)

Inductive pyval : Type :=
| PyNone
| PyBool (b : bool)
| PyInt (n : Z)
| PyStr (s : string).

(** [bool(v)] *)
Definition py_bool (v : pyval) : bool :=
  match v with
  | PyNone => false
  | PyBool b => b
  | PyInt n => negb (n =? 0)
  | PyStr s => nonempty s
  end.

(** [str(v)] *)
Definition py_str (v : pyval) : string :=
  match v with
  | PyNone => "None"
  | PyBool true => "True"
  | PyBool false => "False"
  | PyInt n => str_of_int n
  | PyStr s => s
  end.

(** [int(v)] *)
Definition py_int (v : pyval) : result Z :=
  match v with
  | PyNone => Raise TypeError
  | PyBool b => Ret (if b then 1 else 0)
  | PyInt n => Ret n
  | PyStr s =>
      match int_of_str 10 s with
      | Some n => Ret n
      | None => Raise ValueError
      end
  end.

(** *** uuid.UUID *)

Record UUID : Type := mkUUID { uuid_int : Z }.

Definition UUID_eqb (a b : UUID) : bool := uuid_int a =? uuid_int b.

(** [str(u)]: 32 hexadecimal digits in groups of 8-4-4-4-12. *)
Definition str_of_UUID (u : UUID) : string :=
  let hex := hex_of 32 (uuid_int u) in
  String.substring 0 8 hex +:+ "-" +:+ String.substring 8 4 hex +:+ "-"
  +:+ String.substring 12 4 hex +:+ "-" +:+ String.substring 16 4 hex
  +:+ "-" +:+ String.substring 20 12 hex.

(** [UUID(hex)] *)
Definition UUID_of_str (hex : string) : result UUID :=
  let hex := replace "uuid:" "" (replace "urn:" "" hex) in
  let hex := replace "-" "" (strip_chars "{}" hex) in
  if negb (String.length hex =? 32)%nat then Raise ValueError
  else
    match int_of_str 16 hex with
    | None => Raise ValueError
    | Some int =>
        if (0 <=? int) && (int <? 2 ^ 128) then Ret (mkUUID int)
        else Raise ValueError
    end.

(** A character of the text form of a UUID. *)
Definition is_uuid_char (c : ascii) : bool :=
  is_lower_hex c || Ascii.eqb c "-".

End Py.

Import Py.

(** ** The inbound request (Starlette's [Request], as far as it is read) *)

Record Request : Type := mkRequest {
  url_path : string;                 (* request.url.path *)
  headers : gmap string string;      (* request.headers, by header name *)
  cookies : gmap string string;      (* request.cookies *)
  client : option string             (* request.client.host, or no client *)
}.

(** ** services/rate_limit.py: get_client_ip *)

Definition get_client_ip (request : Request) : string :=
  match truthy (headers request !! "X-Forwarded-For") with
  | Some forwarded => strip (split_first "," forwarded)
  | None =>
      match truthy (headers request !! "X-Real-IP") with
      | Some real_ip => strip real_ip
      | None =>
          match client request with
          | Some host => host
          | None => "unknown"
          end
      end
  end.

(** ** services/rate_limit.py: RateLimiter *)

(** [self._requests]: a [defaultdict(list)] from key to the timestamps
    ([time.time()], seconds) of the admitted requests.  Timestamps are
    exact rationals here. *)
Abbreviation RateLimiter := (gmap string (list Q)).

(** [self._requests[key]]: a missing key reads as the empty list. *)
Definition history (rl : RateLimiter) (key : string) : list Q :=
  default [] (rl !! key).

(** [req_time > cutoff] *)
Definition later_than (cutoff req_time : Q) : bool :=
  negb (Qle_bool req_time cutoff).

Definition is_allowed (rl : RateLimiter) (key : string)
    (max_requests window_seconds : Z) (now : Q)
  : (bool * Z) * RateLimiter :=
  let cutoff := (now - inject_Z window_seconds)%Q in
  (* Clean old requests *)
  let requests := List.filter (later_than cutoff) (history rl key) in
  (* Check limit *)
  if Z.of_nat (List.length requests) >=? max_requests
  then ((false, 0), <[key := requests]> rl)
  else
    (* Add current request *)
    let requests' := requests ++ [now] in
    let remaining := Z.max 0 (max_requests - Z.of_nat (List.length requests')) in
    ((true, remaining), <[key := requests']> rl).

Definition get_remaining (rl : RateLimiter) (key : string)
    (max_requests window_seconds : Z) (now : Q) : Z * RateLimiter :=
  let cutoff := (now - inject_Z window_seconds)%Q in
  let requests := List.filter (later_than cutoff) (history rl key) in
  (Z.max 0 (max_requests - Z.of_nat (List.length requests)), <[key := requests]> rl).

(** Successive calls of [is_allowed] with the same key, limit and window at
    the given times: the answer of each call and the limiter after it. *)
Fixpoint run_calls (rl : RateLimiter) (key : string)
    (max_requests window_seconds : Z) (times : list Q)
  : list ((bool * Z) * RateLimiter) :=
  match times with
  | [] => []
  | now :: times' =>
      let r := is_allowed rl key max_requests window_seconds now in
      r :: run_calls (snd r) key max_requests window_seconds times'
  end.

(** Every timestamp of the list is still inside the window of every later
    one: a call at a later time would keep it when pruning. *)
Fixpoint within_window (window_seconds : Z) (times : list Q) : bool :=
  match times with
  | [] => true
  | t :: times' =>
      forallb (fun t' => later_than (t' - inject_Z window_seconds)%Q t) times'
      && within_window window_seconds times'
  end.

(** ** Library interfaces *)

(** [bytes] values. *)
Definition bytes : Type := string.

(** The UTF-8 codec: [s.encode("utf-8")] and [b.decode("utf-8")].  A
    modelled [str] holds no surrogate, so encoding does not fail. *)
Class Codec : Type := {
  encode : string -> bytes;
  decode : bytes -> result string;
  decode_encode : forall s, decode (encode s) = Ret s;
  encode_decode : forall b s, decode b = Ret s -> encode s = b;
  decode_raises : forall b e, decode b = Raise e -> e = UnicodeDecodeError
}.

(** [itsdangerous.TimestampSigner(secret_key)].  [sign value t] is
    [signer.sign(value)] when the clock reads [t] whole seconds;
    [unsign token max_age now] is [signer.unsign(token, max_age=max_age)]
    when the clock reads [now]. *)
Class TimestampSigner `{Codec} : Type := {
  sign : string -> Z -> bytes;
  unsign : bytes -> Z -> Z -> result bytes;
  sign_decodes : forall value t, returns (decode (sign value t));
  unsign_sign : forall value t max_age now,
    0 <= t -> t <= now -> now - t <= max_age ->
    unsign (sign value t) max_age now = Ret (encode value);
  unsign_raises : forall token max_age now e,
    unsign token max_age now = Raise e -> isinstance e CBadSignature = true
}.

(** [bcrypt.checkpw(password, hashed)]. *)
Class Bcrypt : Type := {
  checkpw : bytes -> bytes -> result bool
}.

(** ** services/password.py and services/api_key.py *)

Section CredentialHasher.

Context `{Codec} `{Bcrypt}.

Definition verify_password (plain_password hashed_password : string)
  : result bool :=
  try_except
    (let password_bytes := encode plain_password in
     let hash_bytes := encode hashed_password in
     bind (checkpw password_bytes hash_bytes) (fun result => Ret result))
    [CException]
    (fun _ => Ret false).

Definition verify_api_key (plain_key hashed_key : string) : result bool :=
  try_except
    (let password_bytes := encode plain_key in
     let hash_bytes := encode hashed_key in
     bind (checkpw password_bytes hash_bytes) (fun result => Ret result))
    [CException]
    (fun _ => Ret false).

End CredentialHasher.

(** ** config.py *)

Record Settings : Type := mkSettings {
  session_expire_hours : Z;
  secure_cookies : bool
}.

(** ** models.py *)

Module User.
Record t : Type := mk {
  id : UUID;
  username : string;
  email : string;
  role : string;
  password_hash : option string;
  is_active : bool
}.
End User.

Module ApiKey.
Record t : Type := mk {
  id : UUID;
  user_id : UUID;
  key : string;                    (* the stored hash *)
  name : option string;
  last_used_at : option Z;
  is_active : bool
}.
End ApiKey.

(** The tables read by the core, in row order. *)
Record Db : Type := mkDb {
  users : list User.t;
  api_keys : list ApiKey.t
}.

(** [db.query(User).filter(User.id == user_id).first()] *)
Definition user_by_id (db : Db) (user_id : UUID) : option User.t :=
  List.find (fun u => UUID_eqb (User.id u) user_id) (users db).

(** [db.query(User).filter(User.username == username).first()] *)
Definition user_by_username (db : Db) (username : string) : option User.t :=
  List.find (fun u => String.eqb (User.username u) username) (users db).

(** [db.query(ApiKey).filter(ApiKey.is_active).all()] *)
Definition active_api_keys (db : Db) : list ApiKey.t :=
  List.filter ApiKey.is_active (api_keys db).

(** [api_key_obj.last_used_at = when; db.commit()]: the row with the
    primary key of [api_key_obj] is updated. *)
Definition touch_api_key (db : Db) (api_key_obj : ApiKey.t) (when : Z) : Db :=
  mkDb (users db)
       (List.map
          (fun k =>
             if UUID_eqb (ApiKey.id k) (ApiKey.id api_key_obj)
             then ApiKey.mk (ApiKey.id k) (ApiKey.user_id k) (ApiKey.key k)
                            (ApiKey.name k) (Some when) (ApiKey.is_active k)
             else k)
          (api_keys db)).

(** [db.query(ApiKey).get(key_id)] *)
Definition api_key_by_id (db : Db) (key_id : UUID) : option ApiKey.t :=
  List.find (fun k => UUID_eqb (ApiKey.id k) key_id) (api_keys db).

(** ** Responses *)

Record Cookie : Type := mkCookie {
  cookie_key : string;
  cookie_value : string;
  cookie_httponly : bool;
  cookie_secure : bool;
  cookie_samesite : string;
  cookie_max_age : Z
}.

Inductive Response : Type :=
| TemplateResponse (template_name : string) (context_request : Request)
    (context_error : string) (status_code : Z)
| RedirectResponse (url : string) (status_code : Z) (set_cookie : Cookie).

Definition response_status (r : Response) : Z :=
  match r with
  | TemplateResponse _ _ _ status_code => status_code
  | RedirectResponse _ status_code _ => status_code
  end.

Definition response_error (r : Response) : option string :=
  match r with
  | TemplateResponse _ _ context_error _ => Some context_error
  | RedirectResponse _ _ _ => None
  end.

(** Calls made by the login flow, in the order they happen. *)
Inductive Event : Type :=
| EvRateLimit (key : string)
| EvUserLookup (username : string)
| EvVerifyPassword (username : string)
| EvCreateSession (user_id : UUID).

Section Services.

Context `{TimestampSigner} `{Bcrypt} (settings : Settings).

(** ** services/session.py: SessionManager *)

Definition expire_hours : Z := session_expire_hours settings.

Definition create_session (user_id : UUID) (clock : Z) : result string :=
  let signed := sign (str_of_UUID user_id) clock in
  decode signed.

Definition verify_session (session_token : string) (clock : Z)
  : result (option UUID) :=
  try_except
    (bind (unsign (encode session_token) (expire_hours * 3600) clock)
       (fun user_id_str =>
     bind (decode user_id_str) (fun user_id_text =>
     bind (UUID_of_str user_id_text) (fun user_id =>
     Ret (Some user_id)))))
    [CBadSignature; CSignatureExpired; CValueError]
    (fun _ => Ret None).

(** ** services/csrf.py: CSRFService *)

Definition verify_token (token : string) (clock : Z) : result bool :=
  if negb (nonempty token) then Ret false
  else
    try_except
      (bind (unsign (encode token) 3600 clock) (fun _ => Ret true))
      [CBadSignature]
      (fun _ => Ret false).

(** ** middleware/csrf.py *)

Definition verify_csrf_token (request : Request)
    (csrf_token x_csrf_token : option string) (clock : Z) : result unit :=
  (* Skip for API endpoints (they use API keys) *)
  if startswith (url_path request) "/api/" then Ret tt
  else
    (* Check header first, then form *)
    let token := or_else x_csrf_token csrf_token in
    match truthy token with
    | None => Raise (HTTPException 403 "Invalid or missing CSRF token")
    | Some token =>
        bind (verify_token token clock) (fun ok =>
        if ok then Ret tt
        else Raise (HTTPException 403 "Invalid or missing CSRF token"))
    end.

(** ** services/auth.py *)

(** The scan of the active keys, left at the first one that verifies. *)
Fixpoint first_verifying (x_api_key : string) (active_keys : list ApiKey.t)
  : result (option ApiKey.t) :=
  match active_keys with
  | [] => Ret None
  | key_obj :: rest =>
      bind (verify_api_key x_api_key (ApiKey.key key_obj)) (fun ok =>
      if ok then Ret (Some key_obj) else first_verifying x_api_key rest)
  end.

Definition authentication_required : exn :=
  HTTPException 401
    "Authentication required. Provide X-API-Key header or valid session.".

(** [utcnow] is [datetime.utcnow()], [clock] the signer's clock. *)
Definition get_current_user (request : Request) (x_api_key : option string)
    (db : Db) (utcnow clock : Z) : result User.t * Db :=
  match truthy x_api_key with
  | Some x_api_key =>
      (* Try API key first (for API clients) *)
      match first_verifying x_api_key (active_api_keys db) with
      | Raise e => (Raise e, db)
      | Ret None => (Raise (HTTPException 401 "Invalid API key"), db)
      | Ret (Some api_key_obj) =>
          match user_by_id db (ApiKey.user_id api_key_obj) with
          | None => (Raise AttributeError, db)
          | Some user =>
              if negb (User.is_active user)
              then (Raise (HTTPException 401 "User account is inactive"), db)
              else (Ret user, touch_api_key db api_key_obj utcnow)
          end
      end
  | None =>
      (* Try session cookie (for web UI) *)
      match truthy (cookies request !! "session") with
      | Some session_token =>
          match verify_session session_token clock with
          | Raise e => (Raise e, db)
          | Ret (Some user_id) =>
              match user_by_id db user_id with
              | Some session_user =>
                  if User.is_active session_user then (Ret session_user, db)
                  else
                    (Raise (HTTPException 401 "User account is inactive"), db)
              | None => (Raise authentication_required, db)
              end
          | Ret None => (Raise authentication_required, db)
          end
      | None => (Raise authentication_required, db)
      end
  end.

(** ** utils/auth_helpers.py *)

(** The outcome of [handle_login]: the response (or an exception), the
    rate limiter after the call and the calls made on the way.  [now] is
    [time.time()] as read by the rate limiter, [clock] the signer's. *)
Definition handle_login (request : Request) (username password : string)
    (db : Db) (template_name redirect_url rate_limit_key : string)
    (require_admin : bool) (rl : RateLimiter) (now : Q) (clock : Z)
  : result Response * RateLimiter * list Event :=
  (* Rate limiting: 5 attempts per 15 minutes per IP *)
  let client_ip := get_client_ip request in
  let limit_key := rate_limit_key +:+ ":" +:+ client_ip in
  let '((allowed, remaining), rl) := is_allowed rl limit_key 5 900 now in
  let log := [EvRateLimit limit_key] in
  if negb allowed
  then
    (Ret (TemplateResponse template_name request
            "Too many login attempts. Please try again in 15 minutes." 429),
     rl, log)
  else
    (* Find user by username *)
    let user := user_by_username db username in
    let log := log ++ [EvUserLookup username] in
    match user with
    | None =>
        (Ret (TemplateResponse template_name request
                "Invalid username or password" 401), rl, log)
    | Some user =>
        (* Verify password *)
        let invalid :=
          Ret (TemplateResponse template_name request
                 "Invalid username or password" 401) in
        match truthy (User.password_hash user) with
        | None => (invalid, rl, log)
        | Some password_hash =>
            let log := log ++ [EvVerifyPassword username] in
            match verify_password password password_hash with
            | Raise e => (Raise e, rl, log)
            | Ret false => (invalid, rl, log)
            | Ret true =>
                (* Check if admin required *)
                if require_admin && negb (String.eqb (User.role user) "admin")
                then
                  (Ret (TemplateResponse template_name request
                          "Admin access required" 403), rl, log)
                (* Check if active *)
                else if negb (User.is_active user)
                then
                  (Ret (TemplateResponse template_name request
                          "Account is inactive" 403), rl, log)
                else
                  (* Create session *)
                  let log := log ++ [EvCreateSession (User.id user)] in
                  match create_session (User.id user) clock with
                  | Raise e => (Raise e, rl, log)
                  | Ret session_token =>
                      (* Set cookie and redirect *)
                      (Ret (RedirectResponse redirect_url 303
                              (mkCookie "session" session_token true
                                 (secure_cookies settings) "lax"
                                 (expire_hours * 3600))),
                       rl, log)
                  end
            end
        end
    end.

End Services.

(** ** services/search.py: SearchService.search *)

Record SearchParams : Type := mkSearchParams {
  sp_limit : Z;
  sp_offset : Z;
  sp_filter : option (list string)
}.

(** The answer of the index, as far as [search] reads it. *)
Record IndexResults (Hit : Type) : Type := mkIndexResults {
  res_hits : option (list Hit);
  res_totalHits : option Z;
  res_nbHits : option Z
}.
Arguments mkIndexResults {Hit}.
Arguments res_hits {Hit}.
Arguments res_totalHits {Hit}.
Arguments res_nbHits {Hit}.

Record SearchOutcome (Hit : Type) : Type := mkSearchOutcome {
  out_hits : list Hit;
  out_total : Z
}.
Arguments mkSearchOutcome {Hit}.
Arguments out_hits {Hit}.
Arguments out_total {Hit}.

Definition user_id_clause (user_id : string) : string :=
  "user_id = " +:+ dquote +:+ user_id +:+ dquote.

Definition hostname_clause (hostname_escaped : string) : string :=
  "hostname = " +:+ dquote +:+ hostname_escaped +:+ dquote.

Definition username_clause (username_escaped : string) : string :=
  "username = " +:+ dquote +:+ username_escaped +:+ dquote.

Definition exit_code_clause (exit_code : Z) : string :=
  "exit_code = " +:+ str_of_int exit_code.

(** [str(v).strip().replace(dquote, empty).replace(squote, empty)] *)
Definition escaped (v : pyval) : string :=
  replace squote "" (replace dquote "" (strip (py_str v))).

(** [filters.get(name)] when it is truthy. *)
Definition truthy_filter (filters : gmap string pyval) (name : string)
  : option pyval :=
  match filters !! name with
  | Some v => if py_bool v then Some v else None
  | None => None
  end.

(** The filter array built by [search]: the user clause, then what the
    supplied filters add, in the order of the code. *)
Definition filter_array (user_id : string)
    (filters : option (gmap string pyval)) : list string :=
  (* Always include user_id filter first *)
  let filter_array := [user_id_clause user_id] in
  match filters with
  | None => filter_array
  | Some filters =>
      if decide (filters = ∅) then filter_array
      else
        (* Escape and validate hostname filter *)
        let filter_array :=
          match truthy_filter filters "hostname" with
          | Some v =>
              let hostname_escaped := escaped v in
              if nonempty hostname_escaped
              then filter_array ++ [hostname_clause hostname_escaped]
              else filter_array
          | None => filter_array
          end in
        (* Escape and validate username filter *)
        let filter_array :=
          match truthy_filter filters "username" with
          | Some v =>
              let username_escaped := escaped v in
              if nonempty username_escaped
              then filter_array ++ [username_clause username_escaped]
              else filter_array
          | None => filter_array
          end in
        (* Validate exit_code is an integer *)
        match filters !! "exit_code" with
        | None | Some PyNone => filter_array
        | Some v =>
            match
              try_except
                (bind (py_int v) (fun exit_code =>
                 Ret (filter_array ++ [exit_code_clause exit_code])))
                [CValueError; CTypeError]
                (fun _ => Ret filter_array)
            with
            | Ret filter_array => filter_array
            | Raise _ => filter_array
            end
        end
  end.

(** The parameters handed to [index.search]. *)
Definition search_params (user_id : string)
    (filters : option (gmap string pyval)) (limit offset : Z) : SearchParams :=
  let filter_array := filter_array user_id filters in
  mkSearchParams limit offset
    (match filter_array with
     | [] => None
     | _ => Some filter_array
     end).

(** [index] is [self.index]: absent, or the [search] method of the index. *)
Definition search {Hit : Type}
    (index : option (string -> SearchParams -> result (IndexResults Hit)))
    (query user_id : string) (filters : option (gmap string pyval))
    (limit offset : Z) : SearchOutcome Hit :=
  match index with
  | None => mkSearchOutcome [] 0
  | Some index_search =>
      match index_search query (search_params user_id filters limit offset) with
      | Ret results =>
          let hits := default [] (res_hits results) in
          let or_zero (o : option Z) :=
            match o with Some 0 | None => None | Some n => Some n end in
          let total :=
            match or_zero (res_totalHits results) with
            | Some n => n
            | None =>
                match or_zero (res_nbHits results) with
                | Some n => n
                | None => Z.of_nat (List.length hits)
                end
            end in
          mkSearchOutcome hits total
      | Raise _ => mkSearchOutcome [] 0
      end
  end.

(** ** Reference implementations of the library interfaces

    They show that the contracts above can be met and let the services
    run on concrete inputs. *)

Module Reference.

(** UTF-8 on strings of code points below 256: one byte below 128, two
    bytes from there on.  A byte sequence that is not UTF-8, or that
    encodes a code point the modelled [str] cannot hold, is refused. *)
Definition utf8_encode_char (c : ascii) : bytes :=
  let n := N_of_ascii c in
  if (n <? 128)%N then String c ""
  else String (ascii_of_N (192 + n / 64))
         (String (ascii_of_N (128 + n mod 64)) "").

Fixpoint utf8_encode (s : string) : bytes :=
  match s with
  | EmptyString => EmptyString
  | String c s' => utf8_encode_char c +:+ utf8_encode s'
  end.

Fixpoint utf8_decode (b : bytes) : result string :=
  match b with
  | EmptyString => Ret EmptyString
  | String b1 rest =>
      let n1 := N_of_ascii b1 in
      if (n1 <? 128)%N
      then bind (utf8_decode rest) (fun s => Ret (String b1 s))
      else if ((n1 =? 194) || (n1 =? 195))%N
      then
        match rest with
        | String b2 rest' =>
            let n2 := N_of_ascii b2 in
            if ((128 <=? n2) && (n2 <? 192))%N
            then
              bind (utf8_decode rest') (fun s =>
              Ret (String (ascii_of_N ((n1 - 192) * 64 + (n2 - 128))) s))
            else Raise UnicodeDecodeError
        | EmptyString => Raise UnicodeDecodeError
        end
      else Raise UnicodeDecodeError
  end.

(** A signer that writes the timestamp in front of the value, as that
    many [T]s and a dot, and authenticates nothing. *)
Fixpoint stamp (t : nat) (payload : bytes) : bytes :=
  match t with
  | O => String "." payload
  | S t' => String "T" (stamp t' payload)
  end.

Definition clear_sign (value : string) (t : Z) : bytes :=
  stamp (Z.to_nat t) (utf8_encode value).

Fixpoint clear_unsign_from (token : bytes) (stamped : Z) (max_age now : Z)
  : result bytes :=
  match token with
  | String "T" token' => clear_unsign_from token' (stamped + 1) max_age now
  | String "." payload =>
      let age := now - stamped in
      if (age >? max_age) || (age <? 0) then Raise SignatureExpired
      else Ret payload
  | _ => Raise BadSignature
  end.

Definition clear_unsign (token : bytes) (max_age now : Z) : result bytes :=
  clear_unsign_from token 0 max_age now.

(** A hasher that keeps the secret in clear behind the bcrypt prefix and
    raises on a hash string without that prefix. *)
Definition clear_checkpw (password hashed : bytes) : result bool :=
  if String.prefix "$2b$" hashed
  then Ret (String.eqb hashed ("$2b$" +:+ password))
  else Raise ValueError.

End Reference.

(** ** Example data *)

Module Example.

Definition alice : User.t :=
  User.mk (mkUUID 1) "alice" "alice@example.com" "user"
          (Some "$2b$wonderland") true.

Definition bob : User.t :=
  User.mk (mkUUID 2) "bob" "bob@example.com" "admin"
          (Some "$2b$builder") false.

Definition carol : User.t :=
  User.mk (mkUUID 3) "carol" "carol@example.com" "user" None true.

Definition alice_key : ApiKey.t :=
  ApiKey.mk (mkUUID 10) (mkUUID 1) "$2b$alice-key" None None true.

Definition bob_key : ApiKey.t :=
  ApiKey.mk (mkUUID 11) (mkUUID 2) "$2b$bob-key" None None true.

Definition retired_key : ApiKey.t :=
  ApiKey.mk (mkUUID 12) (mkUUID 1) "$2b$retired" None None false.

Definition db : Db :=
  mkDb [alice; bob; carol] [retired_key; bob_key; alice_key].

Definition settings : Settings := mkSettings 24 false.

(** The session token the reference signer issues to alice at time 3. *)
Definition alice_session : string :=
  "TTT.00000000-0000-0000-0000-000000000001".

End Example.

(** ** Vocabulary of the properties *)

(** An [str | None] value that is falsy. *)
Definition absent_or_empty (o : option string) : Prop :=
  o = None \/ o = Some "".

(** The client address as the claim words it: the header values are used
    whenever the headers exist. *)
Definition client_ip_as_claimed (request : Request) : string :=
  match headers request !! "X-Forwarded-For" with
  | Some forwarded => strip (split_first "," forwarded)
  | None =>
      match headers request !! "X-Real-IP" with
      | Some real_ip => real_ip
      | None =>
          match client request with
          | Some host => host
          | None => "unknown"
          end
      end
  end.

(** [Header(None, alias=X-API-Key)]: the header the authenticator reads. *)
Definition x_api_key_header (request : Request) : option string :=
  headers request !! "X-API-Key".

(** The request takes the API-key path of [get_current_user]. *)
Definition api_key_based (request : Request) : Prop :=
  is_Some (truthy (x_api_key_header request)).

(** [verify_csrf_token] lets the request through whatever token it
    carries. *)
Definition csrf_skipped `{TimestampSigner} (request : Request) : Prop :=
  forall csrf_token x_csrf_token clock,
    verify_csrf_token request csrf_token x_csrf_token clock = Ret tt.

Definition csrf_refused : exn :=
  HTTPException 403 "Invalid or missing CSRF token".

(** What bcrypt says of a secret and a stored hash, a raise counting as a
    refusal. *)
Definition bcrypt_accepts `{Codec} `{Bcrypt} (secret hash_string : string)
  : bool :=
  match checkpw (encode secret) (encode hash_string) with
  | Ret b => b
  | Raise _ => false
  end.

(** The stored hash of [key_obj] verifies against the header value. *)
Definition key_verifies `{Codec} `{Bcrypt} (x_api_key : string)
    (key_obj : ApiKey.t) : bool :=
  bcrypt_accepts x_api_key (ApiKey.key key_obj).

Definition set_last_used (when : Z) (k : ApiKey.t) : ApiKey.t :=
  ApiKey.mk (ApiKey.id k) (ApiKey.user_id k) (ApiKey.key k)
            (ApiKey.name k) (Some when) (ApiKey.is_active k).

(** The user has a password hash and bcrypt accepts the password for it. *)
Definition password_ok `{Codec} `{Bcrypt} (user : User.t) (password : string)
  : bool :=
  match truthy (User.password_hash user) with
  | Some password_hash => bcrypt_accepts password password_hash
  | None => false
  end.

(** The key under which [handle_login] counts the attempts of a client. *)
Definition limit_key (request : Request) (rate_limit_key : string) : string :=
  rate_limit_key +:+ ":" +:+ get_client_ip request.

(** The login page rendered with an error. *)
Definition error_page (request : Request) (template_name error : string)
    (status_code : Z) : result Response :=
  Ret (TemplateResponse template_name request error status_code).

(** The cookie set on a successful login. *)
Definition session_cookie (settings : Settings) (session_token : string)
  : Cookie :=
  mkCookie "session" session_token true (secure_cookies settings) "lax"
           (session_expire_hours settings * 3600).

(** What a supplied filter may add to the filter array. *)
Definition filter_clause (filters : gmap string pyval) (clause : string)
  : Prop :=
  (exists v, filters !! "hostname" = Some v
             /\ clause = hostname_clause (escaped v))
  \/ (exists v, filters !! "username" = Some v
                /\ clause = username_clause (escaped v))
  \/ (exists v exit_code, filters !! "exit_code" = Some v
                          /\ py_int v = Ret exit_code
                          /\ clause = exit_code_clause exit_code).

(** ** routers/commands.py: the ingestion quota *)

(** The key under which [create_command] counts the requests of a user. *)
Definition api_commands_key (current_user : User.t) : string :=
  "api_commands:" +:+ str_of_UUID (User.id current_user).

(** ** services/csrf.py: CSRFService.generate_token *)

(** [nonce] is the value drawn by [secrets.token_urlsafe(32)]. *)
Definition generate_token `{TimestampSigner} (nonce : string) (clock : Z)
  : result string :=
  let token := nonce in
  let signed := sign token clock in
  decode signed.

(** ** services/flash.py: FlashService *)

(** JSON values, numbers being integers here. *)
#[warnings="-register-all"]
Inductive jvalue : Type :=
| JNull
| JBool (b : bool)
| JNumber (n : Z)
| JString (s : string)
| JArray (items : list jvalue)
| JObject (fields : list (string * jvalue)).

Definition is_jstring (v : jvalue) : bool :=
  match v with
  | JString _ => true
  | _ => false
  end.

(** [json.dumps] and [json.loads].  The contract covers what the flash
    service relies on: an object of strings under distinct keys is read
    back as written, and [loads] raises [JSONDecodeError], a [ValueError],
    on anything that is not JSON. *)
Class Json : Type := {
  dumps : jvalue -> string;
  loads : string -> result jvalue;
  loads_dumps : forall fields,
    List.NoDup (List.map fst fields) ->
    forallb (fun kv => is_jstring (snd kv)) fields = true ->
    loads (dumps (JObject fields)) = Ret (JObject fields);
  loads_raises : forall s e,
    loads s = Raise e -> isinstance e CValueError = true
}.

(** [data.get(key, default)]: only a [dict] has the method. *)
Definition json_get (data : jvalue) (key : string) (default : jvalue)
  : result jvalue :=
  match data with
  | JObject fields =>
      Ret (match List.find (fun kv => String.eqb (fst kv) key) fields with
           | Some kv => snd kv
           | None => default
           end)
  | _ => Raise AttributeError
  end.

Section Flash.

Context `{TimestampSigner} `{Json}.

Definition set_flash (message category : string) (clock : Z) : result string :=
  let data := JObject [("message", JString message);
                       ("category", JString category)] in
  let signed := sign (dumps data) clock in
  decode signed.

(** [except (BadSignature, ValueError, json.JSONDecodeError)]: the last
    class derives from [ValueError]. *)
Definition get_flash (cookie_value : option string) (clock : Z)
  : result (option (jvalue * jvalue)) :=
  match truthy cookie_value with
  | None => Ret None
  | Some cookie_value =>
      try_except
        (bind (unsign (encode cookie_value) 300 clock) (fun data_str =>
         bind (decode data_str) (fun data_text =>
         bind (loads data_text) (fun data =>
         bind (json_get data "message" (JString "")) (fun message =>
         bind (json_get data "category" (JString "info")) (fun category =>
         Ret (Some (message, category))))))))
        [CBadSignature; CValueError]
        (fun _ => Ret None)
  end.

End Flash.

(** ** services/auth.py: what the authenticator writes *)

(** An API key row without its [last_used_at]. *)
Definition clear_last_used (k : ApiKey.t) : ApiKey.t :=
  ApiKey.mk (ApiKey.id k) (ApiKey.user_id k) (ApiKey.key k)
            (ApiKey.name k) None (ApiKey.is_active k).

(** ** Successive login attempts of one client *)

(** The form fields of a login attempt, with the readings of the two
    clocks when it is handled. *)
Record LoginAttempt : Type := mkLoginAttempt {
  attempt_username : string;
  attempt_password : string;
  attempt_now : Q;
  attempt_clock : Z
}.

(** [handle_login] called for each attempt in turn on the shared rate
    limiter: the response to each attempt and the limiter after it. *)
Fixpoint login_attempts `{TimestampSigner} `{Bcrypt} (settings : Settings)
    (request : Request) (db : Db)
    (template_name redirect_url rate_limit_key : string) (require_admin : bool)
    (rl : RateLimiter) (attempts : list LoginAttempt)
  : list (result Response * RateLimiter) :=
  match attempts with
  | [] => []
  | a :: attempts' =>
      let '(response, rl', _) :=
        handle_login settings request (attempt_username a)
          (attempt_password a) db template_name redirect_url rate_limit_key
          require_admin rl (attempt_now a) (attempt_clock a) in
      (response, rl')
      :: login_attempts settings request db template_name redirect_url
           rate_limit_key require_admin rl' attempts'
  end.

(** The page shown to a rate-limited client. *)
Definition too_many_attempts (request : Request) (template_name : string)
  : result Response :=
  error_page request template_name
    "Too many login attempts. Please try again in 15 minutes." 429.

(** The conditions under which a login goes through for [user]. *)
Definition login_granted `{Codec} `{Bcrypt} (request : Request) (db : Db)
    (rate_limit_key : string) (require_admin : bool)
    (username password : string) (rl : RateLimiter) (now : Q)
    (user : User.t) : Prop :=
  fst (fst (is_allowed rl (limit_key request rate_limit_key) 5 900 now)) = true
  /\ user_by_username db username = Some user
  /\ password_ok user password = true
  /\ (require_admin = false \/ User.role user = "admin")
  /\ User.is_active user = true.

(** ** services/password.py and services/api_key.py: hashing *)

(** [bcrypt.hashpw(password, salt)], with what bcrypt promises of a hash
    it returns: it is text and not empty, and [checkpw] accepts the
    password for it. *)
Class BcryptHasher `{Codec} `{Bcrypt} : Type := {
  hashpw : bytes -> bytes -> result bytes;
  hashpw_decodes : forall password salt hashed,
    hashpw password salt = Ret hashed ->
    exists text, decode hashed = Ret text /\ text <> EmptyString;
  checkpw_hashpw : forall password salt hashed,
    hashpw password salt = Ret hashed -> checkpw password hashed = Ret true
}.

(** [salt] is the value drawn by [bcrypt.gensalt(rounds=12)]. *)
Definition hash_password `{BcryptHasher} (password : string) (salt : bytes)
  : result string :=
  let password_bytes := encode password in
  bind (hashpw password_bytes salt) (fun hashed => decode hashed).

Definition hash_api_key `{BcryptHasher} (api_key : string) (salt : bytes)
  : result string :=
  hash_password api_key salt.

Module ReferenceHasher.

(** The hash the reference [checkpw] accepts: the password in clear behind
    the bcrypt prefix; passwords that are not text are refused. *)
Definition clear_hashpw (password salt : bytes) : result bytes :=
  match Reference.utf8_decode password with
  | Ret _ => Ret ("$2b$" +:+ password)
  | Raise _ => Raise ValueError
  end.

End ReferenceHasher.

(** ** Replies of the routers that set no session cookie *)

Inductive Reply : Type :=
| HTMLReply (content : string) (status_code : Z)
| RedirectReply (url : string) (status_code : Z)
| MessageReply (message : string)
| TemplateReply (template_name : string) (request : Request)
    (context : list (string * string)) (status_code : Z)
| JSONReply (status_code : Z) (detail : string).

(** ** routers/user_ui.py and routers/users.py: API keys *)

Definition deactivate_key (k : ApiKey.t) : ApiKey.t :=
  ApiKey.mk (ApiKey.id k) (ApiKey.user_id k) (ApiKey.key k)
            (ApiKey.name k) (ApiKey.last_used_at k) false.

(** [api_key.is_active = False; db.commit()] *)
Definition deactivate_api_key (db : Db) (api_key : ApiKey.t) : Db :=
  mkDb (users db)
       (List.map
          (fun k =>
             if UUID_eqb (ApiKey.id k) (ApiKey.id api_key)
             then deactivate_key k else k)
          (api_keys db)).

Definition revoke_api_key (api_key_id : UUID) (current_user : User.t)
    (db : Db) : result Reply * Db :=
  (* Find the API key *)
  match
    List.find
      (fun k =>
         UUID_eqb (ApiKey.id k) api_key_id
         && UUID_eqb (ApiKey.user_id k) (User.id current_user))
      (api_keys db)
  with
  | None => (Raise (HTTPException 404 "API key not found"), db)
  | Some api_key =>
      (* Deactivate the key *)
      (Ret (HTMLReply "" 200), deactivate_api_key db api_key)
  end.

(** [db.query(ApiKey).filter(ApiKey.user_id == user_id,
    ApiKey.is_active).update(is_active = False)] *)
Definition deactivate_keys_of (user_id : UUID) (keys : list ApiKey.t)
  : list ApiKey.t :=
  List.map
    (fun k =>
       if UUID_eqb (ApiKey.user_id k) user_id && ApiKey.is_active k
       then deactivate_key k else k)
    keys.

(** [ApiKey(user_id=..., key=..., is_active=True)] under a new primary
    key. *)
Definition new_api_key (key_id user_id : UUID) (key_hash : string) : ApiKey.t :=
  ApiKey.mk key_id user_id key_hash None None true.

(** routers/users.py: [regenerate_api_key].  [new_key_id] is the primary
    key drawn for the new row, [new_api_key_value] the plaintext drawn by
    [secrets.token_urlsafe(32)].  The reply carries the user and the
    plaintext key. *)
Definition regenerate_api_key `{BcryptHasher} (current_user : User.t)
    (db : Db) (new_key_id : UUID) (new_api_key_value : string) (salt : bytes)
  : result (User.t * string) * Db :=
  (* Deactivate all existing API keys for this user *)
  let deactivated := deactivate_keys_of (User.id current_user) (api_keys db) in
  (* Create new API key *)
  match hash_api_key new_api_key_value salt with
  | Raise e => (Raise e, db)
  | Ret new_api_key_hash =>
      (Ret (current_user, new_api_key_value),
       mkDb (users db)
            (deactivated
             ++ [new_api_key new_key_id (User.id current_user)
                   new_api_key_hash]))
  end.

(** ** routers/admin.py: toggle_user_status *)

(** [user.is_active = value; db.commit()] *)
Definition set_user_active (db : Db) (user : User.t) (value : bool) : Db :=
  mkDb (List.map
          (fun u =>
             if UUID_eqb (User.id u) (User.id user)
             then User.mk (User.id u) (User.username u) (User.email u)
                          (User.role u) (User.password_hash u) value
             else u)
          (users db))
       (api_keys db).

(** [current_user] is what the dependency [require_admin] returned. *)
Definition toggle_user_status (user_id : UUID) (current_user : User.t)
    (db : Db) : result Reply * Db :=
  match user_by_id db user_id with
  | None => (Raise (HTTPException 404 "User not found"), db)
  | Some user =>
      (* Prevent deactivating yourself *)
      if UUID_eqb (User.id user) (User.id current_user)
      then (Raise (HTTPException 400 "Cannot deactivate your own account"), db)
      else
        (Ret (RedirectReply "/admin" 303),
         set_user_active db user (negb (User.is_active user)))
  end.

(** ** routers/users.py: create_user *)

(** [db.query(User).filter((User.username == username) | (User.email ==
    email)).first()] *)
Definition user_by_username_or_email (db : Db) (username email : string)
  : option User.t :=
  List.find
    (fun u =>
       String.eqb (User.username u) username || String.eqb (User.email u) email)
    (users db).

(** [new_user_id] and [new_key_id] are the primary keys drawn for the two
    rows; [role] is the role named in the request. *)
Definition create_user `{BcryptHasher} (username email role : string)
    (db : Db) (new_user_id new_key_id : UUID) (api_key_value : string)
    (salt : bytes) : result User.t * Db :=
  (* Check if user already exists *)
  match user_by_username_or_email db username email with
  | Some _ => (Raise (HTTPException 400 "User already exists"), db)
  | None =>
      (* Generate API key for new user *)
      match hash_api_key api_key_value salt with
      | Raise e => (Raise e, db)
      | Ret api_key_hash =>
          let db_user := User.mk new_user_id username email role None true in
          (Ret db_user,
           mkDb (users db ++ [db_user])
                (api_keys db
                 ++ [new_api_key new_key_id (User.id db_user) api_key_hash]))
      end
  end.

Module ReferenceJson.

(** A serialisation that meets the contract of [Json] on what the flash
    service writes: an object is an opening brace followed by its keys and
    string values, each written as its length in strokes, a colon and the
    text.  Other values are written as [null]. *)
Fixpoint strokes (n : nat) : string :=
  match n with
  | O => ""
  | S n' => String "1" (strokes n')
  end.

Definition write_text (s : string) : string :=
  strokes (String.length s) +:+ String ":" s.

Definition text_of (v : jvalue) : string :=
  match v with
  | JString s => s
  | _ => ""
  end.

Fixpoint write_fields (fields : list (string * jvalue)) : string :=
  match fields with
  | [] => ""
  | (k, v) :: rest =>
      write_text k +:+ write_text (text_of v) +:+ write_fields rest
  end.

Definition toy_dumps (v : jvalue) : string :=
  match v with
  | JObject fields => String "{" (write_fields fields)
  | _ => "null"
  end.

Fixpoint count_strokes (s : string) : nat * string :=
  match s with
  | String c rest =>
      if Ascii.eqb c "1"
      then let '(n, rest') := count_strokes rest in (S n, rest')
      else (O, s)
  | EmptyString => (O, s)
  end.

Fixpoint take_text (n : nat) (s : string) : option (string * string) :=
  match n, s with
  | O, _ => Some ("", s)
  | S n', String c rest =>
      match take_text n' rest with
      | Some (text, rest') => Some (String c text, rest')
      | None => None
      end
  | S _, EmptyString => None
  end.

Definition read_text (s : string) : option (string * string) :=
  match count_strokes s with
  | (n, String c rest) => if Ascii.eqb c ":" then take_text n rest else None
  | (_, EmptyString) => None
  end.

Fixpoint read_fields (fuel : nat) (s : string)
  : option (list (string * jvalue)) :=
  match s, fuel with
  | EmptyString, _ => Some []
  | _, O => None
  | _, S fuel' =>
      match read_text s with
      | Some (k, rest) =>
          match read_text rest with
          | Some (v, rest') =>
              match read_fields fuel' rest' with
              | Some fields => Some ((k, JString v) :: fields)
              | None => None
              end
          | None => None
          end
      | None => None
      end
  end.

Definition toy_loads (s : string) : result jvalue :=
  match s with
  | String c rest =>
      if Ascii.eqb c "{"
      then
        match read_fields (String.length rest) rest with
        | Some fields => Ret (JObject fields)
        | None => Raise ValueError
        end
      else if String.eqb s "null" then Ret JNull
      else Raise ValueError
  | EmptyString => Raise ValueError
  end.

End ReferenceJson.

(** ** models.py: commands and hosts *)

Module Host.
Record t : Type := mk {
  id : UUID;
  hostname : string;
  ip_address : option string;
  os_type : option string;
  is_active : bool;
  last_seen : Z;
  user_id : UUID
}.
End Host.

Module Command.
Record t : Type := mk {
  id : UUID;
  command : string;
  hostname : string;
  username : string;
  alt_username : option string;
  cwd : option string;
  old_pwd : option string;
  exit_code : option Z;
  timestamp : Z;
  session_id : option string;
  redacted : bool;
  user_id : option UUID;
  host_id : option UUID
}.
End Command.

(** The tables of commands and hosts. *)
Record History : Type := mkHistory {
  commands : list Command.t;
  hosts : list Host.t
}.

(** schemas.py: [CommandCreate] *)
Record CommandCreate : Type := mkCommandCreate {
  cmd_command : string;
  cmd_hostname : string;
  cmd_username : string;
  cmd_alt_username : option string;
  cmd_cwd : option string;
  cmd_old_pwd : option string;
  cmd_exit_code : option Z;
  cmd_session_id : option string;
  cmd_redacted : bool
}.

(** The calls made on the search service, which answers none of them with
    an exception. *)
Inductive IndexCall : Type :=
| IndexCommand (command : Command.t)
| DeleteCommand (command_id : string).

(** ** routers/commands.py *)

(** [Command.user_id == current_user.id], false on a row without user. *)
Definition command_of (current_user : User.t) (c : Command.t) : bool :=
  match Command.user_id c with
  | Some user_id => UUID_eqb user_id (User.id current_user)
  | None => false
  end.

Definition host_of (current_user : User.t) (h : Host.t) : bool :=
  UUID_eqb (Host.user_id h) (User.id current_user).

(** [host.last_seen = when; db.commit()] *)
Definition touch_host (hosts : list Host.t) (host : Host.t) (when : Z)
  : list Host.t :=
  List.map
    (fun h =>
       if UUID_eqb (Host.id h) (Host.id host)
       then Host.mk (Host.id h) (Host.hostname h) (Host.ip_address h)
                    (Host.os_type h) (Host.is_active h) when (Host.user_id h)
       else h)
    hosts.

(** [now] is the rate limiter's [time.time()], [utcnow] the reading of
    [datetime.utcnow()] written to the host, [timestamp] the one written
    to the command; [new_host_id] and [new_command_id] are the primary
    keys drawn for new rows. *)
Definition create_command (cmd : CommandCreate) (current_user : User.t)
    (db : History) (rl : RateLimiter) (now : Q) (utcnow timestamp : Z)
    (new_host_id new_command_id : UUID)
  : result Command.t * History * RateLimiter * list IndexCall :=
  (* Rate limiting: 1000 requests per minute per user *)
  let '((allowed, remaining), rl) :=
    is_allowed rl (api_commands_key current_user) 1000 60 now in
  if negb allowed
  then (Raise (HTTPException 429 "Rate limit exceeded. Please slow down."),
        db, rl, [])
  else
    (* Get or create host (scoped to current user) *)
    let host :=
      List.find
        (fun h =>
           String.eqb (Host.hostname h) (cmd_hostname cmd)
           && host_of current_user h)
        (hosts db) in
    let '(host, hosts') :=
      match host with
      | None =>
          let host :=
            Host.mk new_host_id (cmd_hostname cmd) None None true utcnow
                    (User.id current_user) in
          (host, hosts db ++ [host])
      | Some host => (host, touch_host (hosts db) host utcnow)
      end in
    (* Create command record (redaction is now done client-side) *)
    let db_command :=
      Command.mk new_command_id (cmd_command cmd) (cmd_hostname cmd)
                 (cmd_username cmd) (cmd_alt_username cmd) (cmd_cwd cmd)
                 (cmd_old_pwd cmd) (cmd_exit_code cmd) timestamp
                 (cmd_session_id cmd) (cmd_redacted cmd)
                 (Some (User.id current_user)) (Some (Host.id host)) in
    (Ret db_command, mkHistory (commands db ++ [db_command]) hosts', rl,
     (* Index in search service *)
     [IndexCommand db_command]).

(** [db.query(Command).filter(Command.id == command_id, Command.user_id ==
    current_user.id).first()] *)
Definition command_by_id (db : History) (command_id : UUID)
    (current_user : User.t) : option Command.t :=
  List.find
    (fun c => UUID_eqb (Command.id c) command_id && command_of current_user c)
    (commands db).

Definition get_command (command_id : UUID) (current_user : User.t)
    (db : History) : result Command.t :=
  match command_by_id db command_id current_user with
  | None => Raise (HTTPException 404 "Command not found")
  | Some command => Ret command
  end.

Definition delete_command (command_id : UUID) (current_user : User.t)
    (db : History) : result Reply * History * list IndexCall :=
  match command_by_id db command_id current_user with
  | None => (Raise (HTTPException 404 "Command not found"), db, [])
  | Some command =>
      (Ret (MessageReply "Command deleted successfully"),
       (* db.delete(command) *)
       mkHistory
         (List.filter
            (fun c => negb (UUID_eqb (Command.id c) (Command.id command)))
            (commands db))
         (hosts db),
       (* Remove from search index *)
       [DeleteCommand (str_of_UUID command_id)])
  end.

(** [ORDER BY timestamp DESC]: rows are put latest first; rows of one
    timestamp are kept here in the order of the table. *)
Fixpoint insert_desc (c : Command.t) (sorted : list Command.t)
  : list Command.t :=
  match sorted with
  | [] => [c]
  | c' :: rest =>
      if Command.timestamp c' <? Command.timestamp c
      then c :: sorted
      else c' :: insert_desc c rest
  end.

Definition order_by_desc_timestamp (rows : list Command.t) : list Command.t :=
  List.fold_right insert_desc [] rows.

Record CommandPage : Type := mkCommandPage {
  items : list Command.t;
  total : Z;
  page_number : Z;
  page_size_used : Z;
  has_more : bool
}.

(** [search_commands] when [q] is absent or empty: the database query. *)
Definition search_commands (hostname username : option string)
    (start_date end_date exit_code : option Z) (page page_size : Z)
    (current_user : User.t) (db : History) : CommandPage :=
  (* Otherwise, use database query (filtered by user) *)
  let query := List.filter (command_of current_user) (commands db) in
  let query :=
    match truthy hostname with
    | Some hostname =>
        List.filter (fun c => String.eqb (Command.hostname c) hostname) query
    | None => query
    end in
  let query :=
    match truthy username with
    | Some username =>
        List.filter (fun c => String.eqb (Command.username c) username) query
    | None => query
    end in
  let query :=
    match start_date with
    | Some start_date =>
        List.filter (fun c => start_date <=? Command.timestamp c) query
    | None => query
    end in
  let query :=
    match end_date with
    | Some end_date =>
        List.filter (fun c => Command.timestamp c <=? end_date) query
    | None => query
    end in
  let query :=
    match exit_code with
    | Some exit_code =>
        List.filter
          (fun c =>
             match Command.exit_code c with
             | Some code => code =? exit_code
             | None => false
             end)
          query
    | None => query
    end in
  let total := Z.of_nat (List.length query) in
  let commands :=
    List.firstn (Z.to_nat page_size)
      (List.skipn (Z.to_nat (page * page_size))
         (order_by_desc_timestamp query)) in
  mkCommandPage commands total page page_size
    ((page + 1) * page_size <? total).

Module ExampleHistory.

(** Alice and carol each have a host called laptop. *)
Definition alice_laptop : Host.t :=
  Host.mk (mkUUID 20) "laptop" None None true 900 (mkUUID 1).

Definition carol_laptop : Host.t :=
  Host.mk (mkUUID 21) "laptop" None None true 901 (mkUUID 3).

Definition alice_ls : Command.t :=
  Command.mk (mkUUID 30) "ls" "laptop" "alice" None None None (Some 0) 910
             None false (Some (mkUUID 1)) (Some (mkUUID 20)).

Definition carol_make : Command.t :=
  Command.mk (mkUUID 31) "make" "laptop" "carol" None None None (Some 2) 920
             None false (Some (mkUUID 3)) (Some (mkUUID 21)).

Definition alice_pwd : Command.t :=
  Command.mk (mkUUID 32) "pwd" "laptop" "alice" None None None (Some 0) 930
             None false (Some (mkUUID 1)) (Some (mkUUID 20)).

Definition alice_false : Command.t :=
  Command.mk (mkUUID 33) "false" "laptop" "alice" None None None (Some 1) 940
             None false (Some (mkUUID 1)) (Some (mkUUID 20)).

Definition db : History :=
  mkHistory [alice_ls; carol_make; alice_pwd; alice_false]
            [alice_laptop; carol_laptop].

Definition upload : CommandCreate :=
  mkCommandCreate "git status" "laptop" "alice" None (Some "/home/alice")
                  None (Some 0) None false.

End ExampleHistory.

(** ** models.py: password reset tokens *)

Module PasswordResetToken.
Record t : Type := mk {
  id : UUID;
  user_id : UUID;
  token : string;
  expires_at : Z;
  used_at : option Z;
  created_at : Z
}.
End PasswordResetToken.

(** ** routers/user_ui.py: reset_password *)

(** [PasswordResetToken.token == token, used_at IS NULL, expires_at >
    utcnow] *)
Definition valid_reset_token (token : string) (utcnow : Z)
    (t : PasswordResetToken.t) : bool :=
  String.eqb (PasswordResetToken.token t) token
  && match PasswordResetToken.used_at t with
     | None => true
     | Some _ => false
     end
  && (utcnow <? PasswordResetToken.expires_at t).

(** [user.password_hash = password_hash] *)
Definition set_password_hash (db : Db) (user : User.t)
    (password_hash : string) : Db :=
  mkDb (List.map
          (fun u =>
             if UUID_eqb (User.id u) (User.id user)
             then User.mk (User.id u) (User.username u) (User.email u)
                          (User.role u) (Some password_hash)
                          (User.is_active u)
             else u)
          (users db))
       (api_keys db).

(** [reset_token.used_at = when] *)
Definition mark_used (tokens : list PasswordResetToken.t)
    (reset_token : PasswordResetToken.t) (when : Z)
  : list PasswordResetToken.t :=
  List.map
    (fun t =>
       if UUID_eqb (PasswordResetToken.id t) (PasswordResetToken.id reset_token)
       then PasswordResetToken.mk
              (PasswordResetToken.id t) (PasswordResetToken.user_id t)
              (PasswordResetToken.token t) (PasswordResetToken.expires_at t)
              (Some when) (PasswordResetToken.created_at t)
       else t)
    tokens.

(** The page with which [reset_password] refuses a request. *)
Definition reset_refused (request : Request) (token error : string) : Reply :=
  TemplateReply "user/reset_password.html" request
    [("token", token); ("error", error)] 400.

(** [utcnow] is the reading of [datetime.utcnow()] in the query, [used_when]
    the one written to the token; [salt] is the salt drawn for the hash. *)
Definition reset_password `{BcryptHasher} (request : Request)
    (token password : string) (db : Db) (tokens : list PasswordResetToken.t)
    (utcnow used_when : Z) (salt : bytes)
  : result Reply * Db * list PasswordResetToken.t :=
  (* Validate password length *)
  if (String.length password <? 8)%nat
  then
    (Ret (reset_refused request token
            "Password must be at least 8 characters long."),
     db, tokens)
  else
    (* Find and validate token *)
    match List.find (valid_reset_token token utcnow) tokens with
    | None =>
        (Ret (reset_refused request token
                "Invalid or expired reset token. Please request a new password reset."),
         db, tokens)
    | Some reset_token =>
        (* Update user password *)
        match user_by_id db (PasswordResetToken.user_id reset_token) with
        | None =>
            (Ret (reset_refused request token "User not found."), db, tokens)
        | Some user =>
            match hash_password password salt with
            | Raise e => (Raise e, db, tokens)
            | Ret password_hash =>
                (* Redirect to login *)
                (Ret (RedirectReply "/login?reset=success" 303),
                 set_password_hash db user password_hash,
                 mark_used tokens reset_token used_when)
            end
        end
    end.

(** ** main.py: http_exception_handler *)

(** [str.lower] on text of code points below 256. *)
Definition lower_char (c : ascii) : ascii :=
  let n := N_of_ascii c in
  if ((65 <=? n) && (n <=? 90))%N then ascii_of_N (n + 32)
  else if ((192 <=? n) && (n <=? 222) && negb (n =? 215))%N
  then ascii_of_N (n + 32)
  else c.

Fixpoint lower (s : string) : string :=
  match s with
  | EmptyString => EmptyString
  | String c rest => String (lower_char c) (lower rest)
  end.

(** [sub in s] *)
Fixpoint contains (sub s : string) : bool :=
  String.prefix sub s
  || match s with
     | String _ rest => contains sub rest
     | EmptyString => false
     end.

(** Browsers typically send Accept: text/html *)
Definition is_browser_request (request : Request) : bool :=
  let accept_header := lower (default "" (headers request !! "accept")) in
  contains "text/html" accept_header
  && negb (contains "application/json" accept_header).

Definition is_ui_route (request : Request) : bool :=
  (startswith (url_path request) "/admin"
   || startswith (url_path request) "/account"
   || startswith (url_path request) "/history")
  && negb (startswith (url_path request) "/api/").

(** [status_code] and [detail] are those of the exception handled. *)
Definition http_exception_handler (request : Request) (status_code : Z)
    (detail : string) : Reply :=
  (* For other cases, return JSON response (default FastAPI behavior) *)
  let json := JSONReply status_code detail in
  (* Only handle 401 (Unauthorized) errors for browser requests *)
  if status_code =? 401
  then
    (* Only redirect browser requests to UI routes *)
    if is_browser_request request && is_ui_route request
    then
      (* Redirect to appropriate login page *)
      if startswith (url_path request) "/admin"
      then RedirectReply "/admin/login" 303
      else RedirectReply "/login" 303
    else json
  else json.

Module ExampleReset.

Definition spent : PasswordResetToken.t :=
  PasswordResetToken.mk (mkUUID 42) (mkUUID 1) "reset-old" 5000 (Some 1200)
                        1100.

Definition alice_reset : PasswordResetToken.t :=
  PasswordResetToken.mk (mkUUID 40) (mkUUID 1) "reset-alice" 5000 None 1000.

Definition carol_reset : PasswordResetToken.t :=
  PasswordResetToken.mk (mkUUID 41) (mkUUID 3) "reset-carol" 5000 None 1000.

Definition tokens : list PasswordResetToken.t :=
  [spent; alice_reset; carol_reset].

End ExampleReset.

(** * Properties *)

(** ** Strings, integers and UUIDs *)

Section StringFacts.

Lemma append_nil_l (t : string) : "" +:+ t = t.
Proof. reflexivity. Qed.

Lemma append_cons (c : ascii) (s t : string) :
  String c s +:+ t = String c (s +:+ t).
Proof. reflexivity. Qed.

Lemma append_nil_r (s : string) : s +:+ "" = s.
Proof.
  induction s as [|c s IH]; [done|]. by rewrite append_cons, IH.
Qed.

Lemma append_assoc (a b c : string) : (a +:+ b) +:+ c = a +:+ (b +:+ c).
Proof.
  induction a as [|x a IH]; [done|]. by rewrite !append_cons, IH.
Qed.

Lemma length_append (a b : string) :
  String.length (a +:+ b) = (String.length a + String.length b)%nat.
Proof.
  induction a as [|x a IH]; [done|]. rewrite append_cons. simpl.
  by rewrite IH.
Qed.

Lemma forall_chars_append p (a b : string) :
  forall_chars p (a +:+ b) = forall_chars p a && forall_chars p b.
Proof.
  induction a as [|x a IH]; [done|]. rewrite append_cons. simpl.
  by rewrite IH, andb_assoc.
Qed.

Lemma forall_chars_impl (p q : ascii -> bool) (s : string) :
  (forall c, p c = true -> q c = true) ->
  forall_chars p s = true -> forall_chars q s = true.
Proof.
  intros Hpq. induction s as [|c s IH]; simpl; [done|].
  intros [Hc Hs]%andb_prop. by rewrite (Hpq _ Hc), IH.
Qed.

Lemma forall_chars_substring p (s : string) : forall n m,
  forall_chars p s = true -> forall_chars p (substring n m s) = true.
Proof.
  induction s as [|c s IH]; intros n m Hs.
  - by destruct n, m.
  - simpl in Hs. apply andb_prop in Hs as [Hc Hs].
    destruct n as [|n]; [destruct m as [|m]|]; simpl; [done| |by apply IH].
    by rewrite Hc, IH.
Qed.

Lemma occurs_absent p (c : ascii) (s : string) :
  p c = false -> forall_chars p s = true -> occurs c s = false.
Proof.
  intros Hc. induction s as [|d s IH]; simpl; [done|].
  intros [Hd Hs]%andb_prop. rewrite (IH Hs), orb_false_r.
  destruct (Ascii.eqb_spec d c) as [->|]; congruence.
Qed.

(** A pattern whose first character is not in the string is not found. *)
Lemma replace_absent (c : ascii) (old new s : string) :
  occurs c s = false -> replace (String c old) new s = s.
Proof.
  unfold replace. induction s as [|d s IH]; simpl; [done|].
  intros [Hd Hs]%orb_false_elim.
  destruct (ascii_dec c d) as [->|_].
  - by rewrite Ascii.eqb_refl in Hd.
  - by rewrite IH.
Qed.

Lemma replace_char_cons (c d : ascii) (s : string) :
  replace (String c "") "" (String d s)
  = if Ascii.eqb c d then replace (String c "") "" s
    else String d (replace (String c "") "" s).
Proof.
  unfold replace. simpl.
  destruct (ascii_dec c d) as [->|Hne].
  - rewrite Ascii.eqb_refl. by destruct s.
  - destruct (Ascii.eqb_spec c d); [done|]. by destruct s.
Qed.

Lemma replace_char_append (c : ascii) (a b : string) :
  replace (String c "") "" (a +:+ b)
  = replace (String c "") "" a +:+ replace (String c "") "" b.
Proof.
  induction a as [|d a IH]; [done|].
  rewrite append_cons, !replace_char_cons, IH.
  by destruct (Ascii.eqb c d).
Qed.

Lemma strip_by_absent p (s : string) :
  forall_chars (fun c => negb (p c)) s = true -> strip_by p s = s.
Proof.
  unfold strip_by. intros Hs.
  assert (Hl : lstrip_by p s = s).
  { destruct s as [|c s]; simpl in *; [done|].
    apply andb_prop in Hs as [Hc _]. by destruct (p c). }
  rewrite Hl. clear Hl.
  induction s as [|c s IH]; simpl in *; [done|].
  apply andb_prop in Hs as [Hc Hs]. rewrite (IH Hs).
  destruct s; [by destruct (p c)|done].
Qed.

End StringFacts.

Section UuidFacts.

Lemma hex_digit_value (d : Z) :
  0 <= d < 16 ->
  is_lower_hex (hex_digit d) = true
  /\ digit_value (hex_digit d) = Some d
  /\ Ascii.eqb (hex_digit d) "_" = false.
Proof.
  intros Hd.
  assert (Hcases : d = 0 \/ d = 1 \/ d = 2 \/ d = 3 \/ d = 4 \/ d = 5
                   \/ d = 6 \/ d = 7 \/ d = 8 \/ d = 9 \/ d = 10 \/ d = 11
                   \/ d = 12 \/ d = 13 \/ d = 14 \/ d = 15) by lia.
  repeat (destruct Hcases as [->|Hcases]; [by vm_compute|]).
  subst d. by vm_compute.
Qed.

Lemma hex_of_lower_hex (digits : nat) : forall n,
  forall_chars is_lower_hex (hex_of digits n) = true.
Proof.
  induction digits as [|k IH]; intros n; [done|].
  simpl. rewrite forall_chars_append, IH. simpl.
  destruct (hex_digit_value (n mod 16)) as [-> _]; [|done].
  apply Z.mod_pos_bound. lia.
Qed.

Lemma hex_of_length (digits : nat) : forall n,
  String.length (hex_of digits n) = digits.
Proof.
  induction digits as [|k IH]; intros n; [done|].
  simpl. rewrite length_append, IH. simpl. lia.
Qed.

(** Reading back the digits written by [hex_of]. *)
Lemma parse_digits_hex_of (digits : nat) : forall n acc rest,
  0 <= n < 16 ^ Z.of_nat digits ->
  parse_digits 16 false acc (hex_of digits n +:+ rest)
  = parse_digits 16 false (acc * 16 ^ Z.of_nat digits + n) rest.
Proof.
  induction digits as [|k IH]; intros n acc rest Hn.
  - simpl in *. rewrite append_nil_l. f_equal. lia.
  - rewrite Nat2Z.inj_succ, Z.pow_succ_r in * by lia.
    simpl. rewrite append_assoc, append_cons, append_nil_l.
    rewrite IH by (split; [apply Z.div_pos; lia|apply Z.div_lt_upper_bound; lia]).
    destruct (hex_digit_value (n mod 16)) as (_ & Hv & Hu);
      [apply Z.mod_pos_bound; lia|].
    simpl. rewrite Hu, Hv.
    destruct (Z.ltb_spec (n mod 16) 16) as [_|Hge];
      [|pose proof (Z.mod_pos_bound n 16); lia].
    f_equal. pose proof (Z.div_mod n 16). lia.
Qed.

Lemma lower_hex_not_space c : is_lower_hex c = true -> negb (is_int_space c) = true.
Proof.
  destruct c as [[] [] [] [] [] [] [] []]; vm_compute; congruence.
Qed.

(** On a non-empty string of hexadecimal digits [int(s, 16)] reads the
    digits: there is no sign, prefix or blank to take off. *)
Lemma int_of_str_lower_hex (s : string) :
  forall_chars is_lower_hex s = true ->
  (2 <= String.length s)%nat ->
  int_of_str 16 s = parse_digits 16 false 0 s.
Proof.
  intros Hs Hlen. unfold int_of_str.
  rewrite strip_by_absent
    by (eapply forall_chars_impl; [apply lower_hex_not_space|done]).
  destruct s as [|c1 [|c2 s]]; simpl in Hlen; [lia|lia|].
  simpl in Hs. apply andb_prop in Hs as [H1 Hs].
  apply andb_prop in Hs as [H2 Hs].
  assert (Hx : Ascii.eqb c2 "x" || Ascii.eqb c2 "X" = false).
  { clear -H2. destruct c2 as [[] [] [] [] [] [] [] []];
      vm_compute in H2 |- *; congruence. }
  assert (Hd : exists d, digit_value c1 = Some d).
  { clear -H1. destruct c1 as [[] [] [] [] [] [] [] []];
      vm_compute in H1 |- *; try congruence; eauto. }
  destruct c1 as [[] [] [] [] [] [] [] []];
    vm_compute in H1; try congruence; cbn -[parse_digits];
    rewrite ?Hx; cbn -[parse_digits]; by destruct (parse_digits _ _ _ _).
Qed.

Lemma substring_groups (hex : string) :
  String.length hex = 32%nat ->
  substring 0 8 hex +:+ substring 8 4 hex +:+ substring 12 4 hex
  +:+ substring 16 4 hex +:+ substring 20 12 hex = hex.
Proof.
  intros Hlen.
  do 32 (destruct hex as [|? hex]; [discriminate|]).
  destruct hex; [reflexivity|discriminate].
Qed.


Lemma UUID_of_str_of_UUID (u : UUID) :
  0 <= uuid_int u < 2 ^ 128 ->
  UUID_of_str (str_of_UUID u) = Ret u.
Proof.
  intros Hu. unfold UUID_of_str, str_of_UUID.
  set (hex := hex_of 32 (uuid_int u)).
  assert (Hhex : forall_chars is_lower_hex hex = true)
    by apply hex_of_lower_hex.
  assert (Hlen : String.length hex = 32%nat) by apply hex_of_length.
  set (text := _ +:+ _).
  assert (Htext : forall_chars is_uuid_char text = true).
  { assert (Hsub : forall n m,
              forall_chars is_uuid_char (substring n m hex) = true).
    { intros n m. apply (forall_chars_impl is_lower_hex).
      - intros c Hc. unfold is_uuid_char. by rewrite Hc.
      - by apply forall_chars_substring. }
    unfold text. by rewrite !forall_chars_append, !Hsub. }
  rewrite (replace_absent "u" "rn:" "" text)
    by (by apply (occurs_absent is_uuid_char)).
  rewrite (replace_absent "u" "uid:" "" text)
    by (by apply (occurs_absent is_uuid_char)).
  unfold strip_chars. rewrite strip_by_absent.
  2:{ eapply forall_chars_impl; [|exact Htext].
      intros c. destruct c as [[] [] [] [] [] [] [] []]; vm_compute; congruence. }
  assert (Hrm : replace "-" "" text = hex).
  { assert (Hsub : forall n m,
              replace "-" "" (substring n m hex) = substring n m hex).
    { intros n m. apply replace_absent, (occurs_absent is_lower_hex);
        [done|by apply forall_chars_substring]. }
    unfold text. rewrite !replace_char_append, !Hsub.
    change (replace "-" "" "-") with "". rewrite !append_nil_l.
    by apply substring_groups. }
  rewrite Hrm, Hlen. simpl negb. cbv iota.
  rewrite int_of_str_lower_hex by (done || lia).
  rewrite <- (append_nil_r hex). unfold hex.
  rewrite parse_digits_hex_of by (simpl; lia).
  simpl parse_digits. rewrite Z.add_0_l.
  destruct (Z.leb_spec 0 (uuid_int u)); [|lia].
  destruct (Z.ltb_spec (uuid_int u) (2 ^ 128)); [|lia].
  by destruct u.
Qed.

End UuidFacts.

(** ** The reference implementations meet the interfaces *)

Section ReferenceFacts.

Import Reference.

Lemma utf8_encode_cons c s :
  utf8_encode (String c s) = utf8_encode_char c +:+ utf8_encode s.
Proof. reflexivity. Qed.

Ltac each_byte c :=
  destruct c as [[] [] [] [] [] [] [] []].

Ltac encode_step :=
  rewrite utf8_encode_cons;
  match goal with
  | |- context [utf8_encode_char ?c] =>
      let v := eval vm_compute in (utf8_encode_char c) in
      change (utf8_encode_char c) with v
  end;
  rewrite ?append_cons, ?append_nil_l.

Lemma utf8_decode_cons b1 rest :
  utf8_decode (String b1 rest) =
    let n1 := N_of_ascii b1 in
    if (n1 <? 128)%N
    then bind (utf8_decode rest) (fun s => Ret (String b1 s))
    else if ((n1 =? 194) || (n1 =? 195))%N
    then
      match rest with
      | String b2 rest' =>
          let n2 := N_of_ascii b2 in
          if ((128 <=? n2) && (n2 <? 192))%N
          then
            bind (utf8_decode rest') (fun s =>
            Ret (String (ascii_of_N ((n1 - 192) * 64 + (n2 - 128))) s))
          else Raise UnicodeDecodeError
      | EmptyString => Raise UnicodeDecodeError
      end
    else Raise UnicodeDecodeError.
Proof. reflexivity. Qed.

Ltac decode_step := rewrite utf8_decode_cons; cbn -[utf8_decode].

Lemma utf8_decode_encode (s : string) : utf8_decode (utf8_encode s) = Ret s.
Proof.
  induction s as [|c s IH]; [done|].
  each_byte c; encode_step; decode_step; by rewrite IH.
Qed.

Lemma utf8_decode_inv (b : bytes) :
  (forall s, utf8_decode b = Ret s -> utf8_encode s = b)
  /\ (forall c s, utf8_decode (String c b) = Ret s ->
        utf8_encode s = String c b).
Proof.
  induction b as [|c' b [IH1 IH2]].
  - split; [by intros s [= <-]|].
    intros c s. each_byte c; cbn; intros [= <-]; done.
  - split; [exact (IH2 c')|].
    intros c s.
    each_byte c; decode_step; try discriminate.
    all: try (destruct (utf8_decode (String c' b)) as [s'|] eqn:Hd;
              [|discriminate]; intros [= <-];
              apply IH2 in Hd; encode_step; by rewrite Hd).
    all: each_byte c'; cbn -[utf8_decode]; try discriminate;
      (destruct (utf8_decode b) as [s'|] eqn:Hd; [|discriminate]);
      intros [= <-]; specialize (IH1 _ eq_refl); encode_step;
      by rewrite IH1.
Qed.

Lemma utf8_decode_raises (b : bytes) :
  (forall e, utf8_decode b = Raise e -> e = UnicodeDecodeError)
  /\ (forall c e, utf8_decode (String c b) = Raise e ->
        e = UnicodeDecodeError).
Proof.
  induction b as [|c' b [IH1 IH2]].
  - split; [done|].
    intros c e. each_byte c; cbn; (discriminate || (intros [= <-]; reflexivity)).
  - split; [exact (IH2 c')|].
    intros c e.
    each_byte c; decode_step; try (discriminate || (intros [= <-]; reflexivity)).
    all: try (destruct (utf8_decode (String c' b)) as [s'|e'] eqn:Hd;
              [discriminate|]; intros [= <-]; by apply IH2 in Hd).
    all: each_byte c'; cbn -[utf8_decode]; try (discriminate || (intros [= <-]; reflexivity));
      (destruct (utf8_decode b) as [s'|e'] eqn:Hd; [discriminate|]);
      intros [= <-]; exact (IH1 _ eq_refl).
Qed.

#[export] Instance utf8_codec : Codec := {|
  encode := utf8_encode;
  decode := utf8_decode;
  decode_encode := utf8_decode_encode;
  encode_decode := fun b => proj1 (utf8_decode_inv b);
  decode_raises := fun b => proj1 (utf8_decode_raises b)
|}.

End ReferenceFacts.

Section ReferenceSignerFacts.

Import Reference.

Lemma stamp_decodes (payload : bytes) (t : nat) :
  returns (utf8_decode payload) -> returns (utf8_decode (stamp t payload)).
Proof.
  intros [s Hs]. induction t as [|t [s' IH]]; simpl.
  - rewrite Hs. by eexists.
  - rewrite IH. by eexists.
Qed.

Lemma clear_unsign_stamp (payload : bytes) (max_age now : Z) (t : nat) :
  forall stamped,
    clear_unsign_from (stamp t payload) stamped max_age now
    = let age := now - (stamped + Z.of_nat t) in
      if (age >? max_age) || (age <? 0) then Raise SignatureExpired
      else Ret payload.
Proof.
  induction t as [|t IH]; intros stamped.
  - simpl. by rewrite Z.add_0_r.
  - cbn [stamp]. change (clear_unsign_from (String "T" ?r) ?k ?a ?n)
      with (clear_unsign_from r (k + 1) a n).
    rewrite IH. cbn zeta.
    by replace (stamped + 1 + Z.of_nat t) with (stamped + Z.of_nat (S t)) by lia.
Qed.

Lemma clear_unsign_raises (token : bytes) : forall stamped max_age now e,
  clear_unsign_from token stamped max_age now = Raise e ->
  isinstance e CBadSignature = true.
Proof.
  induction token as [|c token IH]; intros stamped max_age now e.
  - by intros [= <-].
  - destruct c as [[] [] [] [] [] [] [] []]; cbn -[Z.sub];
      try (by intros [= <-]); [|by apply IH].
    destruct (_ || _); by intros [= <-].
Qed.

Lemma clear_sign_decodes value t : returns (utf8_decode (clear_sign value t)).
Proof. apply stamp_decodes. rewrite utf8_decode_encode. by eexists. Qed.

Lemma clear_unsign_sign value t max_age now :
  0 <= t -> t <= now -> now - t <= max_age ->
  clear_unsign (clear_sign value t) max_age now = Ret (utf8_encode value).
Proof.
  intros Ht Hnow Hage. unfold clear_unsign, clear_sign.
  rewrite clear_unsign_stamp. cbn zeta. rewrite Z2Nat.id by done.
  destruct (Z.gtb_spec (now - (0 + t)) max_age); [lia|].
  by destruct (Z.ltb_spec (now - (0 + t)) 0); [lia|].
Qed.

#[export] Instance clear_signer : TimestampSigner := {|
  sign := clear_sign;
  unsign := clear_unsign;
  sign_decodes := clear_sign_decodes;
  unsign_sign := clear_unsign_sign;
  unsign_raises := fun token => clear_unsign_raises token 0
|}.

#[export] Instance clear_bcrypt : Bcrypt := {| checkpw := clear_checkpw |}.

End ReferenceSignerFacts.

(** ** Rate limiter *)

Section RateLimiterFacts.

Variables (key : string) (N W : Z).

Lemma filter_all_kept {A} (f : A -> bool) (l : list A) :
  forallb f l = true -> List.filter f l = l.
Proof.
  induction l as [|a l IH]; simpl; [done|].
  intros [Ha Hl]%andb_prop. rewrite Ha, IH; done.
Qed.

Lemma history_insert (rl : RateLimiter) h : history (<[key := h]> rl) key = h.
Proof. unfold history. by rewrite lookup_insert_eq. Qed.

(** An admitted call: nothing to prune, room left. *)
Lemma is_allowed_admits (rl : RateLimiter) (now : Q) :
  forallb (later_than (now - inject_Z W)%Q) (history rl key) = true ->
  Z.of_nat (List.length (history rl key)) < N ->
  fst (is_allowed rl key N W now)
    = (true, N - Z.of_nat (S (List.length (history rl key))))
  /\ history (snd (is_allowed rl key N W now)) key = history rl key ++ [now].
Proof.
  intros Hlive Hlt. unfold is_allowed.
  rewrite (filter_all_kept _ _ Hlive).
  destruct (Z.geb_spec (Z.of_nat (List.length (history rl key))) N) as [?|_];
    [lia|].
  simpl. rewrite history_insert, length_app. simpl. split; [|done].
  f_equal. lia.
Qed.

(** A denied call: the answer is [(False, 0)] and nothing is recorded. *)
Lemma is_allowed_denies (rl : RateLimiter) (now : Q) :
  forallb (later_than (now - inject_Z W)%Q) (history rl key) = true ->
  N <= Z.of_nat (List.length (history rl key)) ->
  fst (is_allowed rl key N W now) = (false, 0)
  /\ history (snd (is_allowed rl key N W now)) key = history rl key.
Proof.
  intros Hlive Hge. unfold is_allowed.
  rewrite (filter_all_kept _ _ Hlive).
  destruct (Z.geb_spec (Z.of_nat (List.length (history rl key))) N) as [_|?];
    [|lia].
  simpl. by rewrite history_insert.
Qed.

(** Whatever the time of the call, the history does not grow past a limit
    it respected before. *)
Lemma is_allowed_bounded (rl : RateLimiter) (now : Q) :
  0 <= N ->
  Z.of_nat (List.length (history rl key)) <= N ->
  Z.of_nat (List.length (history (snd (is_allowed rl key N W now)) key)) <= N.
Proof.
  intros HN Hle. unfold is_allowed.
  set (req := List.filter _ _).
  assert (Hreq : (List.length req <= List.length (history rl key))%nat)
    by apply List.filter_length_le.
  destruct (Z.geb_spec (Z.of_nat (List.length req)) N); simpl;
    rewrite history_insert; [lia|].
  rewrite length_app. simpl. lia.
Qed.

Lemma within_window_app_live h t l :
  within_window W (h ++ t :: l) = true ->
  forallb (later_than (t - inject_Z W)%Q) h = true.
Proof.
  induction h as [|a h IH]; simpl; [done|].
  intros [Ha Hh]%andb_prop. rewrite (IH Hh), andb_true_r.
  rewrite forallb_app in Ha. apply andb_prop in Ha as [_ Ha].
  simpl in Ha. by apply andb_prop in Ha as [Ha _].
Qed.

Lemma within_window_app_drop h t l :
  within_window W (h ++ t :: l) = true -> within_window W (h ++ l) = true.
Proof.
  induction h as [|a h IH]; simpl.
  - by intros [_ ?]%andb_prop.
  - intros [Ha Hh]%andb_prop. rewrite (IH Hh), andb_true_r.
    rewrite forallb_app in Ha |- *. simpl in Ha.
    apply andb_prop in Ha as [-> Ha]. by apply andb_prop in Ha as [_ ->].
Qed.

(** The [i]-th answer of a run that starts from history [h], all of whose
    entries stay inside the window of every call of the run. *)
Lemma run_calls_nth (times : list Q) : forall (rl : RateLimiter) (i : nat) r,
  within_window W (history rl key ++ times) = true ->
  run_calls rl key N W times !! i = Some r ->
  let h := history rl key in
  (Z.of_nat (List.length h + i) < N ->
     fst r = (true, N - Z.of_nat (S (List.length h + i)))
     /\ history (snd r) key = h ++ take (S i) times)
  /\ (N <= Z.of_nat (List.length h + i) ->
     fst r = (false, 0)
     /\ history (snd r) key = h ++ take (Z.to_nat N - List.length h) times).
Proof.
  induction times as [|now times IH]; intros rl i r Hw Hr; [done|].
  pose proof (within_window_app_live _ _ _ Hw) as Hlive.
  simpl in Hr. destruct i as [|i].
  - injection Hr as <-. cbn zeta. rewrite Nat.add_0_r. split; intros Hc.
    + by apply is_allowed_admits.
    + destruct (is_allowed_denies rl now Hlive Hc) as [-> ->].
      split; [done|].
      replace (Z.to_nat N - List.length (history rl key))%nat with 0%nat by lia.
      by rewrite take_0, app_nil_r.
  - simpl in Hr. cbn zeta.
    set (rl' := snd (is_allowed rl key N W now)) in *.
    destruct (Z.lt_ge_cases (Z.of_nat (List.length (history rl key))) N)
      as [Hroom|Hfull].
    + destruct (is_allowed_admits rl now Hlive Hroom) as [_ Hh].
      fold rl' in Hh.
      assert (Hw' : within_window W (history rl' key ++ times) = true)
        by (rewrite Hh, <- app_assoc; exact Hw).
      destruct (IH rl' i r Hw' Hr) as [IH1 IH2].
      rewrite Hh, length_app in IH1, IH2. simpl in IH1, IH2.
      split; intros Hc.
      * destruct IH1 as [-> ->]; [lia|]. split; [do 2 f_equal; lia|].
        by rewrite <- app_assoc.
      * destruct IH2 as [-> ->]; [lia|]. split; [done|].
        rewrite <- app_assoc. simpl.
        replace (Z.to_nat N - List.length (history rl key))%nat
          with (S (Z.to_nat N - (List.length (history rl key) + 1)))%nat by lia.
        done.
    + destruct (is_allowed_denies rl now Hlive Hfull) as [_ Hh].
      fold rl' in Hh.
      assert (Hw' : within_window W (history rl' key ++ times) = true)
        by (rewrite Hh; exact (within_window_app_drop _ _ _ Hw)).
      destruct (IH rl' i r Hw' Hr) as [_ IH2].
      rewrite Hh in IH2. split; intros Hc; [lia|].
      destruct IH2 as [-> ->]; [lia|]. split; [done|].
      replace (Z.to_nat N - List.length (history rl key))%nat with 0%nat by lia.
      by rewrite !take_0.
Qed.

Lemma run_calls_length (times : list Q) : forall rl : RateLimiter,
  List.length (run_calls rl key N W times) = List.length times.
Proof. induction times as [|t times IH]; intros rl; simpl; [done|]. by rewrite IH. Qed.

End RateLimiterFacts.

(** C4. With a limit [N >= 1], a key without history and [N + 1] calls of
    [is_allowed] that all fall inside one window: the [i]-th call
    ([i = 1 .. N]) is allowed with [N - i] remaining, so the remaining
    count goes strictly down to 0; the call after that is denied with 0
    remaining and records nothing, the history staying as the [N]-th call
    left it.  A call never lets a history of at most [N] entries grow
    past [N], so along the run it never exceeds [N]. *)
Theorem is_allowed_limit (key : string) (N W : Z) (rl : RateLimiter)
    (times : list Q) :
  1 <= N ->
  history rl key = [] ->
  List.length times = S (Z.to_nat N) ->
  within_window W times = true ->
  let answers := run_calls rl key N W times in
  (forall i, (i < Z.to_nat N)%nat ->
     exists rl_i,
       answers !! i = Some ((true, N - Z.of_nat (S i)), rl_i)
       /\ history rl_i key = take (S i) times)
  /\ (exists rl_d,
       answers !! Z.to_nat N = Some ((false, 0), rl_d)
       /\ history rl_d key = take (Z.to_nat N) times)
  /\ (forall i r, answers !! i = Some r ->
       Z.of_nat (List.length (history (snd r) key)) <= N)
  /\ (forall (rl' : RateLimiter) now,
       Z.of_nat (List.length (history rl' key)) <= N ->
       Z.of_nat (List.length
                   (history (snd (is_allowed rl' key N W now)) key)) <= N).
Proof.
  intros HN Hempty Hlen Hwin answers.
  assert (Hw : within_window W (history rl key ++ times) = true)
    by (by rewrite Hempty).
  assert (Hnth : forall i, (i < S (Z.to_nat N))%nat ->
            exists r, answers !! i = Some r).
  { intros i Hi. apply lookup_lt_is_Some_2. unfold answers.
    rewrite run_calls_length. lia. }
  assert (Hspec := fun i r => run_calls_nth key N W times rl i r Hw).
  rewrite Hempty in Hspec. cbn zeta in Hspec. simpl in Hspec.
  repeat split.
  - intros i Hi. destruct (Hnth i ltac:(lia)) as [[a rl_i] Hr].
    destruct (Hspec i _ Hr) as [Hadm _]. simpl in Hadm.
    destruct Hadm as [-> Hh]; [lia|]. by exists rl_i.
  - destruct (Hnth (Z.to_nat N) ltac:(lia)) as [[a rl_d] Hr].
    destruct (Hspec _ _ Hr) as [_ Hden]. simpl in Hden.
    destruct Hden as [-> Hh]; [lia|]. exists rl_d. split; [done|].
    by rewrite Hh, Nat.sub_0_r.
  - intros i r Hr. destruct (Hspec i r Hr) as [Hadm Hden].
    destruct (Z.lt_ge_cases (Z.of_nat i) N) as [Hi|Hi].
    + destruct Hadm as [_ ->]; [done|]. rewrite length_take. lia.
    + destruct Hden as [_ ->]; [done|]. rewrite length_take. lia.
  - intros rl' now. apply is_allowed_bounded. lia.
Qed.

Lemma is_allowed_limit_witness :
  let answers :=
    run_calls ∅ "login:10.0.0.1" 3 900 [1000 # 1; 1001 # 1; 1002 # 1; 1003 # 1]%Q
  in
  (exists rl_1, answers !! 0%nat = Some ((true, 2), rl_1))
  /\ (exists rl_4, answers !! 3%nat = Some ((false, 0), rl_4)).
Proof.
  destruct (is_allowed_limit "login:10.0.0.1" 3 900 ∅
              [1000 # 1; 1001 # 1; 1002 # 1; 1003 # 1]%Q)
    as (Hok & (rl_4 & Hdenied & _) & _);
    [lia | reflexivity | reflexivity | reflexivity |].
  split.
  - destruct (Hok 0%nat ltac:(simpl; lia)) as (rl_1 & H1 & _). by exists rl_1.
  - by exists rl_4.
Defined.

(** ** Credential hasher *)

Section HasherFacts.

Context `{Codec} `{Bcrypt}.

Lemma verify_password_answer (plain_password hashed_password : string) :
  verify_password plain_password hashed_password
  = Ret (bcrypt_accepts plain_password hashed_password).
Proof.
  unfold verify_password, bcrypt_accepts.
  by destruct (checkpw _ _).
Qed.

Lemma verify_api_key_answer (plain_key hashed_key : string) :
  verify_api_key plain_key hashed_key
  = Ret (bcrypt_accepts plain_key hashed_key).
Proof.
  unfold verify_api_key, bcrypt_accepts.
  by destruct (checkpw _ _).
Qed.

End HasherFacts.

(** C9. Credential-hash verification never raises: whatever the secret and
    the stored hash string, and whatever bcrypt does with them (answer or
    raise, as it does on a malformed hash), both [verify_password] and
    [verify_api_key] return a boolean, which is [True] only when bcrypt
    answers [True] and [False] in every other case. *)
Theorem verify_never_raises `{Codec} `{Bcrypt} (secret hash_string : string) :
  let answer :=
    match checkpw (encode secret) (encode hash_string) with
    | Ret b => b
    | Raise _ => false
    end in
  verify_password secret hash_string = Ret answer
  /\ verify_api_key secret hash_string = Ret answer.
Proof.
  cbn zeta. split.
  - apply verify_password_answer.
  - apply verify_api_key_answer.
Qed.

(** ** Session service *)

Section SessionFacts.

Context `{TimestampSigner} (settings : Settings).

Lemma UUID_of_str_raises s e : UUID_of_str s = Raise e -> e = ValueError.
Proof.
  unfold UUID_of_str.
  repeat (case_match; try congruence).
Qed.

End SessionFacts.

(** C8. [verify_session] never raises: a token whose signature is bad or
    whose timestamp is older than [expire_hours * 3600] seconds, and a
    payload that does not decode or is not a UUID, all give [None]; only a
    payload that parses as a UUID gives that UUID. *)
Theorem verify_session_never_raises `{TimestampSigner} (settings : Settings)
    (session_token : string) (clock : Z) :
  verify_session settings session_token clock =
    Ret (match unsign (encode session_token)
                 (session_expire_hours settings * 3600) clock with
         | Raise _ => None
         | Ret payload =>
             match decode payload with
             | Raise _ => None
             | Ret text =>
                 match UUID_of_str text with
                 | Raise _ => None
                 | Ret user_id => Some user_id
                 end
             end
         end).
Proof.
  unfold verify_session, expire_hours.
  destruct (unsign _ _ _) as [payload|e] eqn:Hu.
  - simpl. destruct (decode payload) as [text|e] eqn:Hd.
    + simpl. destruct (UUID_of_str text) as [u|e] eqn:Hp; [done|].
      apply UUID_of_str_raises in Hp as ->. done.
    + apply decode_raises in Hd as ->. done.
  - apply unsign_raises in Hu. by destruct e.
Qed.

(** C7. For every valid user id, verifying a session token created for it
    returns that id, as long as the token is not older than the configured
    [expire_hours * 3600] seconds. *)
Theorem verify_create_session_roundtrip `{TimestampSigner}
    (settings : Settings) (user_id : UUID) (created verified : Z) :
  0 <= uuid_int user_id < 2 ^ 128 ->
  0 <= created <= verified ->
  verified - created <= session_expire_hours settings * 3600 ->
  exists session_token,
    create_session user_id created = Ret session_token
    /\ verify_session settings session_token verified = Ret (Some user_id).
Proof.
  intros Hid [Hc Hv] Hage. unfold create_session.
  destruct (sign_decodes (str_of_UUID user_id) created) as [token Htoken].
  exists token. split; [done|].
  unfold verify_session, expire_hours.
  rewrite (encode_decode _ _ Htoken), unsign_sign by assumption.
  cbn [bind]. rewrite decode_encode. cbn [bind].
  rewrite UUID_of_str_of_UUID by assumption. reflexivity.
Qed.

Lemma verify_create_session_roundtrip_witness :
  exists session_token,
    create_session (mkUUID 255) 3 = Ret session_token
    /\ verify_session (mkSettings 24 false) session_token 5
       = Ret (Some (mkUUID 255)).
Proof.
  apply (verify_create_session_roundtrip (mkSettings 24 false) (mkUUID 255) 3 5).
  - split; reflexivity || discriminate.
  - split; discriminate.
  - discriminate.
Defined.

(** ** Client address *)


Lemma truthy_absent_or_empty (o : option string) :
  absent_or_empty o -> truthy o = None.
Proof. by intros [-> | ->]. Qed.

Lemma truthy_nonempty (s : string) : s <> "" -> truthy (Some s) = Some s.
Proof. by destruct s. Qed.

(** C10, as the code has it. A non-empty [X-Forwarded-For] header decides
    alone: its first comma-separated entry, stripped, is the client
    address.  When that header is absent or empty, a non-empty [X-Real-IP]
    header gives the address, stripped; when both are absent or empty the
    peer address of the connection is used, and [unknown] when there is no
    peer either. *)
Theorem get_client_ip_precedence (request : Request) :
  (forall forwarded,
     headers request !! "X-Forwarded-For" = Some forwarded ->
     forwarded <> "" ->
     get_client_ip request = strip (split_first "," forwarded))
  /\ (forall real_ip,
        absent_or_empty (headers request !! "X-Forwarded-For") ->
        headers request !! "X-Real-IP" = Some real_ip ->
        real_ip <> "" ->
        get_client_ip request = strip real_ip)
  /\ (absent_or_empty (headers request !! "X-Forwarded-For") ->
      absent_or_empty (headers request !! "X-Real-IP") ->
      get_client_ip request = default "unknown" (client request)).
Proof.
  unfold get_client_ip. repeat split.
  - intros forwarded -> Hne. by rewrite truthy_nonempty.
  - intros real_ip Hf -> Hne.
    by rewrite (truthy_absent_or_empty _ Hf), truthy_nonempty.
  - intros Hf Hr.
    rewrite (truthy_absent_or_empty _ Hf), (truthy_absent_or_empty _ Hr).
    by destruct (client request).
Qed.

Lemma get_client_ip_precedence_witness :
  get_client_ip
    (mkRequest "/login"
       (<["X-Forwarded-For" := " 203.0.113.7 , 10.0.0.1"]>
          (<["X-Real-IP" := "10.0.0.2"]> ∅))
       ∅ (Some "10.0.0.3"))
  = "203.0.113.7".
Proof.
  apply (proj1 (get_client_ip_precedence
                  (mkRequest "/login"
                     (<["X-Forwarded-For" := " 203.0.113.7 , 10.0.0.1"]>
                        (<["X-Real-IP" := "10.0.0.2"]> ∅))
                     ∅ (Some "10.0.0.3")))
           " 203.0.113.7 , 10.0.0.1").
  - vm_compute. reflexivity.
  - discriminate.
Defined.

(** C10 as stated fails on an empty [X-Forwarded-For] header: the header
    is there, yet the address comes from [X-Real-IP], and two requests with
    the same [X-Forwarded-For] header get different addresses. *)
Lemma get_client_ip_empty_header_counterexample :
  let request real_ip :=
    mkRequest "/login"
      (<["X-Forwarded-For" := ""]> (<["X-Real-IP" := real_ip]> ∅))
      ∅ (Some "10.0.0.3") in
  headers (request "10.0.0.2") !! "X-Forwarded-For" = Some ""
  /\ client_ip_as_claimed (request "10.0.0.2") = ""
  /\ get_client_ip (request "10.0.0.2") = "10.0.0.2"
  /\ get_client_ip (request "10.0.0.2") <> client_ip_as_claimed (request "10.0.0.2")
  /\ get_client_ip (request "10.0.0.9") <> get_client_ip (request "10.0.0.2").
Proof. repeat split; by vm_compute. Qed.

(** ** CSRF *)


(** C3, as the code has it. The check is skipped exactly for the requests
    whose path starts with [/api/], whatever credential they carry.  On
    every other path a missing or empty token, and a token whose signature
    is bad or older than an hour, is refused with 403; a token that
    unsigns is accepted.  The header token is used when it is non-empty,
    the form field otherwise. *)
Theorem verify_csrf_token_by_path `{TimestampSigner} (request : Request)
    (csrf_token x_csrf_token : option string) (clock : Z) :
  let token := or_else x_csrf_token csrf_token in
  let outcome := verify_csrf_token request csrf_token x_csrf_token clock in
  (startswith (url_path request) "/api/" = true <-> csrf_skipped request)
  /\ (startswith (url_path request) "/api/" = false ->
      absent_or_empty token -> outcome = Raise csrf_refused)
  /\ (forall t e,
        startswith (url_path request) "/api/" = false ->
        token = Some t -> t <> "" ->
        unsign (encode t) 3600 clock = Raise e ->
        outcome = Raise csrf_refused)
  /\ (forall t payload,
        startswith (url_path request) "/api/" = false ->
        token = Some t -> t <> "" ->
        unsign (encode t) 3600 clock = Ret payload ->
        outcome = Ret tt).
Proof.
  cbn zeta. unfold csrf_skipped, verify_csrf_token.
  split; [split|split; [|split]].
  - intros ->. done.
  - intros Hskip. specialize (Hskip None None 0).
    unfold verify_csrf_token in Hskip.
    by destruct (startswith (url_path request) "/api/").
  - intros -> Htok. by rewrite (truthy_absent_or_empty _ Htok).
  - intros t e -> -> Hne Hu. rewrite truthy_nonempty by done.
    unfold verify_token. destruct t as [|c t]; [done|]. cbn [nonempty negb].
    rewrite Hu. apply unsign_raises in Hu. by destruct e.
  - intros t payload -> -> Hne Hu. rewrite truthy_nonempty by done.
    unfold verify_token. destruct t as [|c t]; [done|]. cbn [nonempty negb].
    by rewrite Hu.
Qed.

Lemma verify_csrf_token_by_path_witness :
  verify_csrf_token (mkRequest "/admin/users" ∅ ∅ None) (Some "TTT.x") None 5
    = Ret tt
  /\ verify_csrf_token (mkRequest "/admin/users" ∅ ∅ None) None (Some "forged") 5
    = Raise csrf_refused.
Proof.
  pose proof (verify_csrf_token_by_path (mkRequest "/admin/users" ∅ ∅ None)
                (Some "TTT.x") None 5) as (_ & _ & _ & Hok).
  pose proof (verify_csrf_token_by_path (mkRequest "/admin/users" ∅ ∅ None)
                None (Some "forged") 5) as (_ & _ & Hbad & _).
  split.
  - apply (Hok "TTT.x" "x"); [reflexivity | reflexivity | discriminate |].
    vm_compute. reflexivity.
  - apply (Hbad "forged" BadSignature);
      [reflexivity | reflexivity | discriminate |].
    vm_compute. reflexivity.
Defined.

(** C3 as stated fails in both directions: a request without an API key
    (cookie-authenticated) on an [/api/] path passes with no token at all,
    and a request that carries an API key on another path is refused for
    want of a token. *)
Lemma csrf_skip_counterexample :
  let cookie_request :=
    mkRequest "/api/v1/commands" ∅ (<["session" := "TTT.x"]> ∅) None in
  let key_request :=
    mkRequest "/ui/search" (<["X-API-Key" := "secret"]> ∅) ∅ None in
  (~ api_key_based cookie_request
   /\ verify_csrf_token cookie_request None None 5 = Ret tt)
  /\ (api_key_based key_request
      /\ verify_csrf_token key_request None None 5 = Raise csrf_refused)
  /\ ~ (forall request, csrf_skipped request <-> api_key_based request).
Proof.
  cbn zeta.
  assert (Hkey : api_key_based
            (mkRequest "/ui/search" (<["X-API-Key" := "secret"]> ∅) ∅ None))
    by (by eexists; vm_compute).
  split; [split|split; [split|]]; try done.
  - intros [s Hs]. vm_compute in Hs. discriminate.
  - intros Hall. apply Hall in Hkey. specialize (Hkey None None 5).
    vm_compute in Hkey. discriminate.
Qed.

(** ** Authenticator *)

Section AuthenticatorFacts.

Context `{TimestampSigner} `{Bcrypt} (settings : Settings).


Lemma first_verifying_find (x_api_key : string) (keys : list ApiKey.t) :
  first_verifying x_api_key keys = Ret (List.find (key_verifies x_api_key) keys).
Proof.
  induction keys as [|k keys IH]; [done|].
  cbn [first_verifying List.find].
  rewrite verify_api_key_answer.
  fold (key_verifies x_api_key k). cbn [bind].
  by destruct (key_verifies x_api_key k).
Qed.

Lemma find_elem {A} (f : A -> bool) (l : list A) (a : A) :
  List.find f l = Some a -> In a l /\ f a = true.
Proof. apply List.find_some. Qed.


(** After [touch_api_key], the row found under the key's id carries the
    new [last_used_at]. *)
Lemma touch_api_key_lookup (db : Db) (k : ApiKey.t) (when : Z) :
  In k (api_keys db) ->
  exists k',
    api_key_by_id (touch_api_key db k when) (ApiKey.id k) = Some k'
    /\ ApiKey.last_used_at k' = Some when
    /\ ApiKey.id k' = ApiKey.id k.
Proof.
  unfold api_key_by_id, touch_api_key. cbn [api_keys].
  induction (api_keys db) as [|k0 keys IH]; [done|].
  intros Hin. cbn [List.map List.find].
  destruct (UUID_eqb (ApiKey.id k0) (ApiKey.id k)) eqn:Heq.
  - cbn [ApiKey.id]. rewrite Heq. eexists. split; [done|]. split; [done|].
    cbn. unfold UUID_eqb in Heq. apply Z.eqb_eq in Heq.
    destruct (ApiKey.id k0), (ApiKey.id k). cbn in Heq. by subst.
  - rewrite Heq. destruct Hin as [->|Hin]; [|by apply IH].
    unfold UUID_eqb in Heq. by rewrite Z.eqb_refl in Heq.
Qed.

End AuthenticatorFacts.

(** C2, as the code has it. When the [X-API-Key] header value is
    non-empty, the outcome is that of the API-key path and does not depend
    on the rest of the request, session cookie included: if no active key
    verifies, 401 [Invalid API key]; if the first active key that verifies
    belongs to an inactive user, 401 [User account is inactive]; if it
    belongs to an active user, that user is returned and the key's
    [last_used_at] becomes the current time. *)
Theorem get_current_user_api_key_path `{TimestampSigner} `{Bcrypt}
    (settings : Settings) (request : Request) (x_api_key : string)
    (db : Db) (utcnow clock : Z) :
  x_api_key <> "" ->
  let outcome :=
    get_current_user settings request (Some x_api_key) db utcnow clock in
  let found := List.find (key_verifies x_api_key) (active_api_keys db) in
  (forall request' : Request,
     get_current_user settings request' (Some x_api_key) db utcnow clock
     = outcome)
  /\ (found = None ->
      outcome = (Raise (HTTPException 401 "Invalid API key"), db))
  /\ (forall api_key_obj user,
        found = Some api_key_obj ->
        user_by_id db (ApiKey.user_id api_key_obj) = Some user ->
        User.is_active user = false ->
        outcome = (Raise (HTTPException 401 "User account is inactive"), db))
  /\ (forall api_key_obj user,
        found = Some api_key_obj ->
        user_by_id db (ApiKey.user_id api_key_obj) = Some user ->
        User.is_active user = true ->
        exists db',
          outcome = (Ret user, db')
          /\ users db' = users db
          /\ exists touched,
               api_key_by_id db' (ApiKey.id api_key_obj) = Some touched
               /\ ApiKey.last_used_at touched = Some utcnow).
Proof.
  intros Hne. cbn zeta. unfold get_current_user.
  rewrite truthy_nonempty by done. rewrite first_verifying_find.
  split; [done|]. split; [by intros ->|]. split.
  - intros api_key_obj user Hfound Huser Hactive.
    rewrite Hfound. cbn beta iota. by rewrite Huser, Hactive.
  - intros api_key_obj user Hfound Huser Hactive.
    rewrite Hfound. cbn beta iota. rewrite Huser, Hactive. cbn [negb].
    eexists. split; [done|]. split; [done|].
    apply find_elem in Hfound as [Hin _].
    unfold active_api_keys in Hin. apply List.filter_In in Hin as [Hin _].
    destruct (touch_api_key_lookup db api_key_obj utcnow Hin)
      as (k' & Hk' & Hlast & _).
    by exists k'.
Qed.

Lemma get_current_user_api_key_path_witness :
  exists db',
    get_current_user Example.settings
      (mkRequest "/api/v1/commands" ∅
         (<["session" := "forged"]> ∅) None)
      (Some "alice-key") Example.db 1000 5
    = (Ret Example.alice, db')
    /\ api_key_by_id db' (mkUUID 10)
       = Some (set_last_used 1000 Example.alice_key).
Proof.
  destruct (get_current_user_api_key_path Example.settings
              (mkRequest "/api/v1/commands" ∅
                 (<["session" := "forged"]> ∅) None)
              "alice-key" Example.db 1000 5 ltac:(discriminate))
    as (_ & _ & _ & Hactive).
  destruct (Hactive Example.alice_key Example.alice)
    as (db' & Hout & _ & _); [by vm_compute..|].
  exists db'. split; [exact Hout|].
  injection Hout as <-. by vm_compute.
Defined.

(** C2 as stated fails on an [X-API-Key] header that is present and
    empty: no active key verifies the empty value, yet the request is not
    refused with 401 [Invalid API key]; it falls through to the session
    cookie and is authenticated by it. *)
Lemma empty_api_key_header_counterexample :
  let request :=
    mkRequest "/api/v1/commands" (<["X-API-Key" := ""]> ∅)
      (<["session" := Example.alice_session]> ∅) None in
  x_api_key_header request = Some ""
  /\ List.find (key_verifies "") (active_api_keys Example.db) = None
  /\ get_current_user Example.settings request (x_api_key_header request)
       Example.db 1000 5
     = (Ret Example.alice, Example.db)
  /\ fst (get_current_user Example.settings request
            (x_api_key_header request) Example.db 1000 5)
     <> Raise (HTTPException 401 "Invalid API key").
Proof. cbn zeta. split; [|split; [|split]]; by vm_compute. Qed.

Example alice_session_issued :
  create_session (mkUUID 1) 3 = Ret Example.alice_session.
Proof. by vm_compute. Qed.

(** ** Login flow *)

Section LoginFacts.

Context `{TimestampSigner} `{Bcrypt} (settings : Settings).
Variables (request : Request) (db : Db).
Variables (template_name redirect_url rate_limit_key : string).
Variable (require_admin : bool).


Local Abbreviation limit_key := (limit_key request rate_limit_key).
Local Abbreviation error_page := (error_page request template_name).
Local Abbreviation session_cookie := (session_cookie settings).

Local Abbreviation login username password rl now clock :=
  (handle_login settings request username password db template_name
     redirect_url rate_limit_key require_admin rl now clock).

Lemma login_limiter username password (rl : RateLimiter) now clock :
  snd (fst (login username password rl now clock))
  = snd (is_allowed rl limit_key 5 900 now).
Proof.
  unfold handle_login. fold limit_key.
  destruct (is_allowed rl limit_key 5 900 now) as [[allowed remaining] rl'].
  cbn [snd]. repeat (case_match; try done).
Qed.

Lemma login_rate_limited username password (rl : RateLimiter) now clock :
  fst (fst (is_allowed rl limit_key 5 900 now)) = false ->
  login username password rl now clock
  = (error_page "Too many login attempts. Please try again in 15 minutes." 429,
     snd (is_allowed rl limit_key 5 900 now),
     [EvRateLimit limit_key]).
Proof.
  unfold handle_login. fold limit_key.
  destruct (is_allowed rl limit_key 5 900 now) as [[allowed remaining] rl'].
  cbn [fst snd]. by intros ->.
Qed.

Lemma login_unknown_user username password (rl : RateLimiter) now clock :
  fst (fst (is_allowed rl limit_key 5 900 now)) = true ->
  user_by_username db username = None ->
  login username password rl now clock
  = (error_page "Invalid username or password" 401,
     snd (is_allowed rl limit_key 5 900 now),
     [EvRateLimit limit_key; EvUserLookup username]).
Proof.
  unfold handle_login. fold limit_key.
  destruct (is_allowed rl limit_key 5 900 now) as [[allowed remaining] rl'].
  cbn [fst snd]. by intros -> ->.
Qed.

Lemma login_wrong_password username password user (rl : RateLimiter) now clock :
  fst (fst (is_allowed rl limit_key 5 900 now)) = true ->
  user_by_username db username = Some user ->
  password_ok user password = false ->
  fst (fst (login username password rl now clock))
  = error_page "Invalid username or password" 401.
Proof.
  unfold handle_login, password_ok. fold limit_key.
  destruct (is_allowed rl limit_key 5 900 now) as [[allowed remaining] rl'].
  cbn [fst snd]. intros -> ->. cbn [negb].
  destruct (truthy (User.password_hash user)) as [password_hash|]; [|done].
  rewrite verify_password_answer.
  by intros ->.
Qed.

(** What happens once the password has been verified. *)
Lemma login_verified username password user (rl : RateLimiter) now clock :
  fst (fst (is_allowed rl limit_key 5 900 now)) = true ->
  user_by_username db username = Some user ->
  password_ok user password = true ->
  let checked :=
    [EvRateLimit limit_key; EvUserLookup username;
     EvVerifyPassword username] in
  login username password rl now clock
  = if require_admin && negb (String.eqb (User.role user) "admin")
    then (error_page "Admin access required" 403,
          snd (is_allowed rl limit_key 5 900 now), checked)
    else if negb (User.is_active user)
    then (error_page "Account is inactive" 403,
          snd (is_allowed rl limit_key 5 900 now), checked)
    else
      match create_session (User.id user) clock with
      | Ret session_token =>
          (Ret (RedirectResponse redirect_url 303
                  (session_cookie session_token)),
           snd (is_allowed rl limit_key 5 900 now),
           checked ++ [EvCreateSession (User.id user)])
      | Raise e =>
          (Raise e, snd (is_allowed rl limit_key 5 900 now),
           checked ++ [EvCreateSession (User.id user)])
      end.
Proof.
  unfold handle_login, password_ok. fold limit_key.
  destruct (is_allowed rl limit_key 5 900 now) as [[allowed remaining] rl'].
  cbn [fst snd]. intros -> ->. cbn [negb].
  destruct (truthy (User.password_hash user)) as [password_hash|]; [|done].
  rewrite verify_password_answer.
  intros ->. cbn zeta. unfold expire_hours, session_cookie.
  repeat (case_match; try done).
Qed.

Lemma create_session_returns (user_id : UUID) (clock : Z) :
  returns (create_session user_id clock).
Proof. apply sign_decodes. Qed.

End LoginFacts.

(** C5. [handle_login] checks in a fixed order, each check ending the flow
    with its own outcome: the rate limit (429) before any database lookup,
    then the username (401), then the password (401), then the role (403),
    then the active flag (403), then the session is issued.  The calls it
    makes are always an initial part of: rate limit, user lookup, password
    verification, session creation.  A wrong password gives 401 whatever
    the role and the active flag of the account. *)
Theorem handle_login_order `{TimestampSigner} `{Bcrypt} (settings : Settings)
    (request : Request) (username password : string) (db : Db)
    (template_name redirect_url rate_limit_key : string) (require_admin : bool)
    (rl : RateLimiter) (now : Q) (clock : Z) :
  let key := limit_key request rate_limit_key in
  let allowed := fst (fst (is_allowed rl key 5 900 now)) in
  let outcome :=
    handle_login settings request username password db template_name
      redirect_url rate_limit_key require_admin rl now clock in
  let response := fst (fst outcome) in
  let calls := snd outcome in
  let page := error_page request template_name in
  (exists user_id rest,
     calls <> []
     /\ [EvRateLimit key; EvUserLookup username; EvVerifyPassword username;
         EvCreateSession user_id] = calls ++ rest)
  /\ (allowed = false ->
      response
        = page "Too many login attempts. Please try again in 15 minutes." 429
      /\ calls = [EvRateLimit key])
  /\ (allowed = true -> user_by_username db username = None ->
      response = page "Invalid username or password" 401
      /\ calls = [EvRateLimit key; EvUserLookup username])
  /\ (forall user,
        allowed = true -> user_by_username db username = Some user ->
        password_ok user password = false ->
        response = page "Invalid username or password" 401)
  /\ (forall user,
        allowed = true -> user_by_username db username = Some user ->
        password_ok user password = true ->
        require_admin = true -> User.role user <> "admin" ->
        response = page "Admin access required" 403)
  /\ (forall user,
        allowed = true -> user_by_username db username = Some user ->
        password_ok user password = true ->
        require_admin = false \/ User.role user = "admin" ->
        User.is_active user = false ->
        response = page "Account is inactive" 403)
  /\ (forall user,
        allowed = true -> user_by_username db username = Some user ->
        password_ok user password = true ->
        require_admin = false \/ User.role user = "admin" ->
        User.is_active user = true ->
        exists session_token,
          create_session (User.id user) clock = Ret session_token
          /\ response
             = Ret (RedirectResponse redirect_url 303
                      (session_cookie settings session_token))).
Proof.
  cbn zeta.
  set (key := limit_key request rate_limit_key).
  set (outcome := handle_login _ _ _ _ _ _ _ _ _ _ _ _).
  assert (Hrole : forall user,
            require_admin = false \/ User.role user = "admin" ->
            require_admin && negb (String.eqb (User.role user) "admin") = false).
  { intros user [->| ->]; [done|]. by rewrite andb_false_r. }
  split; [|split; [|split; [|split; [|split; [|split]]]]].
  - unfold outcome.
    destruct (fst (fst (is_allowed rl key 5 900 now))) eqn:Hallowed.
    2:{ rewrite login_rate_limited by done. exists (mkUUID 0). by eexists. }
    destruct (user_by_username db username) as [user|] eqn:Huser.
    2:{ rewrite login_unknown_user by done. exists (mkUUID 0). by eexists. }
    destruct (password_ok user password) eqn:Hpw.
    + rewrite (login_verified _ _ _ _ _ _ _ _ _ user) by done.
      exists (User.id user).
      destruct (_ && _); [by eexists|].
      destruct (negb _); [by eexists|].
      destruct (create_session _ _); by exists [].
    + unfold handle_login. fold (limit_key request rate_limit_key). fold key.
      destruct (is_allowed rl key 5 900 now) as [[allowed remaining] rl'].
      cbn [fst snd] in Hallowed. subst allowed. cbn [negb]. rewrite Huser.
      unfold password_ok in Hpw.
      destruct (truthy (User.password_hash user)) as [password_hash|];
        [|exists (mkUUID 0); by eexists].
      rewrite verify_password_answer.
      rewrite Hpw. exists (mkUUID 0). by eexists.
  - intros Hallowed. unfold outcome. by rewrite login_rate_limited.
  - intros Hallowed Huser. unfold outcome. by rewrite login_unknown_user.
  - intros user Hallowed Huser Hpw. by apply (login_wrong_password _ _ _ _ _ _ _ _ _ user).
  - intros user Hallowed Huser Hpw -> Hrole'. unfold outcome.
    rewrite (login_verified _ _ _ _ _ _ _ _ _ user) by done.
    destruct (String.eqb_spec (User.role user) "admin"); done.
  - intros user Hallowed Huser Hpw Hadm Hact. unfold outcome.
    rewrite (login_verified _ _ _ _ _ _ _ _ _ user) by done.
    by rewrite (Hrole _ Hadm), Hact.
  - intros user Hallowed Huser Hpw Hadm Hact. unfold outcome.
    rewrite (login_verified _ _ _ _ _ _ _ _ _ user) by done.
    rewrite (Hrole _ Hadm), Hact. cbn [negb].
    destruct (create_session_returns (User.id user) clock) as [token ->].
    by exists token.
Qed.

Lemma handle_login_order_witness :
  fst (fst (handle_login Example.settings
              (mkRequest "/admin/login" ∅ ∅ (Some "10.0.0.3"))
              "bob" "guess" Example.db "admin_login.html" "/admin" "admin_login"
              true ∅ (1000 # 1)%Q 5))
  = Ret (TemplateResponse "admin_login.html"
           (mkRequest "/admin/login" ∅ ∅ (Some "10.0.0.3"))
           "Invalid username or password" 401).
Proof.
  destruct (handle_login_order Example.settings
              (mkRequest "/admin/login" ∅ ∅ (Some "10.0.0.3"))
              "bob" "guess" Example.db "admin_login.html" "/admin" "admin_login"
              true ∅ (1000 # 1)%Q 5) as (_ & _ & _ & Hwrong & _).
  apply (Hwrong Example.bob); by vm_compute.
Defined.

(** C6. From a client that is not rate limited, a login with a username
    that matches no user and a login with an existing username and a wrong
    password (or an account without password hash) get the same response:
    the same page, status 401 and message, with nothing that tells the two
    apart. *)
Theorem invalid_credentials_indistinguishable `{TimestampSigner} `{Bcrypt}
    (settings : Settings) (request : Request) (db : Db)
    (template_name redirect_url rate_limit_key : string) (require_admin : bool)
    (unknown password known password' : string) (user : User.t)
    (rl rl' : RateLimiter) (now now' : Q) (clock clock' : Z) :
  let key := limit_key request rate_limit_key in
  fst (fst (is_allowed rl key 5 900 now)) = true ->
  fst (fst (is_allowed rl' key 5 900 now')) = true ->
  user_by_username db unknown = None ->
  user_by_username db known = Some user ->
  password_ok user password' = false ->
  let response :=
    fst (fst (handle_login settings request unknown password db template_name
                redirect_url rate_limit_key require_admin rl now clock)) in
  let response' :=
    fst (fst (handle_login settings request known password' db template_name
                redirect_url rate_limit_key require_admin rl' now' clock')) in
  response = response'
  /\ response
     = Ret (TemplateResponse template_name request
              "Invalid username or password" 401).
Proof.
  cbn zeta. intros Hallowed Hallowed' Hunknown Hknown Hwrong.
  rewrite login_unknown_user by done.
  by rewrite (login_wrong_password _ _ _ _ _ _ _ _ _ user) by done.
Qed.

Lemma invalid_credentials_indistinguishable_witness :
  let attempt username password :=
    fst (fst (handle_login Example.settings
                (mkRequest "/login" ∅ ∅ (Some "10.0.0.3"))
                username password Example.db "login.html" "/" "user_login"
                false ∅ (1000 # 1)%Q 5)) in
  attempt "mallory" "guess" = attempt "alice" "guess"
  /\ attempt "mallory" "guess" = attempt "carol" "guess".
Proof.
  cbn zeta. split.
  - apply (invalid_credentials_indistinguishable Example.settings
             (mkRequest "/login" ∅ ∅ (Some "10.0.0.3")) Example.db
             "login.html" "/" "user_login" false
             "mallory" "guess" "alice" "guess" Example.alice);
      by vm_compute.
  - apply (invalid_credentials_indistinguishable Example.settings
             (mkRequest "/login" ∅ ∅ (Some "10.0.0.3")) Example.db
             "login.html" "/" "user_login" false
             "mallory" "guess" "carol" "guess" Example.carol);
      by vm_compute.
Defined.

(** ** Search filter *)

Section SearchFacts.

Lemma occurs_replace_self (c : ascii) (s : string) :
  occurs c (replace (String c "") "" s) = false.
Proof.
  induction s as [|d s IH]; [done|]. rewrite replace_char_cons.
  destruct (Ascii.eqb_spec c d) as [->|Hne]; [done|]. simpl.
  rewrite IH. destruct (Ascii.eqb_spec d c); [congruence|done].
Qed.

Lemma occurs_replace_other (c d : ascii) (s : string) :
  occurs c s = false -> occurs c (replace (String d "") "" s) = false.
Proof.
  induction s as [|x s IH]; [done|]. simpl.
  intros [Hx Hs]%orb_false_elim. rewrite replace_char_cons.
  destruct (Ascii.eqb d x); [by apply IH|]. simpl. by rewrite Hx, IH.
Qed.

(** No quote character survives the escaping of a filter value. *)
Lemma escaped_quote_free (v : pyval) :
  occurs dquote_char (escaped v) = false
  /\ occurs squote_char (escaped v) = false.
Proof.
  unfold escaped, dquote, squote. split.
  - apply occurs_replace_other, occurs_replace_self.
  - apply occurs_replace_self.
Qed.


Lemma filter_array_shape (user_id : string) (filters : gmap string pyval) :
  exists rest,
    filter_array user_id (Some filters) = user_id_clause user_id :: rest
    /\ forall clause, In clause rest -> filter_clause filters clause.
Proof.
  unfold filter_array, truthy_filter, filter_clause.
  destruct (decide (filters = ∅)) as [_|_]; [by exists []|].
  destruct (filters !! "hostname") as [h|];
    destruct (filters !! "username") as [u|];
    destruct (filters !! "exit_code") as [e|];
    repeat match goal with
      | |- context [py_bool ?v] => destruct (py_bool v)
      | |- context [nonempty ?s] => destruct (nonempty s)
      end;
    try (destruct e as [|b|n|s]; cbn [py_int try_except bind];
         try destruct (int_of_str 10 s) as [n|] eqn:Hint);
    cbn [try_except bind existsb isinstance orb app];
    eexists; (split; [reflexivity|]);
    intros clause Hin; cbn [In] in Hin;
    repeat (destruct Hin as [<-|Hin]); try done;
    try (left; eexists; split; reflexivity);
    try (right; left; eexists; split; reflexivity);
    right; right; do 2 eexists; (split; [reflexivity|]);
    (split; [|reflexivity]); cbn [py_int]; by rewrite ?Hint.
Qed.

End SearchFacts.

(** C1. Whatever the query and the filters, the filter handed to the index
    starts with the clause restricting the results to the given user id.
    Every other clause comes from a supplied filter: a hostname or username
    clause embeds the escaped value, in which neither quote character
    occurs, and an exit-code clause is there only for a value that [int]
    accepts, with the integer it yields. *)
Theorem search_filter_user_scoped {Hit : Type}
    (index_search : string -> SearchParams -> result (IndexResults Hit))
    (query user_id : string) (filters : option (gmap string pyval))
    (limit offset : Z) :
  let params := search_params user_id filters limit offset in
  search (Some index_search) query user_id filters limit offset
  = search (Some (fun _ _ => index_search query params)) query user_id
      filters limit offset
  /\ (exists rest,
        sp_filter params = Some (user_id_clause user_id :: rest)
        /\ forall clause, In clause rest ->
             exists supplied,
               filters = Some supplied /\ filter_clause supplied clause)
  /\ (forall value,
        occurs dquote_char (escaped value) = false
        /\ occurs squote_char (escaped value) = false).
Proof.
  cbn zeta. split; [done|]. split; [|apply escaped_quote_free].
  unfold search_params.
  destruct filters as [supplied|]; [|by exists []].
  destruct (filter_array_shape user_id supplied) as (rest & -> & Hrest).
  exists rest. split; [done|]. intros clause Hin.
  exists supplied. split; [done|]. by apply Hrest.
Qed.

Lemma search_filter_user_scoped_example :
  sp_filter
    (search_params "7f3c"
       (Some (<["hostname" := PyStr (" web" +:+ dquote +:+ "1 ")]>
                (<["username" := PyStr squote]>
                   (<["exit_code" := PyStr " -1_0 "]> ∅))))
       50 0)
  = Some [user_id_clause "7f3c"; hostname_clause "web1"; exit_code_clause (-10)]
  /\ sp_filter
       (search_params "7f3c" (Some (<["exit_code" := PyStr "0x10"]> ∅)) 50 0)
     = Some [user_id_clause "7f3c"].
Proof. split; by vm_compute. Qed.

(** * Further properties *)

(** ** Rate limiter: other keys, expiry, inspection *)

Section RateLimiterMore.

Variables (N W : Z).

(** A call touches the history of its own key only. *)
Lemma is_allowed_other_key (rl : RateLimiter) (key key' : string) (now : Q) :
  key <> key' ->
  snd (is_allowed rl key N W now) !! key' = rl !! key'.
Proof.
  intros Hne. unfold is_allowed.
  destruct (_ >=? _); cbn [snd]; by rewrite lookup_insert_ne.
Qed.

Lemma run_calls_other_key (key key' : string) (times : list Q) :
  key <> key' ->
  forall (rl : RateLimiter) i r,
    run_calls rl key N W times !! i = Some r ->
    snd r !! key' = rl !! key'.
Proof.
  intros Hne. induction times as [|now times IH]; intros rl i r Hr; [done|].
  destruct i as [|i]; simpl in Hr.
  - injection Hr as <-. by apply is_allowed_other_key.
  - rewrite (IH _ _ _ Hr). by apply is_allowed_other_key.
Qed.

Lemma history_ext (rl rl' : RateLimiter) (key : string) :
  rl' !! key = rl !! key -> history rl' key = history rl key.
Proof. unfold history. by intros ->. Qed.

Lemma is_allowed_history_ext (rl rl' : RateLimiter) (key : string) (now : Q) :
  history rl' key = history rl key ->
  fst (is_allowed rl' key N W now) = fst (is_allowed rl key N W now).
Proof. unfold is_allowed. intros ->. by destruct (_ >=? _). Qed.

Lemma filter_none_kept {A} (f : A -> bool) (l : list A) :
  forallb (fun a => negb (f a)) l = true -> List.filter f l = [].
Proof.
  induction l as [|a l IH]; simpl; [done|].
  intros [Ha Hl]%andb_prop. apply negb_true_iff in Ha. by rewrite Ha, IH.
Qed.

Lemma filter_filter_same {A} (f : A -> bool) (l : list A) :
  List.filter f (List.filter f l) = List.filter f l.
Proof.
  induction l as [|a l IH]; simpl; [done|].
  destruct (f a) eqn:Ha; simpl; by rewrite ?Ha, IH.
Qed.

End RateLimiterMore.

(** X1. The quota of one key is not touched by calls for another key:
    whatever calls were made for [key], the history of a different key,
    and so the answer to its next call, are the same as before them. *)
Theorem is_allowed_keys_independent (key key' : string) (N W N' W' : Z)
    (rl : RateLimiter) (times : list Q) (i : nat)
    (r : (bool * Z) * RateLimiter) (now : Q) :
  key <> key' ->
  run_calls rl key N W times !! i = Some r ->
  history (snd r) key' = history rl key'
  /\ fst (is_allowed (snd r) key' N' W' now)
     = fst (is_allowed rl key' N' W' now).
Proof.
  intros Hne Hr.
  assert (Hh : history (snd r) key' = history rl key')
    by (apply history_ext; by eapply run_calls_other_key).
  split; [done|]. by apply is_allowed_history_ext.
Qed.

Lemma is_allowed_keys_independent_witness :
  fst (is_allowed
         (snd (is_allowed ∅ "login:10.0.0.1" 5 900 (1000 # 1)%Q))
         "login:10.0.0.2" 5 900 (1001 # 1)%Q)
  = fst (is_allowed ∅ "login:10.0.0.2" 5 900 (1001 # 1)%Q).
Proof.
  apply (is_allowed_keys_independent "login:10.0.0.1" "login:10.0.0.2"
           5 900 5 900 ∅ [(1000 # 1)%Q] 0); [discriminate | reflexivity].
Defined.

(** X2. Once every recorded request of a key has left the window (none is
    later than [now - W]), the key is allowed again whatever its history
    was: for a limit [N >= 1] the call is allowed with [N - 1] remaining
    and the history restarts with this call alone. *)
Theorem is_allowed_after_window (key : string) (N W : Z) (rl : RateLimiter)
    (now : Q) :
  1 <= N ->
  forallb (fun t => Qle_bool t (now - inject_Z W)%Q) (history rl key) = true ->
  fst (is_allowed rl key N W now) = (true, N - 1)
  /\ history (snd (is_allowed rl key N W now)) key = [now].
Proof.
  intros HN Hold. unfold is_allowed.
  rewrite filter_none_kept.
  2:{ clear -Hold. induction (history rl key) as [|t h IH]; [done|].
      simpl in *. apply andb_prop in Hold as [Ht Hh].
      unfold later_than at 1. by rewrite negb_involutive, Ht, IH. }
  cbn [List.length app]. destruct (Z.geb_spec (Z.of_nat 0) N); [lia|].
  cbn [fst snd]. rewrite history_insert. split; [|done].
  f_equal. cbn. lia.
Qed.

Lemma is_allowed_after_window_witness :
  let exhausted : RateLimiter :=
    <["login:10.0.0.1" := [1000 # 1; 1001 # 1; 1002 # 1]%Q]> ∅ in
  fst (is_allowed exhausted "login:10.0.0.1" 3 900 (1500 # 1)%Q) = (false, 0)
  /\ fst (is_allowed exhausted "login:10.0.0.1" 3 900 (1902 # 1)%Q) = (true, 2).
Proof.
  cbn zeta. split; [by vm_compute|].
  apply (is_allowed_after_window "login:10.0.0.1" 3 900
           (<["login:10.0.0.1" := [1000 # 1; 1001 # 1; 1002 # 1]%Q]> ∅)
           (1902 # 1)%Q); [lia | by vm_compute].
Defined.

(** X3. [get_remaining] records nothing and tells what [is_allowed] will
    do at the same instant: the next call is allowed exactly when the
    reported count is positive, and then leaves one less remaining. *)
Theorem get_remaining_predicts (key : string) (N W : Z) (rl : RateLimiter)
    (now : Q) :
  let remaining := fst (get_remaining rl key N W now) in
  let rl' := snd (get_remaining rl key N W now) in
  history rl' key
    = List.filter (later_than (now - inject_Z W)%Q) (history rl key)
  /\ 0 <= remaining
  /\ fst (is_allowed rl' key N W now) = fst (is_allowed rl key N W now)
  /\ fst (is_allowed rl key N W now)
     = if 0 <? remaining then (true, remaining - 1) else (false, 0).
Proof.
  cbn zeta. unfold get_remaining, is_allowed. cbn [fst snd].
  rewrite history_insert, filter_filter_same.
  set (live := List.filter _ _).
  split; [done|]. split; [lia|]. split; [by destruct (_ >=? _)|].
  rewrite length_app. cbn [List.length].
  destruct (Z.geb_spec (Z.of_nat (List.length live)) N);
    destruct (Z.ltb_spec 0 (Z.max 0 (N - Z.of_nat (List.length live))));
    try lia; cbn [fst]; f_equal; lia.
Qed.

(** ** Client address: what the forwarded header contributes *)

Section StripFacts.

Variable p : ascii -> bool.

Lemma rstrip_by_idempotent (s : string) :
  rstrip_by p (rstrip_by p s) = rstrip_by p s.
Proof.
  induction s as [|c s IH]; [done|]. simpl.
  destruct (rstrip_by p s) as [|d r] eqn:Hr.
  - destruct (p c) eqn:Hc; [done|]. simpl. by rewrite Hc.
  - simpl. simpl in IH. by rewrite IH.
Qed.

Lemma rstrip_by_head (c : ascii) (s : string) :
  p c = false -> exists r, rstrip_by p (String c s) = String c r.
Proof.
  intros Hc. simpl. destruct (rstrip_by p s); rewrite ?Hc; by eexists.
Qed.

Lemma lstrip_by_head (s : string) :
  lstrip_by p s = "" \/ exists c r, lstrip_by p s = String c r /\ p c = false.
Proof.
  induction s as [|c s IH]; [by left|]. simpl.
  destruct (p c) eqn:Hc; [done|]. right. by exists c, s.
Qed.

Lemma strip_by_idempotent (s : string) :
  strip_by p (strip_by p s) = strip_by p s.
Proof.
  unfold strip_by.
  destruct (lstrip_by_head s) as [->|(c & r & -> & Hc)]; [done|].
  destruct (rstrip_by_head c r Hc) as [r' Hr']. rewrite Hr'.
  cbn [lstrip_by]. rewrite Hc, <- Hr'. apply rstrip_by_idempotent.
Qed.

Lemma occurs_lstrip_by (c : ascii) (s : string) :
  occurs c s = false -> occurs c (lstrip_by p s) = false.
Proof.
  induction s as [|d s IH]; [done|]. simpl.
  intros [Hd Hs]%orb_false_elim.
  destruct (p d); [by apply IH|]. simpl. by rewrite Hd, Hs.
Qed.

Lemma occurs_rstrip_by (c : ascii) (s : string) :
  occurs c s = false -> occurs c (rstrip_by p s) = false.
Proof.
  induction s as [|d s IH]; [done|]. simpl.
  intros [Hd Hs]%orb_false_elim. specialize (IH Hs).
  destruct (rstrip_by p s) as [|e r].
  - destruct (p d); [done|]. simpl. by rewrite Hd.
  - cbn [occurs] in *. by rewrite Hd, IH.
Qed.

End StripFacts.

Lemma occurs_split_first (c : ascii) (s : string) :
  occurs c (split_first c s) = false.
Proof.
  induction s as [|d s IH]; [done|]. simpl.
  destruct (Ascii.eqb d c) eqn:Hd; [done|]. simpl. by rewrite Hd, IH.
Qed.

Lemma split_first_append (c : ascii) (first rest : string) :
  occurs c first = false ->
  split_first c (first +:+ String c rest) = first.
Proof.
  induction first as [|d first IH]; intros Hf.
  - rewrite append_nil_l. simpl. by rewrite Ascii.eqb_refl.
  - rewrite append_cons. simpl in *.
    apply orb_false_elim in Hf as [Hd Hf]. by rewrite Hd, IH.
Qed.

(** X4. Of a non-empty [X-Forwarded-For] header only the first entry
    counts: whatever follows the first comma does not change the client
    address, which holds no comma and no blank at either end. *)
Theorem get_client_ip_first_entry (request : Request) (first rest : string) :
  occurs "," first = false ->
  headers request !! "X-Forwarded-For" = Some (first +:+ "," +:+ rest) ->
  get_client_ip request = strip first
  /\ occurs "," (get_client_ip request) = false
  /\ strip (get_client_ip request) = get_client_ip request.
Proof.
  intros Hfirst Hhdr. unfold get_client_ip. rewrite Hhdr.
  rewrite truthy_nonempty by (by destruct first).
  change ("," +:+ rest) with (String "," rest).
  rewrite split_first_append by done. split; [done|]. split.
  - by apply occurs_rstrip_by, occurs_lstrip_by.
  - apply strip_by_idempotent.
Qed.

Lemma get_client_ip_first_entry_witness :
  get_client_ip
    (mkRequest "/login"
       (<["X-Forwarded-For" := " 203.0.113.7 , 10.0.0.1, 10.0.0.2"]> ∅)
       ∅ (Some "10.0.0.3"))
  = "203.0.113.7".
Proof.
  apply (get_client_ip_first_entry
           (mkRequest "/login"
              (<["X-Forwarded-For" := " 203.0.113.7 , 10.0.0.1, 10.0.0.2"]> ∅)
              ∅ (Some "10.0.0.3"))
           " 203.0.113.7 " " 10.0.0.1, 10.0.0.2"); by vm_compute.
Defined.

(** ** Signed tokens: CSRF and flash *)

Section TokenFacts.

Context `{TimestampSigner}.

(** A signed value, read as a token by any of the services, unsigns to its
    payload while it is fresh. *)
Lemma signed_token_unsigns (value token : string) (created now max_age : Z) :
  decode (sign value created) = Ret token ->
  0 <= created <= now -> now - created <= max_age ->
  unsign (encode token) max_age now = Ret (encode value).
Proof.
  intros Htoken [Hc Hn] Hage.
  rewrite (encode_decode _ _ Htoken). by apply unsign_sign.
Qed.

Lemma verify_token_fresh (value token : string) (created now : Z) :
  decode (sign value created) = Ret token -> token <> "" ->
  0 <= created <= now -> now - created <= 3600 ->
  verify_token token now = Ret true.
Proof.
  intros Htoken Hne Hc Hage. unfold verify_token.
  destruct token as [|c token]; [done|]. cbn [nonempty negb].
  by rewrite (signed_token_unsigns _ _ _ _ _ Htoken Hc Hage).
Qed.

End TokenFacts.

(** X5. A CSRF token from [generate_token] is accepted for an hour: given
    in the form field or in the header, it passes [verify_csrf_token] on
    any request, whoever sends it. *)
Theorem csrf_token_round_trip `{TimestampSigner} (request : Request)
    (nonce token : string) (created verified : Z) :
  generate_token nonce created = Ret token ->
  token <> "" ->
  0 <= created <= verified ->
  verified - created <= 3600 ->
  verify_token token verified = Ret true
  /\ verify_csrf_token request (Some token) None verified = Ret tt
  /\ verify_csrf_token request None (Some token) verified = Ret tt.
Proof.
  intros Htoken Hne Hc Hage.
  assert (Hv : verify_token token verified = Ret true)
    by (by eapply verify_token_fresh).
  split; [done|]. unfold verify_csrf_token.
  destruct (startswith _ _); [done|].
  destruct token as [|c token]; [done|].
  unfold or_else. cbn [truthy nonempty]. split; by rewrite Hv.
Qed.

Lemma csrf_token_round_trip_witness :
  verify_csrf_token (mkRequest "/account/change-password" ∅ ∅ None)
    (Some "TTT.n0nce") None 3603 = Ret tt.
Proof.
  apply (csrf_token_round_trip
           (mkRequest "/account/change-password" ∅ ∅ None)
           "n0nce" "TTT.n0nce" 3 3603);
    [by vm_compute | discriminate | lia | lia].
Defined.

(** X6. The CSRF service and the session manager sign with the same
    signer, and [verify_token] looks at the signature and the age only:
    for an hour after it is issued, the value of any session cookie is
    accepted as a CSRF token. *)
Theorem session_token_passes_csrf `{TimestampSigner} (request : Request)
    (user_id : UUID) (session_token : string) (created verified : Z) :
  create_session user_id created = Ret session_token ->
  session_token <> "" ->
  0 <= created <= verified ->
  verified - created <= 3600 ->
  verify_token session_token verified = Ret true
  /\ verify_csrf_token request (Some session_token) None verified = Ret tt.
Proof.
  intros Htoken Hne Hc Hage.
  assert (Hv : verify_token session_token verified = Ret true)
    by (by eapply verify_token_fresh).
  split; [done|]. unfold verify_csrf_token.
  destruct (startswith _ _); [done|].
  destruct session_token as [|c session_token]; [done|].
  unfold or_else. cbn [truthy nonempty]. by rewrite Hv.
Qed.

Lemma session_token_passes_csrf_witness :
  verify_csrf_token (mkRequest "/account/change-password" ∅ ∅ None)
    (Some Example.alice_session) None 1000 = Ret tt.
Proof.
  apply (session_token_passes_csrf
           (mkRequest "/account/change-password" ∅ ∅ None)
           (mkUUID 1) Example.alice_session 3 1000);
    [by vm_compute | discriminate | lia | lia].
Defined.

(** ** Authenticator: who is returned, what is written *)

Section AuthenticatorMore.

Context `{TimestampSigner} `{Bcrypt} (settings : Settings).

Lemma user_by_id_elem (db : Db) (user_id : UUID) (user : User.t) :
  user_by_id db user_id = Some user ->
  In user (users db) /\ UUID_eqb (User.id user) user_id = true.
Proof. apply List.find_some. Qed.

Lemma touch_api_key_identity (db : Db) (k : ApiKey.t) (when : Z) :
  users (touch_api_key db k when) = users db
  /\ List.map clear_last_used (api_keys (touch_api_key db k when))
     = List.map clear_last_used (api_keys db).
Proof.
  split; [done|]. unfold touch_api_key. cbn [api_keys].
  induction (api_keys db) as [|k0 keys IH]; [done|].
  cbn [List.map]. rewrite IH. f_equal.
  by destruct (UUID_eqb _ _).
Qed.

(** A fresh session token verifies to the id it was created for. *)
Lemma create_session_verifies (user_id : UUID) (session_token : string)
    (created verified : Z) :
  0 <= uuid_int user_id < 2 ^ 128 ->
  create_session user_id created = Ret session_token ->
  0 <= created <= verified ->
  verified - created <= session_expire_hours settings * 3600 ->
  verify_session settings session_token verified = Ret (Some user_id).
Proof.
  intros Hid Htoken Hc Hage. unfold verify_session, expire_hours.
  rewrite (signed_token_unsigns _ _ _ _ _ Htoken Hc Hage).
  cbn [bind]. rewrite decode_encode. cbn [bind].
  rewrite UUID_of_str_of_UUID by assumption. reflexivity.
Qed.

End AuthenticatorMore.

(** X7. Whoever [get_current_user] returns, by API key or by session
    cookie, is a row of the users table and is active. *)
Theorem get_current_user_returns_active `{TimestampSigner} `{Bcrypt}
    (settings : Settings) (request : Request) (x_api_key : option string)
    (db db' : Db) (utcnow clock : Z) (user : User.t) :
  get_current_user settings request x_api_key db utcnow clock = (Ret user, db') ->
  In user (users db) /\ User.is_active user = true.
Proof.
  unfold get_current_user.
  destruct (truthy x_api_key) as [key|].
  - destruct (first_verifying key (active_api_keys db)) as [[k|]|]; try done.
    destruct (user_by_id db (ApiKey.user_id k)) as [u|] eqn:Hu; [|done].
    destruct (User.is_active u) eqn:Ha; [|done].
    cbn [negb]. intros [= <- _]. split; [|done].
    by apply user_by_id_elem in Hu as [? _].
  - destruct (truthy (cookies request !! "session")) as [token|]; [|done].
    destruct (verify_session settings token clock) as [[uid|]|]; try done.
    destruct (user_by_id db uid) as [u|] eqn:Hu; [|done].
    destruct (User.is_active u) eqn:Ha; [|done].
    intros [= <- _]. split; [|done].
    by apply user_by_id_elem in Hu as [? _].
Qed.

Lemma get_current_user_returns_active_witness :
  In Example.alice (users Example.db) /\ User.is_active Example.alice = true.
Proof.
  apply (get_current_user_returns_active Example.settings
           (mkRequest "/account" ∅ (<["session" := Example.alice_session]> ∅) None)
           None Example.db Example.db 1000 5 Example.alice).
  by vm_compute.
Defined.

(** X8. Authenticating writes nothing but the [last_used_at] of API keys:
    the users table and every other column of the keys are as before, and
    a request that fails, or that is authenticated by its session cookie,
    leaves the database exactly as it was. *)
Theorem get_current_user_writes_last_used_only `{TimestampSigner} `{Bcrypt}
    (settings : Settings) (request : Request) (x_api_key : option string)
    (db : Db) (utcnow clock : Z) :
  let outcome := get_current_user settings request x_api_key db utcnow clock in
  users (snd outcome) = users db
  /\ List.map clear_last_used (api_keys (snd outcome))
     = List.map clear_last_used (api_keys db)
  /\ ((exists e, fst outcome = Raise e) \/ truthy x_api_key = None ->
      snd outcome = db).
Proof.
  cbn zeta. unfold get_current_user.
  destruct (truthy x_api_key) as [key|].
  - destruct (first_verifying key (active_api_keys db)) as [[k|]|];
      try (split; [done|split; [done|done]]).
    destruct (user_by_id db (ApiKey.user_id k)) as [u|];
      [|split; [done|split; [done|done]]].
    destruct (User.is_active u); cbn [negb fst snd];
      [|split; [done|split; [done|done]]].
    destruct (touch_api_key_identity db k utcnow) as [Hu Hk].
    split; [done|]. split; [done|].
    intros [[e He]|Hn]; discriminate.
  - repeat case_match; by repeat split.
Qed.

(** ** Login flow and session cookie together *)

Section LoginMore.

Context `{TimestampSigner} `{Bcrypt} (settings : Settings).
Variables (request : Request) (db : Db).
Variables (template_name redirect_url rate_limit_key : string).
Variable (admin_only : bool).

Local Abbreviation key := (limit_key request rate_limit_key).
Local Abbreviation login username password rl now clock :=
  (handle_login settings request username password db template_name
     redirect_url rate_limit_key admin_only rl now clock).

Local Abbreviation login_granted username password rl now user :=
  (login_granted request db rate_limit_key admin_only username password
     rl now user).

(** Every outcome of [handle_login], by cases. *)
Lemma login_cases username password (rl : RateLimiter) now clock :
  let response := fst (fst (login username password rl now clock)) in
  (fst (fst (is_allowed rl key 5 900 now)) = false
   /\ response = too_many_attempts request template_name)
  \/ (fst (fst (is_allowed rl key 5 900 now)) = true
      /\ exists error status,
           response = error_page request template_name error status
           /\ (status = 401 \/ status = 403)
           /\ forall user, ~ login_granted username password rl now user)
  \/ (exists user session_token,
        login_granted username password rl now user
        /\ create_session (User.id user) clock = Ret session_token
        /\ response
           = Ret (RedirectResponse redirect_url 303
                    (session_cookie settings session_token))).
Proof.
  cbn zeta. unfold login_granted.
  destruct (fst (fst (is_allowed rl key 5 900 now))) eqn:Hallowed.
  2:{ left. split; [done|]. by rewrite login_rate_limited. }
  right.
  destruct (user_by_username db username) as [user|] eqn:Huser.
  2:{ left. split; [done|]. rewrite login_unknown_user by done.
      exists "Invalid username or password", 401.
      split; [done|]. split; [by left|]. by intros user (_ & ? & _). }
  destruct (password_ok user password) eqn:Hpw.
  2:{ left. split; [done|].
      rewrite (login_wrong_password _ _ _ _ _ _ _ _ _ user) by done.
      exists "Invalid username or password", 401.
      split; [done|]. split; [by left|].
      intros user' (_ & [= <-] & Hpw' & _). congruence. }
  rewrite (login_verified _ _ _ _ _ _ _ _ _ user) by done.
  destruct admin_only eqn:Hadm; cbn [andb].
  - destruct (String.eqb_spec (User.role user) "admin") as [Hrole|Hrole];
      cbn [negb].
    + destruct (User.is_active user) eqn:Hact; cbn [negb].
      * right.
        destruct (create_session_returns (User.id user) clock) as [token Ht].
        rewrite Ht. exists user, token. by auto 10.
      * left. split; [done|]. exists "Account is inactive", 403.
        split; [done|]. split; [by right|].
        intros user' (_ & [= <-] & _ & _ & Hact'). congruence.
    + left. split; [done|]. exists "Admin access required", 403.
      split; [done|]. split; [by right|].
      intros user' (_ & [= <-] & _ & [?|?] & _); congruence.
  - destruct (User.is_active user) eqn:Hact; cbn [negb].
    + right.
      destruct (create_session_returns (User.id user) clock) as [token Ht].
      rewrite Ht. exists user, token. by auto 10.
    + left. split; [done|]. exists "Account is inactive", 403.
      split; [done|]. split; [by right|].
      intros user' (_ & [= <-] & _ & _ & Hact'). congruence.
Qed.

End LoginMore.

(** X9. [handle_login] always answers, with status 303, 401, 403 or 429,
    and it redirects with a session cookie exactly when the client is not
    rate limited, the username exists, the password verifies against its
    hash, the role is admin if that is required, and the account is
    active. *)
Theorem handle_login_grants_exactly `{TimestampSigner} `{Bcrypt}
    (settings : Settings) (request : Request) (username password : string)
    (db : Db) (template_name redirect_url rate_limit_key : string)
    (require_admin : bool) (rl : RateLimiter) (now : Q) (clock : Z) :
  let response :=
    fst (fst (handle_login settings request username password db
                template_name redirect_url rate_limit_key require_admin
                rl now clock)) in
  (exists r,
     response = Ret r
     /\ In (response_status r) [303; 401; 403; 429])
  /\ ((exists cookie,
         response = Ret (RedirectResponse redirect_url 303 cookie))
      <-> exists user,
            login_granted request db rate_limit_key require_admin
              username password rl now user).
Proof.
  cbn zeta.
  destruct (login_cases settings request db template_name redirect_url
              rate_limit_key require_admin username password rl now clock)
    as [[Hden ->]|[(Hall & error & status & -> & Hstatus & Hnot)
                  |(user & token & Hgranted & Htoken & ->)]].
  - split; [eexists; split; [done|]; cbn; tauto|].
    split; [by intros [cookie [=]]|].
    intros [user (Hall & _)]. congruence.
  - split.
    + eexists. split; [done|]. cbn. destruct Hstatus as [-> | ->]; tauto.
    + split; [by intros [cookie [=]]|]. intros [user Hg]. by destruct (Hnot user).
  - split; [eexists; split; [done|]; cbn; tauto|].
    split; [by exists user|by eexists].
Qed.

(** X10. The cookie set by a successful login authenticates the same user
    on later requests for as long as its [max_age] lasts: a request that
    carries it, and no API key, is resolved to the user who logged in. *)
Theorem login_cookie_authenticates `{TimestampSigner} `{Bcrypt}
    (settings : Settings) (request request' : Request)
    (username password : string) (db : Db)
    (template_name redirect_url rate_limit_key : string)
    (require_admin : bool) (rl : RateLimiter) (now : Q)
    (clock clock' utcnow : Z) (user : User.t) (cookie : Cookie) :
  fst (fst (handle_login settings request username password db
              template_name redirect_url rate_limit_key require_admin
              rl now clock))
  = Ret (RedirectResponse redirect_url 303 cookie) ->
  user_by_username db username = Some user ->
  0 <= uuid_int (User.id user) < 2 ^ 128 ->
  user_by_id db (User.id user) = Some user ->
  cookie_value cookie <> "" ->
  cookies request' !! cookie_key cookie = Some (cookie_value cookie) ->
  0 <= clock <= clock' ->
  clock' - clock <= cookie_max_age cookie ->
  get_current_user settings request' None db utcnow clock' = (Ret user, db).
Proof.
  intros Hresp Huser Hid Hbyid Hne Hcookie Hclock Hage.
  destruct (login_cases settings request db template_name redirect_url
              rate_limit_key require_admin username password rl now clock)
    as [[_ Heq]|[(_ & error & status & Heq & _)
                |(user' & token & Hgranted & Htoken & Heq)]];
    rewrite Heq in Hresp; try discriminate.
  injection Hresp as <-.
  destruct Hgranted as (_ & Huser' & _ & _ & Hactive).
  assert (user' = user) as -> by congruence.
  cbn [session_cookie cookie_key cookie_value cookie_max_age] in *.
  unfold get_current_user. cbn [truthy]. rewrite Hcookie.
  rewrite truthy_nonempty by done.
  rewrite (create_session_verifies settings (User.id user) token clock clock')
    by done.
  by rewrite Hbyid, Hactive.
Qed.

Lemma login_cookie_authenticates_witness :
  get_current_user Example.settings
    (mkRequest "/account" ∅ (<["session" := Example.alice_session]> ∅) None)
    None Example.db 2000 86403
  = (Ret Example.alice, Example.db).
Proof.
  apply (login_cookie_authenticates Example.settings
           (mkRequest "/login" ∅ ∅ (Some "10.0.0.3"))
           (mkRequest "/account" ∅ (<["session" := Example.alice_session]> ∅) None)
           "alice" "wonderland" Example.db "user/login.html" "/account" "login"
           false ∅ (1000 # 1)%Q 3 86403 2000 Example.alice
           (session_cookie Example.settings Example.alice_session));
    try (by vm_compute); cbn; lia.
Defined.

Section LoginAttemptsFacts.

Context `{TimestampSigner} `{Bcrypt} (settings : Settings).
Variables (request : Request) (db : Db).
Variables (template_name redirect_url rate_limit_key : string).
Variable (admin_only : bool).

Local Abbreviation key := (limit_key request rate_limit_key).
Local Abbreviation attempts_run rl attempts :=
  (login_attempts settings request db template_name redirect_url
     rate_limit_key admin_only rl attempts).

(** The rate limiter sees a run of login attempts as a run of calls for
    the client's key, and a response is the rate-limit page exactly when
    the call was denied. *)
Lemma login_attempts_calls (attempts : list LoginAttempt) :
  forall (rl : RateLimiter) i response rl',
    attempts_run rl attempts !! i = Some (response, rl') ->
    exists answer,
      run_calls rl key 5 900 (List.map attempt_now attempts) !! i
      = Some (answer, rl')
      /\ (fst answer = false ->
          response = too_many_attempts request template_name)
      /\ (fst answer = true ->
          response <> too_many_attempts request template_name).
Proof.
  induction attempts as [|a attempts IH]; intros rl i response rl' Hi; [done|].
  cbn [login_attempts List.map run_calls] in *.
  pose proof (login_limiter settings request db template_name redirect_url
                rate_limit_key admin_only (attempt_username a)
                (attempt_password a) rl (attempt_now a) (attempt_clock a))
    as Hrl.
  pose proof (login_cases settings request db template_name redirect_url
                rate_limit_key admin_only (attempt_username a)
                (attempt_password a) rl (attempt_now a) (attempt_clock a))
    as Hcases.
  destruct (handle_login _ _ _ _ _ _ _ _ _ _ _ _) as [[resp rl1] log].
  cbn [fst snd] in Hrl, Hcases. subst rl1.
  destruct i as [|i]; cbn in Hi.
  - injection Hi as <- <-.
    exists (fst (is_allowed rl key 5 900 (attempt_now a))).
    split; [by destruct (is_allowed rl key 5 900 (attempt_now a))|].
    destruct Hcases as [[Hden ->]|[(Hall & error & status & -> & Hs & _)
                                   |(user & token & Hg & _ & ->)]].
    + split; [done|]. intros. congruence.
    + split; [intros; congruence|]. intros _. unfold too_many_attempts.
      intros [= _ ->]. lia.
    + destruct Hg as [Hg _]. split; [intros; congruence|done].
  - by apply IH.
Qed.

Lemma login_attempts_length (attempts : list LoginAttempt) :
  forall rl : RateLimiter,
    List.length (attempts_run rl attempts) = List.length attempts.
Proof.
  induction attempts as [|a attempts IH]; intros rl; [done|].
  cbn [login_attempts].
  destruct (handle_login _ _ _ _ _ _ _ _ _ _ _ _) as [[? rl'] ?].
  cbn [List.length]. by rewrite IH.
Qed.

End LoginAttemptsFacts.

(** X11. Attempts count against the client whatever their outcome: of six
    login attempts from one client inside fifteen minutes, on a key
    without history, the first five are handled (none gets the rate-limit
    page) and the sixth is answered 429, whatever usernames and passwords
    are sent, correct ones included. *)
Theorem sixth_login_attempt_rate_limited `{TimestampSigner} `{Bcrypt}
    (settings : Settings) (request : Request) (db : Db)
    (template_name redirect_url rate_limit_key : string)
    (require_admin : bool) (rl : RateLimiter) (attempts : list LoginAttempt) :
  history rl (limit_key request rate_limit_key) = [] ->
  List.length attempts = 6%nat ->
  within_window 900 (List.map attempt_now attempts) = true ->
  let outcomes :=
    login_attempts settings request db template_name redirect_url
      rate_limit_key require_admin rl attempts in
  (forall i, (i < 5)%nat ->
     exists response rl',
       outcomes !! i = Some (response, rl')
       /\ response <> too_many_attempts request template_name)
  /\ (exists rl',
        outcomes !! 5%nat
        = Some (too_many_attempts request template_name, rl')).
Proof.
  intros Hempty Hlen Hwin outcomes.
  set (key := limit_key request rate_limit_key) in *.
  assert (Hw : within_window 900 (history rl key ++ List.map attempt_now attempts)
               = true) by (by rewrite Hempty).
  assert (Hsome : forall i, (i < 6)%nat -> is_Some (outcomes !! i)).
  { intros i Hi. apply lookup_lt_is_Some_2. unfold outcomes.
    rewrite login_attempts_length. lia. }
  split.
  - intros i Hi. destruct (Hsome i ltac:(lia)) as [[response rl'] Hr].
    exists response, rl'. split; [done|].
    destruct (login_attempts_calls settings _ _ _ _ _ _ _ _ _ _ _ Hr)
      as (answer & Hcall & _ & Hallowed).
    apply Hallowed.
    destruct (run_calls_nth key 5 900 _ _ _ _ Hw Hcall) as [Hadm _].
    rewrite Hempty in Hadm. cbn [List.length] in Hadm.
    destruct Hadm as [Hfst _]; [lia|]. cbn [fst] in Hfst. by rewrite Hfst.
  - destruct (Hsome 5%nat ltac:(lia)) as [[response rl'] Hr].
    exists rl'. rewrite Hr. do 2 f_equal.
    destruct (login_attempts_calls settings _ _ _ _ _ _ _ _ _ _ _ Hr)
      as (answer & Hcall & Hdenied & _).
    apply Hdenied.
    destruct (run_calls_nth key 5 900 _ _ _ _ Hw Hcall) as [_ Hden].
    rewrite Hempty in Hden. cbn [List.length] in Hden.
    destruct Hden as [Hfst _]; [lia|]. cbn [fst] in Hfst. by rewrite Hfst.
Qed.

Lemma sixth_login_attempt_rate_limited_witness :
  let attempts :=
    [mkLoginAttempt "alice" "guess" (1000 # 1)%Q 3;
     mkLoginAttempt "alice" "guess" (1001 # 1)%Q 4;
     mkLoginAttempt "bob" "guess" (1002 # 1)%Q 5;
     mkLoginAttempt "mallory" "guess" (1003 # 1)%Q 6;
     mkLoginAttempt "alice" "wonderland" (1004 # 1)%Q 7;
     mkLoginAttempt "alice" "wonderland" (1005 # 1)%Q 8] in
  exists rl',
    login_attempts Example.settings (mkRequest "/login" ∅ ∅ (Some "10.0.0.3"))
      Example.db "user/login.html" "/account" "login" false ∅ attempts
    !! 5%nat
    = Some (too_many_attempts (mkRequest "/login" ∅ ∅ (Some "10.0.0.3"))
              "user/login.html", rl').
Proof.
  cbn zeta.
  apply (sixth_login_attempt_rate_limited Example.settings
           (mkRequest "/login" ∅ ∅ (Some "10.0.0.3")) Example.db
           "user/login.html" "/account" "login" false ∅); by vm_compute.
Defined.

(** ** Hashing: what is stored verifies *)

Section ReferenceHasherFacts.

Import Reference ReferenceHasher.

Lemma clear_hashpw_decodes password salt hashed :
  clear_hashpw password salt = Ret hashed ->
  exists text, utf8_decode hashed = Ret text /\ text <> EmptyString.
Proof.
  unfold clear_hashpw.
  destruct (utf8_decode password) as [text|] eqn:Hp; [|done].
  intros [= <-]. exists ("$2b$" +:+ text).
  change ("$2b$" +:+ password)
    with (String "$" (String "2" (String "b" (String "$" password)))).
  rewrite !utf8_decode_cons. cbn -[utf8_decode]. by rewrite Hp.
Qed.

Lemma clear_checkpw_hashpw password salt hashed :
  clear_hashpw password salt = Ret hashed ->
  clear_checkpw password hashed = Ret true.
Proof.
  unfold clear_hashpw, clear_checkpw.
  destruct (utf8_decode password); [|done]. intros [= <-].
  change ("$2b$" +:+ password)
    with (String "$" (String "2" (String "b" (String "$" password)))).
  cbn [String.prefix]. repeat (destruct (ascii_dec _ _); [|done]).
  destruct password; cbn [String.prefix]; by rewrite String.eqb_refl.
Qed.

#[export] Instance clear_hasher : BcryptHasher := {|
  hashpw := clear_hashpw;
  hashpw_decodes := clear_hashpw_decodes;
  checkpw_hashpw := clear_checkpw_hashpw
|}.

End ReferenceHasherFacts.

Section HashingFacts.

Context `{BcryptHasher}.

Lemma hash_password_nonempty (password hashed : string) (salt : bytes) :
  hash_password password salt = Ret hashed -> hashed <> EmptyString.
Proof.
  unfold hash_password.
  destruct (hashpw (encode password) salt) as [hb|] eqn:Hh; [|done].
  cbn [bind]. destruct (hashpw_decodes _ _ _ Hh) as (text & -> & Hne).
  by intros [= <-].
Qed.

Lemma hash_password_accepts (password hashed : string) (salt : bytes) :
  hash_password password salt = Ret hashed ->
  bcrypt_accepts password hashed = true.
Proof.
  unfold hash_password, bcrypt_accepts.
  destruct (hashpw (encode password) salt) as [hb|] eqn:Hh; [|done].
  cbn [bind]. intros Hd. rewrite (encode_decode _ _ Hd).
  by rewrite (checkpw_hashpw _ _ _ Hh).
Qed.

End HashingFacts.

(** X12. What the hasher stores verifies: a hash returned by
    [hash_password] is accepted by [verify_password] for the same
    password, and a hash returned by [hash_api_key], which is the same
    function, by [verify_api_key] for the same key. *)
Theorem hash_then_verify `{BcryptHasher} (secret hashed : string)
    (salt : bytes) :
  hash_password secret salt = Ret hashed ->
  hash_api_key secret salt = Ret hashed
  /\ verify_password secret hashed = Ret true
  /\ verify_api_key secret hashed = Ret true.
Proof.
  intros Hh. split; [done|].
  rewrite verify_password_answer, verify_api_key_answer.
  by rewrite (hash_password_accepts _ _ _ Hh).
Qed.

Lemma hash_then_verify_witness :
  verify_password "wonderland" "$2b$wonderland" = Ret true.
Proof.
  apply (hash_then_verify "wonderland" "$2b$wonderland" "salt").
  by vm_compute.
Defined.

(** ** API keys: revoking, regenerating *)

Section KeyManagementFacts.

Context `{TimestampSigner} `{!Bcrypt} (settings : Settings).

Lemma UUID_eqb_eq (a b : UUID) : UUID_eqb a b = true <-> a = b.
Proof.
  unfold UUID_eqb. rewrite Z.eqb_eq. destruct a, b; cbn.
  split; [by intros ->|by intros [= ->]].
Qed.

Lemma UUID_eqb_neq (a b : UUID) : UUID_eqb a b = false <-> a <> b.
Proof.
  rewrite <- UUID_eqb_eq. by destruct (UUID_eqb a b).
Qed.

Lemma find_absent {A} (f : A -> bool) (l : list A) :
  (forall a, In a l -> f a = false) -> List.find f l = None.
Proof.
  intros Hall. destruct (List.find f l) as [a|] eqn:Hf; [|done].
  apply List.find_some in Hf as [Hin Ha]. rewrite (Hall a Hin) in Ha. done.
Qed.

Lemma find_app_last {A} (f : A -> bool) (l : list A) (a : A) :
  (forall b, In b l -> f b = false) -> f a = true ->
  List.find f (l ++ [a]) = Some a.
Proof.
  intros Hall Ha. induction l as [|b l IH]; cbn [List.app List.find].
  - by rewrite Ha.
  - rewrite (Hall b) by by left. apply IH. intros c Hc. apply Hall. by right.
Qed.

Lemma deactivate_api_key_active (db : Db) (api_key k : ApiKey.t) :
  In k (active_api_keys (deactivate_api_key db api_key)) ->
  In k (active_api_keys db) /\ ApiKey.id k <> ApiKey.id api_key.
Proof.
  unfold active_api_keys, deactivate_api_key. cbn [api_keys].
  rewrite !filter_In, in_map_iff. intros [(k0 & Hk & Hin) Hact].
  destruct (UUID_eqb (ApiKey.id k0) (ApiKey.id api_key)) eqn:Heq.
  - by subst k.
  - subst k0. by apply UUID_eqb_neq in Heq.
Qed.

Lemma deactivate_api_key_others (db : Db) (api_key k : ApiKey.t) :
  In k (api_keys db) -> ApiKey.id k <> ApiKey.id api_key ->
  In k (api_keys (deactivate_api_key db api_key)).
Proof.
  intros Hin Hne. unfold deactivate_api_key. cbn [api_keys].
  apply in_map_iff. exists k. split; [|done].
  apply UUID_eqb_neq in Hne. by rewrite Hne.
Qed.

(** The request carries an API key that verifies first against [k], whose
    owner is active: [k]'s owner is returned and [k] is stamped. *)
Lemma get_current_user_by_key (request : Request) (x_api_key : string)
    (db : Db) (utcnow clock : Z) (k : ApiKey.t) (user : User.t) :
  x_api_key <> "" ->
  List.find (key_verifies x_api_key) (active_api_keys db) = Some k ->
  user_by_id db (ApiKey.user_id k) = Some user ->
  User.is_active user = true ->
  get_current_user settings request (Some x_api_key) db utcnow clock
  = (Ret user, touch_api_key db k utcnow).
Proof.
  intros Hne Hfind Huser Hact. unfold get_current_user.
  rewrite truthy_nonempty by done. rewrite first_verifying_find, Hfind.
  cbn beta iota. by rewrite Huser, Hact.
Qed.

(** The request carries an API key that no active key verifies. *)
Lemma get_current_user_no_key (request : Request) (x_api_key : string)
    (db : Db) (utcnow clock : Z) :
  x_api_key <> "" ->
  (forall k, In k (active_api_keys db) -> key_verifies x_api_key k = false) ->
  get_current_user settings request (Some x_api_key) db utcnow clock
  = (Raise (HTTPException 401 "Invalid API key"), db).
Proof.
  intros Hne Hnone. unfold get_current_user.
  rewrite truthy_nonempty by done.
  by rewrite first_verifying_find, find_absent.
Qed.

(** Whoever is returned was looked up by id and is active. *)
Lemma get_current_user_looked_up (request : Request)
    (x_api_key : option string) (db db' : Db) (utcnow clock : Z)
    (user : User.t) :
  get_current_user settings request x_api_key db utcnow clock = (Ret user, db') ->
  exists user_id,
    user_by_id db user_id = Some user /\ User.is_active user = true.
Proof.
  unfold get_current_user.
  destruct (truthy x_api_key) as [key|].
  - destruct (first_verifying key (active_api_keys db)) as [[k|]|]; try done.
    destruct (user_by_id db (ApiKey.user_id k)) as [u|] eqn:Hu; [|done].
    destruct (User.is_active u) eqn:Ha; [|done].
    cbn [negb]. intros [= <- _]. by exists (ApiKey.user_id k).
  - destruct (truthy (cookies request !! "session")) as [token|]; [|done].
    destruct (verify_session settings token clock) as [[uid|]|]; try done.
    destruct (user_by_id db uid) as [u|] eqn:Hu; [|done].
    destruct (User.is_active u) eqn:Ha; [|done].
    intros [= <- _]. by exists uid.
Qed.

Lemma deactivate_keys_of_active (user_id : UUID) (keys : list ApiKey.t) :
  List.filter (fun k => UUID_eqb (ApiKey.user_id k) user_id)
    (List.filter ApiKey.is_active (deactivate_keys_of user_id keys)) = [].
Proof.
  induction keys as [|k keys IH]; [done|].
  cbn [deactivate_keys_of List.map]. fold (deactivate_keys_of user_id keys).
  destruct (UUID_eqb (ApiKey.user_id k) user_id) eqn:Hown;
    destruct (ApiKey.is_active k) eqn:Hact;
    cbn [andb List.filter deactivate_key ApiKey.is_active];
    rewrite ?Hact; cbn [List.filter]; rewrite ?Hown; done.
Qed.

Lemma deactivate_keys_of_others (user_id : UUID) (keys : list ApiKey.t) :
  List.filter (fun k => negb (UUID_eqb (ApiKey.user_id k) user_id))
    (deactivate_keys_of user_id keys)
  = List.filter (fun k => negb (UUID_eqb (ApiKey.user_id k) user_id)) keys.
Proof.
  induction keys as [|k keys IH]; [done|].
  cbn [deactivate_keys_of List.map]. fold (deactivate_keys_of user_id keys).
  destruct (UUID_eqb (ApiKey.user_id k) user_id) eqn:Hown;
    cbn [andb List.filter].
  - destruct (ApiKey.is_active k);
      cbn [deactivate_key ApiKey.user_id]; by rewrite Hown.
  - by rewrite Hown, IH.
Qed.

Lemma deactivate_keys_of_active_elem (user_id : UUID) (keys : list ApiKey.t)
    (k : ApiKey.t) :
  In k (List.filter ApiKey.is_active (deactivate_keys_of user_id keys)) ->
  In k (List.filter ApiKey.is_active keys) /\ ApiKey.user_id k <> user_id.
Proof.
  unfold deactivate_keys_of. rewrite !filter_In, in_map_iff.
  intros [(k0 & Hk & Hin) Hact].
  destruct (UUID_eqb (ApiKey.user_id k0) user_id) eqn:Hown;
    destruct (ApiKey.is_active k0) eqn:Hact0; cbn [andb] in Hk; subst k;
    try done; try congruence.
  by apply UUID_eqb_neq in Hown.
Qed.

End KeyManagementFacts.

(** X13. Revoking an API key touches only a key of the caller: the users
    table and every key with another id stay as they are, no key becomes
    active, an id that belongs to someone else's key is answered with 404
    and changes nothing, and after a successful call no active key has
    the revoked id. *)
Theorem revoke_api_key_scoped (api_key_id : UUID) (current_user : User.t)
    (db : Db) :
  let outcome := revoke_api_key api_key_id current_user db in
  users (snd outcome) = users db
  /\ (forall k, In k (active_api_keys (snd outcome)) ->
                In k (active_api_keys db))
  /\ (forall k, In k (api_keys db) -> ApiKey.id k <> api_key_id ->
                In k (api_keys (snd outcome)))
  /\ ((forall k, In k (api_keys db) -> ApiKey.id k = api_key_id ->
                 ApiKey.user_id k <> User.id current_user) ->
      outcome = (Raise (HTTPException 404 "API key not found"), db))
  /\ (returns (fst outcome) ->
      forall k, In k (active_api_keys (snd outcome)) ->
                ApiKey.id k <> api_key_id).
Proof.
  cbn zeta. unfold revoke_api_key.
  destruct (List.find _ (api_keys db)) as [api_key|] eqn:Hfind.
  - apply List.find_some in Hfind as [Hin Hmatch].
    apply andb_true_iff in Hmatch as [Hid Hown].
    apply UUID_eqb_eq in Hid, Hown. cbn [fst snd].
    split; [done|]. split; [|split; [|split]].
    + intros k Hk. by apply deactivate_api_key_active in Hk as [? _].
    + intros k Hk Hne. apply deactivate_api_key_others; [done|].
      by rewrite Hid.
    + intros Hothers. by destruct (Hothers api_key Hin Hid).
    + intros _ k Hk. apply deactivate_api_key_active in Hk as [_ Hne].
      by rewrite <- Hid.
  - cbn [fst snd]. split; [done|]. split; [done|]. split; [done|].
    split; [done|]. by intros [? ?].
Qed.

(** X14. A revoked key no longer authenticates: once [revoke_api_key] has
    succeeded, a request whose [X-API-Key] verified against no other
    active key than the revoked one is answered 401 Invalid API key. *)
Theorem revoked_key_refused `{TimestampSigner} `{!Bcrypt}
    (settings : Settings) (request : Request) (x_api_key : string)
    (api_key_id : UUID) (current_user : User.t) (db db' : Db)
    (reply : Reply) (utcnow clock : Z) :
  x_api_key <> "" ->
  (forall k, In k (active_api_keys db) -> key_verifies x_api_key k = true ->
             ApiKey.id k = api_key_id) ->
  revoke_api_key api_key_id current_user db = (Ret reply, db') ->
  get_current_user settings request (Some x_api_key) db' utcnow clock
  = (Raise (HTTPException 401 "Invalid API key"), db').
Proof.
  intros Hne Honly Hrevoke. apply get_current_user_no_key; [done|].
  intros k Hk. unfold revoke_api_key in Hrevoke.
  destruct (List.find _ (api_keys db)) as [api_key|] eqn:Hfind; [|done].
  injection Hrevoke as _ <-.
  apply List.find_some in Hfind as [_ Hmatch].
  apply andb_true_iff in Hmatch as [Hid _]. apply UUID_eqb_eq in Hid.
  apply deactivate_api_key_active in Hk as [Hk Hother].
  destruct (key_verifies x_api_key k) eqn:Hv; [|done].
  destruct Hother. rewrite Hid. by apply Honly.
Qed.

Lemma revoked_key_refused_witness :
  get_current_user Example.settings (mkRequest "/api/v1/commands" ∅ ∅ None)
    (Some "alice-key")
    (deactivate_api_key Example.db Example.alice_key) 1000 5
  = (Raise (HTTPException 401 "Invalid API key"),
     deactivate_api_key Example.db Example.alice_key).
Proof.
  apply (revoked_key_refused Example.settings _ "alice-key"
           (ApiKey.id Example.alice_key) Example.alice Example.db _
           (HTMLReply "" 200)).
  - done.
  - intros k Hk. vm_compute in Hk.
    destruct Hk as [<-|[<-|[]]]; by vm_compute.
  - by vm_compute.
Defined.

(** X15. Regenerating leaves a user exactly one active key, the new one:
    it has the id drawn for it, the plaintext handed back verifies
    against it, and the keys of other users and the users table are as
    before. *)
Theorem regenerate_api_key_replaces `{BcryptHasher} (current_user : User.t)
    (db db' : Db) (new_key_id : UUID) (new_api_key_value : string)
    (salt : bytes) (reply : User.t * string) :
  regenerate_api_key current_user db new_key_id new_api_key_value salt
  = (Ret reply, db') ->
  let owned k := UUID_eqb (ApiKey.user_id k) (User.id current_user) in
  exists key_obj,
    List.filter owned (active_api_keys db') = [key_obj]
    /\ ApiKey.id key_obj = new_key_id
    /\ key_verifies new_api_key_value key_obj = true
    /\ reply = (current_user, new_api_key_value)
    /\ List.filter (fun k => negb (owned k)) (api_keys db')
       = List.filter (fun k => negb (owned k)) (api_keys db)
    /\ users db' = users db.
Proof.
  unfold regenerate_api_key.
  destruct (hash_api_key new_api_key_value salt) as [key_hash|] eqn:Hhash;
    [|done].
  intros [= <- <-]. cbn zeta.
  exists (new_api_key new_key_id (User.id current_user) key_hash).
  unfold active_api_keys. cbn [api_keys users].
  rewrite !List.filter_app, deactivate_keys_of_active,
    deactivate_keys_of_others.
  cbn [List.filter new_api_key ApiKey.is_active ApiKey.user_id ApiKey.id].
  rewrite (proj2 (UUID_eqb_eq _ _) eq_refl). cbn [negb List.app].
  split; [done|]. split; [done|]. split; [|by rewrite app_nil_r].
  unfold key_verifies. cbn [ApiKey.key].
  by apply hash_password_accepts with salt.
Qed.

Lemma regenerate_api_key_replaces_witness :
  exists key_obj,
    List.filter
      (fun k => UUID_eqb (ApiKey.user_id k) (User.id Example.alice))
      (active_api_keys
         (snd (regenerate_api_key Example.alice Example.db (mkUUID 13)
                 "fresh-key" "salt")))
    = [key_obj].
Proof.
  destruct (regenerate_api_key_replaces Example.alice Example.db
              (snd (regenerate_api_key Example.alice Example.db (mkUUID 13)
                      "fresh-key" "salt"))
              (mkUUID 13) "fresh-key" "salt" (Example.alice, "fresh-key"))
    as (key_obj & Hone & _); [by vm_compute|].
  by exists key_obj.
Defined.

(** X16. The keys a user held before regenerating are refused afterwards:
    a request whose [X-API-Key] verified only against keys of that user,
    and is not the new key, is answered 401 Invalid API key. *)
Theorem regenerated_old_key_refused `{TimestampSigner} `{!Bcrypt}
    `{!BcryptHasher} (settings : Settings) (request : Request)
    (x_api_key : string) (current_user : User.t) (db db' : Db)
    (new_key_id : UUID) (new_api_key_value : string) (salt : bytes)
    (reply : User.t * string) (utcnow clock : Z) :
  x_api_key <> "" ->
  (forall k, In k (active_api_keys db) -> key_verifies x_api_key k = true ->
             ApiKey.user_id k = User.id current_user) ->
  (forall key_hash, hash_api_key new_api_key_value salt = Ret key_hash ->
                    bcrypt_accepts x_api_key key_hash = false) ->
  regenerate_api_key current_user db new_key_id new_api_key_value salt
  = (Ret reply, db') ->
  get_current_user settings request (Some x_api_key) db' utcnow clock
  = (Raise (HTTPException 401 "Invalid API key"), db').
Proof.
  intros Hne Hown Hnew. unfold regenerate_api_key.
  destruct (hash_api_key new_api_key_value salt) as [key_hash|] eqn:Hhash;
    [|done].
  intros [= _ <-]. apply get_current_user_no_key; [done|].
  intros k. unfold active_api_keys. cbn [api_keys].
  rewrite List.filter_app. intros [Hk|Hk]%in_app_iff.
  - apply deactivate_keys_of_active_elem in Hk as [Hk Hother].
    destruct (key_verifies x_api_key k) eqn:Hv; [|done].
    destruct Hother. by apply Hown.
  - cbn in Hk. destruct Hk as [<-|[]]. by apply Hnew.
Qed.

Lemma regenerated_old_key_refused_witness :
  fst (get_current_user Example.settings
         (mkRequest "/api/v1/commands" ∅ ∅ None) (Some "alice-key")
         (snd (regenerate_api_key Example.alice Example.db (mkUUID 13)
                 "fresh-key" "salt"))
         1000 5)
  = Raise (HTTPException 401 "Invalid API key").
Proof.
  rewrite (regenerated_old_key_refused Example.settings _ "alice-key"
             Example.alice Example.db _ (mkUUID 13) "fresh-key" "salt"
             (Example.alice, "fresh-key")); [done|done|..|by vm_compute].
  - intros k Hk. vm_compute in Hk.
    destruct Hk as [<-|[<-|[]]]; by vm_compute.
  - intros key_hash. vm_compute. by intros [= <-].
Defined.

(** ** Administration: toggling and creating users *)

Section UserManagementFacts.

Context `{TimestampSigner} `{!Bcrypt} (settings : Settings).

Lemma set_user_active_elem (db : Db) (user u : User.t) (value : bool) :
  In u (users (set_user_active db user value)) ->
  (In u (users db) /\ User.id u <> User.id user)
  \/ (User.id u = User.id user /\ User.is_active u = value).
Proof.
  unfold set_user_active. cbn [users]. rewrite in_map_iff.
  intros (u0 & Hu & Hin).
  destruct (UUID_eqb (User.id u0) (User.id user)) eqn:Heq.
  - right. subst u. cbn. by apply UUID_eqb_eq in Heq.
  - left. subst u0. by apply UUID_eqb_neq in Heq.
Qed.

Lemma set_user_active_others (db : Db) (user u : User.t) (value : bool) :
  In u (users db) -> User.id u <> User.id user ->
  In u (users (set_user_active db user value)).
Proof.
  intros Hin Hne. unfold set_user_active. cbn [users].
  apply in_map_iff. exists u. split; [|done].
  apply UUID_eqb_neq in Hne. by rewrite Hne.
Qed.

End UserManagementFacts.

(** X17. [toggle_user_status] never changes the account of the
    administrator who calls it nor any API key: asked for the caller's own
    id it raises and leaves the database as it is, and asked for another
    user it changes rows of that id only. *)
Theorem toggle_user_status_spares_caller (user_id : UUID)
    (current_user : User.t) (db : Db) :
  let outcome := toggle_user_status user_id current_user db in
  api_keys (snd outcome) = api_keys db
  /\ (forall u, In u (users db) ->
                User.id u = User.id current_user \/ User.id u <> user_id ->
                In u (users (snd outcome)))
  /\ (user_id = User.id current_user ->
      snd outcome = db
      /\ (fst outcome = Raise (HTTPException 404 "User not found")
          \/ fst outcome
             = Raise (HTTPException 400 "Cannot deactivate your own account"))).
Proof.
  cbn zeta. unfold toggle_user_status.
  destruct (user_by_id db user_id) as [user|] eqn:Huser.
  2:{ cbn [fst snd]. split; [done|]. split; [done|]. intros _. by auto. }
  apply user_by_id_elem in Huser as [_ Hid]. apply UUID_eqb_eq in Hid.
  destruct (UUID_eqb (User.id user) (User.id current_user)) eqn:Hself;
    cbn [fst snd].
  - split; [done|]. split; [done|]. intros _. by auto.
  - apply UUID_eqb_neq in Hself. split; [done|]. split.
    + intros u Hin Hu. apply set_user_active_others; [done|].
      destruct Hu as [Hu|Hu]; congruence.
    + intros ->. done.
Qed.

(** X18. A user deactivated by [toggle_user_status] is locked out at once:
    on the database it leaves, [get_current_user] returns that user for
    no request, whatever API key or session cookie it carries. *)
Theorem deactivated_user_locked_out `{TimestampSigner} `{!Bcrypt}
    (settings : Settings) (user_id : UUID) (current_user user : User.t)
    (db db' db'' : Db) (reply : Reply) (request : Request)
    (x_api_key : option string) (utcnow clock : Z) (authenticated : User.t) :
  user_by_id db user_id = Some user ->
  User.is_active user = true ->
  toggle_user_status user_id current_user db = (Ret reply, db') ->
  get_current_user settings request x_api_key db' utcnow clock
  = (Ret authenticated, db'') ->
  User.id authenticated <> user_id.
Proof.
  intros Huser Hactive. unfold toggle_user_status. rewrite Huser.
  destruct (UUID_eqb (User.id user) (User.id current_user)); [done|].
  intros [= _ <-] Hauth.
  apply get_current_user_looked_up in Hauth as (uid & Hfound & Hact).
  apply user_by_id_elem in Hfound as [Hin _].
  apply user_by_id_elem in Huser as [_ Hid]. apply UUID_eqb_eq in Hid.
  apply set_user_active_elem in Hin as [[_ Hne]|[_ Hoff]].
  - by rewrite <- Hid.
  - rewrite Hactive in Hoff. cbn in Hoff. congruence.
Qed.

Lemma deactivated_user_locked_out_witness :
  UUID_eqb (User.id Example.carol) (User.id Example.alice) = false.
Proof.
  apply UUID_eqb_neq.
  apply (deactivated_user_locked_out Example.settings
           (User.id Example.alice) Example.bob Example.alice Example.db
           (snd (toggle_user_status (User.id Example.alice) Example.bob
                   Example.db))
           (snd (toggle_user_status (User.id Example.alice) Example.bob
                   Example.db))
           (RedirectReply "/admin" 303)
           (mkRequest "/account" ∅
              (<["session" := "TTT.00000000-0000-0000-0000-000000000003"]> ∅)
              None)
           None 1000 5 Example.carol); by vm_compute.
Defined.

Section CreateUserFacts.

Context `{TimestampSigner} `{!Bcrypt} `{!BcryptHasher} (settings : Settings).

Lemma NoDup_map_snoc {A B} (f : A -> B) (l : list A) (a : A) :
  List.NoDup (List.map f l) ->
  (forall b, In b l -> f b <> f a) ->
  List.NoDup (List.map f (l ++ [a])).
Proof.
  intros Hl Hfresh. rewrite List.map_app. cbn [List.map].
  apply List.NoDup_rev in Hl. rewrite <- (List.rev_involutive (_ ++ _)).
  apply List.NoDup_rev. rewrite List.rev_app_distr. cbn [List.rev List.app].
  constructor; [|done].
  rewrite <- List.in_rev, List.in_map_iff. intros (b & Hb & Hin).
  by destruct (Hfresh b Hin).
Qed.

(** What the check at the head of [create_user] establishes when it
    passes. *)
Lemma user_by_username_or_email_none (db : Db) (username email : string)
    (u : User.t) :
  user_by_username_or_email db username email = None ->
  In u (users db) ->
  User.username u <> username /\ User.email u <> email.
Proof.
  intros Hnone Hin.
  pose proof (List.find_none _ _ Hnone u Hin) as Hu. cbn beta in Hu.
  apply orb_false_iff in Hu as [Hn He].
  by apply String.eqb_neq in Hn, He.
Qed.

(** The outcome of a call that created a user. *)
Lemma create_user_created (username email role : string) (db db' : Db)
    (new_user_id new_key_id : UUID) (api_key_value : string) (salt : bytes)
    (db_user : User.t) :
  create_user username email role db new_user_id new_key_id api_key_value salt
  = (Ret db_user, db') ->
  exists api_key_hash,
    user_by_username_or_email db username email = None
    /\ hash_api_key api_key_value salt = Ret api_key_hash
    /\ db_user = User.mk new_user_id username email role None true
    /\ db' = mkDb (users db ++ [db_user])
               (api_keys db ++ [new_api_key new_key_id new_user_id api_key_hash]).
Proof.
  unfold create_user.
  destruct (user_by_username_or_email db username email); [done|].
  destruct (hash_api_key api_key_value salt) as [api_key_hash|]; [|done].
  intros [= <- <-]. by exists api_key_hash.
Qed.

End CreateUserFacts.

(** X19. [create_user] keeps usernames and e-mail addresses unique: if no
    two users shared one before the call, none do after it, and a request
    that reuses the username or the address of an existing user is
    refused with 400 and changes nothing. *)
Theorem create_user_keeps_unique `{BcryptHasher}
    (username email role : string) (db : Db) (new_user_id new_key_id : UUID)
    (api_key_value : string) (salt : bytes) :
  List.NoDup (List.map User.username (users db)) ->
  List.NoDup (List.map User.email (users db)) ->
  let outcome :=
    create_user username email role db new_user_id new_key_id api_key_value
      salt in
  List.NoDup (List.map User.username (users (snd outcome)))
  /\ List.NoDup (List.map User.email (users (snd outcome)))
  /\ ((exists u, In u (users db)
                 /\ (User.username u = username \/ User.email u = email)) ->
      outcome = (Raise (HTTPException 400 "User already exists"), db)).
Proof.
  intros Hnames Hemails. cbn zeta. unfold create_user.
  destruct (user_by_username_or_email db username email) as [existing|]
    eqn:Hcheck; [done|].
  assert (Hfresh : forall u, In u (users db) ->
            User.username u <> username /\ User.email u <> email)
    by (intros u; by apply user_by_username_or_email_none).
  assert (Hclash : (exists u, In u (users db)
            /\ (User.username u = username \/ User.email u = email)) ->
            False).
  { intros (u & Hin & Hu). destruct (Hfresh u Hin). by destruct Hu. }
  destruct (hash_api_key api_key_value salt) as [api_key_hash|];
    cbn [fst snd users].
  - split; [|split].
    + apply NoDup_map_snoc; [done|]. intros u Hin. by apply Hfresh.
    + apply NoDup_map_snoc; [done|]. intros u Hin. by apply Hfresh.
    + intros Hex. by destruct (Hclash Hex).
  - split; [done|]. split; [done|]. intros Hex. by destruct (Hclash Hex).
Qed.

Lemma create_user_keeps_unique_witness :
  List.NoDup
    (List.map User.username
       (users (snd (create_user "dave" "dave@example.com" "user" Example.db
                      (mkUUID 4) (mkUUID 14) "dave-key" "salt"))))
  /\ create_user "carol" "carol@example.org" "user" Example.db
       (mkUUID 4) (mkUUID 14) "dave-key" "salt"
     = (Raise (HTTPException 400 "User already exists"), Example.db).
Proof.
  assert (Hnames : List.NoDup (List.map User.username (users Example.db)))
    by (vm_compute; repeat constructor; cbn; intuition discriminate).
  assert (Hemails : List.NoDup (List.map User.email (users Example.db)))
    by (vm_compute; repeat constructor; cbn; intuition discriminate).
  split.
  - apply (create_user_keeps_unique "dave" "dave@example.com" "user"
             Example.db (mkUUID 4) (mkUUID 14) "dave-key" "salt"
             Hnames Hemails).
  - apply (create_user_keeps_unique "carol" "carol@example.org" "user"
             Example.db (mkUUID 4) (mkUUID 14) "dave-key" "salt"
             Hnames Hemails).
    exists Example.carol. split; [cbn; tauto|by left].
Defined.

(** X20. A user made by [create_user] has no password: on the database it
    leaves, the login form refuses that username whatever password is
    typed, with the invalid-credentials page or, for a rate-limited
    client, the too-many-attempts page. *)
Theorem created_user_cannot_log_in `{TimestampSigner} `{!Bcrypt}
    `{!BcryptHasher} (settings : Settings) (request : Request)
    (username email role : string) (db db' : Db)
    (new_user_id new_key_id : UUID) (api_key_value : string) (salt : bytes)
    (db_user : User.t) (password : string)
    (template_name redirect_url rate_limit_key : string)
    (require_admin : bool) (rl : RateLimiter) (now : Q) (clock : Z) :
  create_user username email role db new_user_id new_key_id api_key_value salt
  = (Ret db_user, db') ->
  let response :=
    fst (fst (handle_login settings request username password db'
                template_name redirect_url rate_limit_key require_admin
                rl now clock)) in
  response
  = error_page request template_name "Invalid username or password" 401
  \/ response = too_many_attempts request template_name.
Proof.
  intros Hcreate. cbn zeta.
  apply create_user_created in Hcreate
    as (api_key_hash & Hcheck & _ & Huser & ->).
  destruct (fst (fst (is_allowed rl (limit_key request rate_limit_key)
                        5 900 now))) eqn:Hallowed.
  2:{ right. by rewrite login_rate_limited. }
  left. apply (login_wrong_password _ _ _ _ _ _ _ _ _ db_user); [done|..].
  - unfold user_by_username. cbn [users]. apply find_app_last.
    + intros u Hin. apply String.eqb_neq.
      by apply (user_by_username_or_email_none db username email).
    + subst db_user. cbn. apply String.eqb_refl.
  - by subst db_user.
Qed.

Lemma created_user_cannot_log_in_witness :
  fst (fst (handle_login Example.settings
              (mkRequest "/login" ∅ ∅ (Some "10.0.0.3")) "dave" "dave-key"
              (snd (create_user "dave" "dave@example.com" "user" Example.db
                      (mkUUID 4) (mkUUID 14) "dave-key" "salt"))
              "user/login.html" "/account" "login" false ∅ (1000 # 1)%Q 5))
  = error_page (mkRequest "/login" ∅ ∅ (Some "10.0.0.3")) "user/login.html"
      "Invalid username or password" 401
  \/ fst (fst (handle_login Example.settings
              (mkRequest "/login" ∅ ∅ (Some "10.0.0.3")) "dave" "dave-key"
              (snd (create_user "dave" "dave@example.com" "user" Example.db
                      (mkUUID 4) (mkUUID 14) "dave-key" "salt"))
              "user/login.html" "/account" "login" false ∅ (1000 # 1)%Q 5))
     = too_many_attempts (mkRequest "/login" ∅ ∅ (Some "10.0.0.3"))
         "user/login.html".
Proof.
  apply (created_user_cannot_log_in Example.settings _ "dave"
           "dave@example.com" "user" Example.db _ (mkUUID 4) (mkUUID 14)
           "dave-key" "salt"
           (User.mk (mkUUID 4) "dave" "dave@example.com" "user" None true)).
  by vm_compute.
Defined.

(** X21. The key handed to a new user works: if the id drawn for the user
    is not taken and the new key verifies against no key that was active
    before, a request carrying it is authenticated as the new user. *)
Theorem created_user_key_authenticates `{TimestampSigner} `{!Bcrypt}
    `{!BcryptHasher} (settings : Settings) (request : Request)
    (username email role : string) (db db' : Db)
    (new_user_id new_key_id : UUID) (api_key_value : string) (salt : bytes)
    (db_user : User.t) (utcnow clock : Z) :
  api_key_value <> "" ->
  user_by_id db new_user_id = None ->
  (forall k, In k (active_api_keys db) ->
             key_verifies api_key_value k = false) ->
  create_user username email role db new_user_id new_key_id api_key_value salt
  = (Ret db_user, db') ->
  fst (get_current_user settings request (Some api_key_value) db' utcnow clock)
  = Ret db_user.
Proof.
  intros Hne Hid Hothers Hcreate.
  apply create_user_created in Hcreate
    as (api_key_hash & _ & Hhash & Huser & ->).
  rewrite (get_current_user_by_key settings request api_key_value _ utcnow
             clock (new_api_key new_key_id new_user_id api_key_hash) db_user);
    [done|done|..].
  - unfold active_api_keys. cbn [api_keys]. rewrite List.filter_app.
    apply find_app_last; [done|].
    unfold key_verifies. cbn [new_api_key ApiKey.key].
    by apply hash_password_accepts with salt.
  - unfold user_by_id in *. cbn [users new_api_key ApiKey.user_id].
    apply find_app_last.
    + intros u Hin. by apply (List.find_none _ _ Hid).
    + subst db_user. cbn [User.id]. by apply UUID_eqb_eq.
  - by subst db_user.
Qed.

Lemma created_user_key_authenticates_witness :
  fst (get_current_user Example.settings
         (mkRequest "/api/v1/commands" ∅ ∅ None) (Some "dave-key")
         (snd (create_user "dave" "dave@example.com" "user" Example.db
                 (mkUUID 4) (mkUUID 14) "dave-key" "salt"))
         1000 5)
  = Ret (User.mk (mkUUID 4) "dave" "dave@example.com" "user" None true).
Proof.
  apply (created_user_key_authenticates Example.settings _ "dave"
           "dave@example.com" "user" Example.db _ (mkUUID 4) (mkUUID 14)
           "dave-key" "salt"); [done|by vm_compute|..|by vm_compute].
  intros k Hk. vm_compute in Hk. destruct Hk as [<-|[<-|[]]]; by vm_compute.
Defined.

(** ** Flash messages *)

Section ReferenceJsonFacts.

Import ReferenceJson.

Lemma count_strokes_write (n : nat) (s : string) :
  count_strokes (strokes n +:+ String ":" s) = (n, String ":" s).
Proof.
  induction n as [|n IH]; [done|].
  cbn [strokes]. rewrite append_cons. cbn [count_strokes].
  by rewrite IH.
Qed.

Lemma take_text_append (s rest : string) :
  take_text (String.length s) (s +:+ rest) = Some (s, rest).
Proof.
  induction s as [|c s IH]; [done|].
  rewrite append_cons. cbn [String.length take_text]. by rewrite IH.
Qed.

Lemma read_text_write (s rest : string) :
  read_text (write_text s +:+ rest) = Some (s, rest).
Proof.
  unfold read_text, write_text.
  rewrite append_assoc, append_cons, count_strokes_write.
  cbn [Ascii.eqb Bool.eqb]. apply take_text_append.
Qed.

Lemma write_text_nonempty (s rest : string) :
  (1 <= String.length (write_text s +:+ rest))%nat.
Proof.
  unfold write_text. rewrite !length_append. cbn [String.length]. lia.
Qed.

Lemma read_fields_write (fields : list (string * jvalue)) : forall fuel,
  forallb (fun kv => is_jstring (snd kv)) fields = true ->
  (String.length (write_fields fields) <= fuel)%nat ->
  read_fields fuel (write_fields fields) = Some fields.
Proof.
  induction fields as [|[k v] fields IH]; intros fuel Hstr Hfuel.
  - by destruct fuel.
  - cbn [forallb snd] in Hstr. apply andb_true_iff in Hstr as [Hv Hstr].
    destruct v as [| | |s| |]; try done. cbn [write_fields text_of] in *.
    pose proof (write_text_nonempty k
                  (write_text s +:+ write_fields fields)) as Hk.
    pose proof (write_text_nonempty s (write_fields fields)) as Hs.
    destruct fuel as [|fuel]; [lia|].
    destruct (write_text k +:+ write_text s +:+ write_fields fields)
      as [|c rest] eqn:Hw; [cbn in Hk; lia|].
    cbn [read_fields]. rewrite <- Hw. rewrite !read_text_write.
    rewrite IH; [done|done|].
    rewrite <- Hw in Hfuel.
    rewrite length_append in Hfuel.
    assert (1 <= String.length (write_text k))%nat
      by (unfold write_text; rewrite length_append; cbn; lia).
    rewrite length_append in Hfuel. lia.
Qed.

Lemma toy_loads_dumps (fields : list (string * jvalue)) :
  List.NoDup (List.map fst fields) ->
  forallb (fun kv => is_jstring (snd kv)) fields = true ->
  toy_loads (toy_dumps (JObject fields)) = Ret (JObject fields).
Proof.
  intros _ Hstr. cbn [toy_dumps toy_loads Ascii.eqb Bool.eqb].
  by rewrite read_fields_write.
Qed.

Lemma toy_loads_raises (s : string) (e : exn) :
  toy_loads s = Raise e -> isinstance e CValueError = true.
Proof.
  unfold toy_loads. destruct s as [|c rest]; [by intros [= <-]|].
  destruct (Ascii.eqb c "{").
  - destruct (read_fields _ _); [done|by intros [= <-]].
  - destruct (String.eqb _ _); [done|by intros [= <-]].
Qed.

#[export] Instance toy_json : Json := {|
  dumps := toy_dumps;
  loads := toy_loads;
  loads_dumps := toy_loads_dumps;
  loads_raises := toy_loads_raises
|}.

End ReferenceJsonFacts.

(** X22. A flash cookie is read back as it was written for five minutes:
    [get_flash] on what [set_flash] returned gives the message and its
    category. *)
Theorem flash_round_trip `{TimestampSigner} `{!Json}
    (message category cookie_value : string) (created now : Z) :
  set_flash message category created = Ret cookie_value ->
  cookie_value <> "" ->
  0 <= created <= now ->
  now - created <= 300 ->
  get_flash (Some cookie_value) now
  = Ret (Some (JString message, JString category)).
Proof.
  intros Hset Hne Hc Hage. unfold set_flash in Hset. unfold get_flash.
  rewrite truthy_nonempty by done.
  rewrite (signed_token_unsigns _ _ _ _ _ Hset Hc Hage).
  cbn [bind]. rewrite decode_encode. cbn [bind].
  rewrite loads_dumps; [done| |done].
  cbn [List.map fst].
  apply List.NoDup_cons; [|apply List.NoDup_cons; [|apply List.NoDup_nil]].
  - by intros [[=]|[]].
  - by intros [].
Qed.

Lemma flash_round_trip_witness :
  get_flash (Some "TT.{1111111:message11:hi11111111:category1111:info") 100
  = Ret (Some (JString "hi", JString "info")).
Proof.
  apply (flash_round_trip "hi" "info" _ 2 100); [by vm_compute|done|lia|lia].
Defined.

Section FlashFacts.



End FlashFacts.


(** ** Commands: ingestion, lookup, deletion, paging *)

Section CommandFacts.

Lemma in_same_key {A B} (f : A -> B) (l : list A) (a b : A) :
  List.NoDup (List.map f l) -> In a l -> In b l -> f a = f b -> a = b.
Proof.
  induction l as [|c l IH]; [done|].
  cbn [List.map]. intros Hnd Ha Hb Hf. inversion Hnd as [|? ? Hc Hl]; subst.
  destruct Ha as [->|Ha], Hb as [->|Hb]; [done|..].
  - destruct Hc. rewrite Hf. by apply List.in_map.
  - destruct Hc. rewrite <- Hf. by apply List.in_map.
  - by apply IH.
Qed.

Lemma append_inj_r (p a b : string) : p +:+ a = p +:+ b -> a = b.
Proof.
  induction p as [|c p IH]; [by rewrite !append_nil_l|].
  rewrite !append_cons. intros [= Heq]. by apply IH.
Qed.

Lemma api_commands_key_inj (a b : User.t) :
  0 <= uuid_int (User.id a) < 2 ^ 128 ->
  0 <= uuid_int (User.id b) < 2 ^ 128 ->
  api_commands_key a = api_commands_key b -> User.id a = User.id b.
Proof.
  intros Ha Hb Heq. apply append_inj_r in Heq.
  pose proof (UUID_of_str_of_UUID _ Ha) as Hra.
  pose proof (UUID_of_str_of_UUID _ Hb) as Hrb.
  rewrite Heq in Hra. congruence.
Qed.

Lemma create_command_limiter (cmd : CommandCreate) (current_user : User.t)
    (db : History) (rl : RateLimiter) (now : Q) (utcnow timestamp : Z)
    (new_host_id new_command_id : UUID) :
  snd (fst (create_command cmd current_user db rl now utcnow timestamp
              new_host_id new_command_id))
  = snd (is_allowed rl (api_commands_key current_user) 1000 60 now).
Proof.
  unfold create_command.
  destruct (is_allowed rl _ 1000 60 now) as [[allowed remaining] rl'].
  destruct allowed; cbn [negb snd]; [|done].
  by destruct (List.find _ (hosts db)).
Qed.

(** The limiter matters to [create_command] through the answer of
    [is_allowed] only. *)
Lemma create_command_allowed (cmd : CommandCreate) (current_user : User.t)
    (db : History) (rl rl' : RateLimiter) (now : Q) (utcnow timestamp : Z)
    (new_host_id new_command_id : UUID) :
  fst (is_allowed rl' (api_commands_key current_user) 1000 60 now)
  = fst (is_allowed rl (api_commands_key current_user) 1000 60 now) ->
  fst (fst (create_command cmd current_user db rl' now utcnow timestamp
              new_host_id new_command_id))
  = fst (fst (create_command cmd current_user db rl now utcnow timestamp
                new_host_id new_command_id)).
Proof.
  unfold create_command.
  destruct (is_allowed rl' _ 1000 60 now) as [[allowed' remaining'] rl1'].
  destruct (is_allowed rl _ 1000 60 now) as [[allowed remaining] rl1].
  cbn [fst]. intros [= -> ->].
  destruct allowed; cbn [negb fst]; [|done].
  by destruct (List.find _ (hosts db)).
Qed.

Lemma touch_host_others (current_user : User.t) (hosts : list Host.t)
    (host : Host.t) (when : Z) :
  List.NoDup (List.map Host.id hosts) ->
  In host hosts -> host_of current_user host = true ->
  List.filter (fun h => negb (host_of current_user h))
    (touch_host hosts host when)
  = List.filter (fun h => negb (host_of current_user h)) hosts.
Proof.
  intros Hnd Hin Hown. unfold touch_host.
  assert (Hsame : forall h, In h hosts ->
            UUID_eqb (Host.id h) (Host.id host) = true ->
            host_of current_user h = true).
  { intros h Hh Heq. apply UUID_eqb_eq in Heq.
    by rewrite (in_same_key Host.id hosts h host Hnd Hh Hin Heq). }
  clear Hnd Hin. induction hosts as [|h hosts IH]; [done|].
  cbn [List.map List.filter].
  rewrite IH by (intros h' Hh'; apply Hsame; by right).
  destruct (UUID_eqb (Host.id h) (Host.id host)) eqn:Heq; [|done].
  pose proof (Hsame h (or_introl eq_refl) Heq) as Hh.
  unfold host_of in *. cbn [Host.user_id]. by rewrite Hh.
Qed.

Lemma touch_host_elem (hosts : list Host.t) (host : Host.t) (when : Z) :
  In host hosts ->
  exists h, In h (touch_host hosts host when)
            /\ Host.id h = Host.id host
            /\ Host.hostname h = Host.hostname host
            /\ Host.user_id h = Host.user_id host.
Proof.
  intros Hin. unfold touch_host.
  eexists. split; [apply List.in_map_iff; by exists host|].
  by rewrite (proj2 (UUID_eqb_eq _ _) eq_refl).
Qed.

Lemma filter_snoc {A} (f : A -> bool) (l : list A) (a : A) :
  f a = false -> List.filter f (l ++ [a]) = List.filter f l.
Proof.
  intros Ha. rewrite List.filter_app. cbn [List.filter]. rewrite Ha.
  apply app_nil_r.
Qed.

End CommandFacts.

(** X24. Ingesting a command writes to the caller's own data only: given
    unique host ids, the commands and hosts of every other user are as
    before, a stored command belongs to the caller and to a host of the
    caller that bears the command's hostname, and a rate-limited call
    (429, the only exception) stores and indexes nothing. *)
Theorem create_command_scoped (cmd : CommandCreate) (current_user : User.t)
    (db : History) (rl : RateLimiter) (now : Q) (utcnow timestamp : Z)
    (new_host_id new_command_id : UUID) :
  List.NoDup (List.map Host.id (hosts db)) ->
  let outcome :=
    create_command cmd current_user db rl now utcnow timestamp new_host_id
      new_command_id in
  let response := fst (fst (fst outcome)) in
  let db' := snd (fst (fst outcome)) in
  List.filter (fun c => negb (command_of current_user c)) (commands db')
  = List.filter (fun c => negb (command_of current_user c)) (commands db)
  /\ List.filter (fun h => negb (host_of current_user h)) (hosts db')
     = List.filter (fun h => negb (host_of current_user h)) (hosts db)
  /\ (forall e, response = Raise e ->
        e = HTTPException 429 "Rate limit exceeded. Please slow down."
        /\ db' = db /\ snd outcome = [])
  /\ (forall c, response = Ret c ->
        commands db' = commands db ++ [c]
        /\ command_of current_user c = true
        /\ snd outcome = [IndexCommand c]
        /\ exists h,
             In h (hosts db')
             /\ Command.host_id c = Some (Host.id h)
             /\ host_of current_user h = true
             /\ Host.hostname h = Command.hostname c).
Proof.
  intros Hnd. cbn zeta. unfold create_command.
  destruct (is_allowed rl _ 1000 60 now) as [[allowed remaining] rl'].
  destruct allowed; cbn [negb].
  2:{ cbn [fst snd]. split; [done|]. split; [done|].
      split; [by intros e [= <-]|done]. }
  assert (Hself : UUID_eqb (User.id current_user) (User.id current_user)
                  = true) by by apply UUID_eqb_eq.
  destruct (List.find _ (hosts db)) as [host|] eqn:Hfind;
    cbn [fst snd commands hosts].
  - apply List.find_some in Hfind as [Hin Hmatch].
    apply andb_true_iff in Hmatch as [Hname Hown].
    apply String.eqb_eq in Hname.
    split; [|split; [|split; [done|]]].
    + apply filter_snoc. unfold command_of. cbn. by rewrite Hself.
    + by apply touch_host_others.
    + intros c [= <-]. split; [done|]. unfold command_of.
      cbn [Command.user_id Command.host_id Command.hostname].
      split; [done|]. split; [done|].
      destruct (touch_host_elem (hosts db) host utcnow Hin)
        as (h & Hh & Hid & Hhn & Hu).
      exists h. split; [done|]. rewrite Hid. split; [done|].
      unfold host_of in *. rewrite Hu. split; [done|]. by rewrite Hhn.
  - split; [|split; [|split; [done|]]].
    + apply filter_snoc. unfold command_of. cbn. by rewrite Hself.
    + apply filter_snoc. unfold host_of. cbn. by rewrite Hself.
    + intros c [= <-]. split; [done|]. unfold command_of.
      cbn [Command.user_id Command.host_id Command.hostname].
      split; [done|]. split; [done|].
      eexists. split; [apply in_app_iff; right; by left|].
      unfold host_of. cbn. by rewrite Hself.
Qed.

Lemma create_command_scoped_witness :
  List.filter (fun h => negb (host_of Example.alice h))
    (hosts (snd (fst (fst (create_command ExampleHistory.upload Example.alice
                             ExampleHistory.db ∅ (1000 # 1)%Q 950 951
                             (mkUUID 22) (mkUUID 34))))))
  = List.filter (fun h => negb (host_of Example.alice h))
      (hosts ExampleHistory.db).
Proof.
  assert (Hnd : List.NoDup (List.map Host.id (hosts ExampleHistory.db))).
  { vm_compute. repeat constructor; cbn; intuition discriminate. }
  destruct (create_command_scoped ExampleHistory.upload Example.alice
              ExampleHistory.db ∅ (1000 # 1)%Q 950 951 (mkUUID 22)
              (mkUUID 34) Hnd) as (_ & Hhosts & _).
  exact Hhosts.
Defined.

(** X25. The ingestion quota is per user: a call of [create_command] by
    one user changes neither the response to the next call of a user
    with another id nor what that call stores. *)
Theorem create_command_quota_per_user (cmd cmd' : CommandCreate)
    (current_user other_user : User.t) (db db' : History) (rl : RateLimiter)
    (now now' : Q) (utcnow timestamp utcnow' timestamp' : Z)
    (new_host_id new_command_id new_host_id' new_command_id' : UUID) :
  0 <= uuid_int (User.id current_user) < 2 ^ 128 ->
  0 <= uuid_int (User.id other_user) < 2 ^ 128 ->
  User.id current_user <> User.id other_user ->
  let rl' :=
    snd (fst (create_command cmd' other_user db' rl now' utcnow' timestamp'
                new_host_id' new_command_id')) in
  fst (fst (create_command cmd current_user db rl' now utcnow timestamp
              new_host_id new_command_id))
  = fst (fst (create_command cmd current_user db rl now utcnow timestamp
                new_host_id new_command_id)).
Proof.
  intros Hc Ho Hne. cbn zeta. apply create_command_allowed.
  rewrite create_command_limiter.
  apply is_allowed_history_ext, history_ext, is_allowed_other_key.
  intros Heq. apply Hne. symmetry. by apply api_commands_key_inj.
Qed.

Lemma create_command_quota_per_user_witness :
  fst (fst (create_command ExampleHistory.upload Example.alice
              ExampleHistory.db
              (snd (fst (create_command ExampleHistory.upload Example.carol
                           ExampleHistory.db ∅ (999 # 1)%Q 949 949
                           (mkUUID 23) (mkUUID 35))))
              (1000 # 1)%Q 950 951 (mkUUID 22) (mkUUID 34)))
  = fst (fst (create_command ExampleHistory.upload Example.alice
                ExampleHistory.db ∅ (1000 # 1)%Q 950 951 (mkUUID 22)
                (mkUUID 34))).
Proof.
  apply (create_command_quota_per_user ExampleHistory.upload
           ExampleHistory.upload Example.alice Example.carol);
    [by vm_compute|by vm_compute|by vm_compute].
Defined.

Section CommandLookupFacts.

Lemma command_by_id_elem (db : History) (command_id : UUID)
    (current_user : User.t) (c : Command.t) :
  command_by_id db command_id current_user = Some c ->
  In c (commands db) /\ Command.id c = command_id
  /\ command_of current_user c = true.
Proof.
  intros [Hin Hmatch]%List.find_some.
  apply andb_true_iff in Hmatch as [Hid Hown]. by apply UUID_eqb_eq in Hid.
Qed.

Lemma command_of_user_id (current_user : User.t) (c : Command.t) :
  command_of current_user c = true ->
  Command.user_id c = Some (User.id current_user).
Proof.
  unfold command_of. destruct (Command.user_id c) as [u|]; [|done].
  by intros ->%UUID_eqb_eq.
Qed.

Lemma delete_others (current_user : User.t) (rows : list Command.t)
    (command : Command.t) :
  List.NoDup (List.map Command.id rows) ->
  In command rows -> command_of current_user command = true ->
  List.filter (fun c => negb (command_of current_user c))
    (List.filter
       (fun c => negb (UUID_eqb (Command.id c) (Command.id command))) rows)
  = List.filter (fun c => negb (command_of current_user c)) rows.
Proof.
  intros Hnd Hin Hown.
  assert (Hsame : forall c, In c rows ->
            UUID_eqb (Command.id c) (Command.id command) = true ->
            command_of current_user c = true).
  { intros c Hc Heq. apply UUID_eqb_eq in Heq.
    by rewrite (in_same_key Command.id rows c command Hnd Hc Hin Heq). }
  clear Hnd Hin. induction rows as [|c rows IH]; [done|].
  cbn [List.filter].
  specialize (IH (fun c' Hc' => Hsame c' (or_intror Hc'))).
  destruct (UUID_eqb (Command.id c) (Command.id command)) eqn:Heq;
    cbn [negb List.filter].
  - rewrite (Hsame c (or_introl eq_refl) Heq). cbn [negb]. done.
  - by rewrite IH.
Qed.

End CommandLookupFacts.

(** X26. A command is read and deleted by its owner only.  [get_command]
    returns a row of the caller that has the id asked for; given unique
    command ids, [delete_command] leaves the rows of every other user and
    all hosts as they are, answers 404 without touching the table or the
    index when the id is not one of the caller's, and after a deletion
    the command is gone for [get_command]. *)
Theorem commands_owner_only (command_id : UUID) (current_user : User.t)
    (db : History) :
  List.NoDup (List.map Command.id (commands db)) ->
  let outcome := delete_command command_id current_user db in
  let db' := snd (fst outcome) in
  let not_found := HTTPException 404 "Command not found" in
  (forall c, get_command command_id current_user db = Ret c ->
             In c (commands db) /\ Command.id c = command_id
             /\ Command.user_id c = Some (User.id current_user))
  /\ List.filter (fun c => negb (command_of current_user c)) (commands db')
     = List.filter (fun c => negb (command_of current_user c)) (commands db)
  /\ hosts db' = hosts db
  /\ ((forall c, In c (commands db) -> Command.id c = command_id ->
                 command_of current_user c = false) ->
      get_command command_id current_user db = Raise not_found
      /\ outcome = (Raise not_found, db, []))
  /\ (returns (fst (fst outcome)) ->
      get_command command_id current_user db' = Raise not_found).
Proof.
  intros Hnd. cbn zeta. unfold get_command, delete_command.
  destruct (command_by_id db command_id current_user) as [command|]
    eqn:Hfind.
  - apply command_by_id_elem in Hfind as (Hin & Hid & Hown).
    cbn [fst snd commands hosts]. split; [|split; [|split; [done|split]]].
    + intros c [= <-]. split; [done|]. split; [done|].
      by apply command_of_user_id.
    + by apply delete_others.
    + intros Hothers. by rewrite (Hothers command Hin Hid) in Hown.
    + intros _. unfold command_by_id. cbn [commands].
      rewrite find_absent; [done|].
      intros c [Hc Hkeep]%filter_In.
      apply negb_true_iff in Hkeep. rewrite <- Hid. by rewrite Hkeep.
  - cbn [fst snd]. split; [done|]. split; [done|]. split; [done|].
    split; [done|]. by intros [? ?].
Qed.

Lemma commands_owner_only_witness :
  get_command (mkUUID 31) Example.alice ExampleHistory.db
  = Raise (HTTPException 404 "Command not found")
  /\ delete_command (mkUUID 31) Example.alice ExampleHistory.db
     = (Raise (HTTPException 404 "Command not found"), ExampleHistory.db, []).
Proof.
  assert (Hnd : List.NoDup (List.map Command.id (commands ExampleHistory.db))).
  { vm_compute. repeat constructor; cbn; intuition discriminate. }
  destruct (commands_owner_only (mkUUID 31) Example.alice ExampleHistory.db
              Hnd) as (_ & _ & _ & Hnot & _).
  apply Hnot. intros c Hc. vm_compute in Hc.
  destruct Hc as [<-|[<-|[<-|[<-|[]]]]]; by vm_compute.
Defined.

Section PagingFacts.

Lemma insert_desc_length (c : Command.t) (sorted : list Command.t) :
  List.length (insert_desc c sorted) = S (List.length sorted).
Proof.
  induction sorted as [|c' rest IH]; [done|].
  cbn [insert_desc]. destruct (_ <? _); cbn [List.length]; by rewrite ?IH.
Qed.

Lemma insert_desc_elem (c x : Command.t) (sorted : list Command.t) :
  In x (insert_desc c sorted) -> x = c \/ In x sorted.
Proof.
  induction sorted as [|c' rest IH]; cbn [insert_desc].
  - intros [<-|[]]. by left.
  - destruct (_ <? _).
    + intros [<-|Hx]; by auto.
    + intros [<-|Hx]; [right; by left|].
      destruct (IH Hx) as [->|Hin]; [by left|right; by right].
Qed.

Lemma order_by_desc_timestamp_length (rows : list Command.t) :
  List.length (order_by_desc_timestamp rows) = List.length rows.
Proof.
  induction rows as [|c rows IH]; [done|].
  cbn [order_by_desc_timestamp List.fold_right].
  fold (order_by_desc_timestamp rows).
  by rewrite insert_desc_length, IH.
Qed.

Lemma order_by_desc_timestamp_elem (rows : list Command.t) (x : Command.t) :
  In x (order_by_desc_timestamp rows) -> In x rows.
Proof.
  induction rows as [|c rows IH]; [done|].
  cbn [order_by_desc_timestamp List.fold_right].
  fold (order_by_desc_timestamp rows).
  intros [->|Hx]%insert_desc_elem; [by left|right; by apply IH].
Qed.

Lemma page_elem {A} (n m : nat) (l : list A) (x : A) :
  In x (List.firstn n (List.skipn m l)) -> In x l.
Proof.
  intros Hx.
  assert (Hs : In x (List.skipn m l)).
  { rewrite <- (List.firstn_skipn n (List.skipn m l)).
    apply in_app_iff. by left. }
  rewrite <- (List.firstn_skipn m l). apply in_app_iff. by right.
Qed.

(** A filter that is applied only when its criterion is given. *)
Lemma optional_filter_elem {A B} (criterion : option B)
    (f : B -> A -> bool) (l : list A) (x : A) :
  In x (match criterion with
        | Some b => List.filter (f b) l
        | None => l
        end) ->
  In x l /\ forall b, criterion = Some b -> f b x = true.
Proof.
  destruct criterion as [b|].
  - intros [Hin Hf]%filter_In. split; [done|]. by intros ? [= <-].
  - done.
Qed.

End PagingFacts.

(** X27. A page of [search_commands] holds commands of the caller only,
    each meeting the criteria given (an empty hostname is no criterion,
    exit code 0 is one); it holds at most [page_size] of them, the total
    is the same on every page, and [has_more] is set exactly when the
    next page is not empty. *)
Theorem search_commands_pages (hostname username : option string)
    (start_date end_date exit_code : option Z) (page page_size : Z)
    (current_user : User.t) (db : History) :
  0 <= page -> 1 <= page_size ->
  let found :=
    search_commands hostname username start_date end_date exit_code page
      page_size current_user db in
  let next :=
    search_commands hostname username start_date end_date exit_code
      (page + 1) page_size current_user db in
  (forall c, In c (items found) ->
     In c (commands db)
     /\ Command.user_id c = Some (User.id current_user)
     /\ (forall h, truthy hostname = Some h -> Command.hostname c = h)
     /\ (forall code, exit_code = Some code ->
                      Command.exit_code c = Some code))
  /\ Z.of_nat (List.length (items found))
     = Z.max 0 (Z.min page_size (total found - page * page_size))
  /\ total next = total found
  /\ (has_more found = true <-> items next <> []).
Proof.
  intros Hpage Hsize. cbn zeta. unfold search_commands.
  cbn [items total has_more].
  set (q0 := List.filter (command_of current_user) (commands db)).
  set (q1 := match truthy hostname with Some _ => _ | None => _ end).
  set (q2 := match truthy username with Some _ => _ | None => _ end).
  set (q3 := match start_date with Some _ => _ | None => _ end).
  set (q4 := match end_date with Some _ => _ | None => _ end).
  set (q5 := match exit_code with Some _ => _ | None => _ end).
  set (sorted := order_by_desc_timestamp q5).
  assert (Hlen : List.length sorted = List.length q5)
    by apply order_by_desc_timestamp_length.
  split; [|split; [|split; [done|]]].
  - intros c Hc. apply page_elem, order_by_desc_timestamp_elem in Hc.
    apply (optional_filter_elem exit_code
             (fun exit_code c =>
                match Command.exit_code c with
                | Some code => code =? exit_code
                | None => false
                end)) in Hc as [Hc Hcode].
    apply (optional_filter_elem end_date
             (fun end_date c => Command.timestamp c <=? end_date))
      in Hc as [Hc _].
    apply (optional_filter_elem start_date
             (fun start_date c => start_date <=? Command.timestamp c))
      in Hc as [Hc _].
    apply (optional_filter_elem (truthy username)
             (fun username c => String.eqb (Command.username c) username))
      in Hc as [Hc _].
    apply (optional_filter_elem (truthy hostname)
             (fun hostname c => String.eqb (Command.hostname c) hostname))
      in Hc as [Hc Hhost].
    apply filter_In in Hc as [Hc Hown].
    split; [done|]. split; [by apply command_of_user_id|]. split.
    + intros h Hh. by apply String.eqb_eq, Hhost.
    + intros code Hcode'. specialize (Hcode code Hcode').
      destruct (Command.exit_code c) as [code'|]; [|done].
      by apply Z.eqb_eq in Hcode as ->.
  - rewrite List.length_firstn, List.length_skipn, Hlen. nia.
  - rewrite Z.ltb_lt. split.
    + intros Hmore Hempty.
      apply (f_equal (@List.length _)) in Hempty.
      rewrite List.length_firstn, List.length_skipn, Hlen in Hempty.
      cbn [List.length] in Hempty. nia.
    + intros Hitems.
      destruct (Z.lt_ge_cases ((page + 1) * page_size)
                  (Z.of_nat (List.length q5))) as [|Hge]; [done|].
      destruct Hitems. apply List.length_zero_iff_nil.
      rewrite List.length_firstn, List.length_skipn, Hlen. nia.
Qed.

Lemma search_commands_pages_witness :
  let found :=
    search_commands (Some "") None None None (Some 0) 0 1 Example.alice
      ExampleHistory.db in
  Z.of_nat (List.length (items found))
  = Z.max 0 (Z.min 1 (total found - 0 * 1)).
Proof.
  cbn zeta.
  destruct (search_commands_pages (Some "") None None None (Some 0) 0 1
              Example.alice ExampleHistory.db) as (_ & Hlen & _);
    [lia|lia|].
  exact Hlen.
Defined.

(** ** Password reset *)

Section ResetFacts.

Context `{TimestampSigner} `{!Bcrypt} `{!BcryptHasher} (settings : Settings).

(** The outcome of a call that reset a password. *)
Lemma reset_password_done (request : Request) (token password : string)
    (db db' : Db) (tokens tokens' : list PasswordResetToken.t)
    (utcnow used_when : Z) (salt : bytes) (url : string) (status : Z) :
  reset_password request token password db tokens utcnow used_when salt
  = (Ret (RedirectReply url status), db', tokens') ->
  exists reset_token user password_hash,
    List.find (valid_reset_token token utcnow) tokens = Some reset_token
    /\ user_by_id db (PasswordResetToken.user_id reset_token) = Some user
    /\ hash_password password salt = Ret password_hash
    /\ db' = set_password_hash db user password_hash
    /\ tokens' = mark_used tokens reset_token used_when.
Proof.
  unfold reset_password, reset_refused.
  destruct (_ <? _)%nat; [done|].
  destruct (List.find _ tokens) as [reset_token|] eqn:Hfind; [|done].
  destruct (user_by_id db _) as [user|] eqn:Huser; [|done].
  destruct (hash_password password salt) as [password_hash|]; [|done].
  intros [= <- <- <- <-]. by exists reset_token, user, password_hash.
Qed.

Lemma mark_used_spent (tokens : list PasswordResetToken.t)
    (reset_token : PasswordResetToken.t) (token : string)
    (when utcnow : Z) :
  List.NoDup (List.map PasswordResetToken.token tokens) ->
  In reset_token tokens ->
  PasswordResetToken.token reset_token = token ->
  List.find (valid_reset_token token utcnow)
    (mark_used tokens reset_token when) = None.
Proof.
  intros Hnd Hin Htoken. apply find_absent. intros t' Ht'.
  apply List.in_map_iff in Ht' as (t & <- & Ht).
  destruct (UUID_eqb (PasswordResetToken.id t)
              (PasswordResetToken.id reset_token)) eqn:Hid.
  - unfold valid_reset_token. cbn [PasswordResetToken.used_at].
    by rewrite andb_false_r.
  - unfold valid_reset_token.
    destruct (String.eqb_spec (PasswordResetToken.token t) token) as [Heq|];
      [|done].
    rewrite <- Htoken in Heq.
    rewrite (in_same_key _ _ _ _ Hnd Ht Hin Heq) in Hid.
    by rewrite (proj2 (UUID_eqb_eq _ _) eq_refl) in Hid.
Qed.

Lemma set_password_hash_elem (db : Db) (user u : User.t) (h : string) :
  In u (users (set_password_hash db user h)) ->
  User.id u = User.id user -> User.password_hash u = Some h.
Proof.
  unfold set_password_hash. cbn [users]. rewrite in_map_iff.
  intros (u0 & Hu & Hin) Hid.
  destruct (UUID_eqb (User.id u0) (User.id user)) eqn:Heq; [by subst u|].
  subst u0. apply UUID_eqb_neq in Heq. done.
Qed.

End ResetFacts.

(** X28. A reset token works once: given that token values are unique,
    after [reset_password] has succeeded with a token, every further
    call with that token is refused with status 400 and changes neither
    the users nor the tokens. *)
Theorem reset_token_single_use `{BcryptHasher} (request request' : Request)
    (token password password' : string) (db db' : Db)
    (tokens tokens' : list PasswordResetToken.t)
    (utcnow used_when utcnow' used_when' : Z) (salt salt' : bytes)
    (url : string) (status : Z) :
  List.NoDup (List.map PasswordResetToken.token tokens) ->
  reset_password request token password db tokens utcnow used_when salt
  = (Ret (RedirectReply url status), db', tokens') ->
  exists error,
    reset_password request' token password' db' tokens' utcnow' used_when'
      salt'
    = (Ret (reset_refused request' token error), db', tokens').
Proof.
  intros Hnd Hreset.
  apply reset_password_done in Hreset
    as (reset_token & user & password_hash & Hfind & _ & _ & _ & ->).
  apply List.find_some in Hfind as [Hin Hvalid].
  unfold valid_reset_token in Hvalid.
  apply andb_true_iff in Hvalid as [Hvalid _].
  apply andb_true_iff in Hvalid as [Htoken _].
  apply String.eqb_eq in Htoken.
  unfold reset_password.
  destruct (_ <? _)%nat; [by eexists|].
  rewrite mark_used_spent by done. by eexists.
Qed.

Lemma reset_token_single_use_witness :
  let first :=
    reset_password (mkRequest "/reset-password" ∅ ∅ None) "reset-carol"
      "correct horse" Example.db ExampleReset.tokens 2000 2001 "salt" in
  exists error,
    reset_password (mkRequest "/reset-password" ∅ ∅ None) "reset-carol"
      "battery staple" (snd (fst first)) (snd first) 2100 2101 "salt"
    = (Ret (reset_refused (mkRequest "/reset-password" ∅ ∅ None)
              "reset-carol" error),
       snd (fst first), snd first).
Proof.
  cbn zeta.
  apply (reset_token_single_use (mkRequest "/reset-password" ∅ ∅ None) _
           "reset-carol" "correct horse" "battery staple" Example.db _
           ExampleReset.tokens _ 2000 2001 2100 2101 "salt" "salt"
           "/login?reset=success" 303).
  - vm_compute. repeat constructor; cbn; intuition discriminate.
  - by vm_compute.
Defined.

(** X29. The password set by [reset_password] opens the login form: after
    a successful reset for a user, [handle_login] with that user's name
    and the new password redirects with a session cookie, provided the
    account is active, passes the role check, and the client is not rate
    limited. *)
Theorem reset_then_login `{TimestampSigner} `{!Bcrypt} `{!BcryptHasher}
    (settings : Settings) (request request' : Request)
    (token password : string) (db db' : Db)
    (tokens tokens' : list PasswordResetToken.t)
    (utcnow used_when : Z) (salt : bytes) (url : string) (status : Z)
    (reset_token : PasswordResetToken.t) (user : User.t)
    (template_name redirect_url rate_limit_key : string)
    (require_admin : bool) (rl : RateLimiter) (now : Q) (clock : Z) :
  reset_password request token password db tokens utcnow used_when salt
  = (Ret (RedirectReply url status), db', tokens') ->
  List.find (valid_reset_token token utcnow) tokens = Some reset_token ->
  user_by_username db' (User.username user) = Some user ->
  User.id user = PasswordResetToken.user_id reset_token ->
  User.is_active user = true ->
  require_admin = false \/ User.role user = "admin" ->
  fst (fst (is_allowed rl (limit_key request' rate_limit_key) 5 900 now))
  = true ->
  exists session_token,
    fst (fst (handle_login settings request' (User.username user) password
                db' template_name redirect_url rate_limit_key require_admin
                rl now clock))
    = Ret (RedirectResponse redirect_url 303
             (session_cookie settings session_token)).
Proof.
  intros Hreset Hfind Huser Hid Hactive Hrole Hallowed.
  apply reset_password_done in Hreset
    as (reset_token' & owner & password_hash & Hfind' & Howner & Hhash
        & -> & _).
  assert (reset_token' = reset_token) as -> by congruence.
  apply user_by_id_elem in Howner as [_ Howner].
  apply UUID_eqb_eq in Howner.
  assert (Hstored : User.password_hash user = Some password_hash).
  { apply (set_password_hash_elem db owner); [|congruence].
    by apply find_elem in Huser as [? _]. }
  assert (Hok : password_ok user password = true).
  { unfold password_ok. rewrite Hstored.
    rewrite truthy_nonempty by by eapply hash_password_nonempty.
    by eapply hash_password_accepts. }
  rewrite (login_verified _ _ _ _ _ _ _ _ _ user) by done.
  rewrite Hactive. cbn [negb].
  destruct (create_session_returns (User.id user) clock)
    as [session_token Hsession].
  exists session_token. rewrite Hsession.
  destruct Hrole as [-> | ->]; [done|]. cbn. by rewrite andb_false_r.
Qed.

Lemma reset_then_login_witness :
  exists session_token,
    fst (fst (handle_login Example.settings
                (mkRequest "/login" ∅ ∅ (Some "10.0.0.3")) "carol"
                "correct horse"
                (snd (fst (reset_password
                             (mkRequest "/reset-password" ∅ ∅ None)
                             "reset-carol" "correct horse" Example.db
                             ExampleReset.tokens 2000 2001 "salt")))
                "user/login.html" "/account" "login" false ∅ (3000 # 1)%Q 7))
    = Ret (RedirectResponse "/account" 303
             (session_cookie Example.settings session_token)).
Proof.
  apply (reset_then_login Example.settings
           (mkRequest "/reset-password" ∅ ∅ None)
           (mkRequest "/login" ∅ ∅ (Some "10.0.0.3"))
           "reset-carol" "correct horse" Example.db _ ExampleReset.tokens
           (snd (reset_password (mkRequest "/reset-password" ∅ ∅ None)
                   "reset-carol" "correct horse" Example.db
                   ExampleReset.tokens 2000 2001 "salt"))
           2000 2001 "salt" "/login?reset=success" 303
           ExampleReset.carol_reset
           (User.mk (mkUUID 3) "carol" "carol@example.com" "user"
                    (Some "$2b$correct horse") true));
    try (by vm_compute). by left.
Defined.

(** ** The exception handler *)

Section HandlerFacts.

Lemma ui_route_not_api (path : string) :
  startswith path "/admin" || startswith path "/account"
  || startswith path "/history" = true ->
  startswith path "/api/" = false.
Proof.
  unfold startswith.
  destruct path as [|c1 [|c2 [|c3 rest]]]; cbn [String.prefix orb];
    repeat (match goal with
            | |- context [ascii_dec ?a ?b] =>
                destruct (ascii_dec a b) as [?|?];
                [try discriminate; try subst b|]
            end; cbn [String.prefix orb]);
    done.
Qed.

End HandlerFacts.

(** X30. What [http_exception_handler] answers is settled by three facts:
    a 401 raised for a browser request on a path under /admin, /account
    or /history is redirected, to /admin/login under /admin and to /login
    otherwise; every other exception, and every exception on a path under
    /api/, is answered in JSON with its own status and detail.  The test
    on /api/ in the code never decides. *)
Theorem http_exception_handler_redirects (request : Request)
    (status_code : Z) (detail : string) :
  let reply := http_exception_handler request status_code detail in
  let path := url_path request in
  let redirected :=
    (status_code =? 401) && is_browser_request request
    && (startswith path "/admin" || startswith path "/account"
        || startswith path "/history") in
  reply
  = (if redirected
     then RedirectReply
            (if startswith path "/admin" then "/admin/login" else "/login") 303
     else JSONReply status_code detail)
  /\ (startswith path "/api/" = true -> reply = JSONReply status_code detail).
Proof.
  cbn zeta. unfold http_exception_handler, is_ui_route.
  destruct (status_code =? 401); cbn [andb]; [|done].
  destruct (is_browser_request request); cbn [andb].
  2:{ done. }
  destruct (startswith (url_path request) "/admin"
            || startswith (url_path request) "/account"
            || startswith (url_path request) "/history") eqn:Hui.
  - rewrite (ui_route_not_api _ Hui). cbn [negb andb].
    split; [by destruct (startswith _ "/admin")|done].
  - done.
Qed.
